(** * zapbuycrypto: command interpretation and trade execution

    A shallow embedding of [main.go] (the Gin service that answers balance
    queries and places market buy orders on Binance, over REST and over a
    WhatsApp webhook), and the properties of its specification.

    The definitions come first:
    - [GoStrings], [GoFloat]: what the handlers use of Go's [strings],
      [strconv] and [fmt] ([float64] is IEEE 754 binary64);
    - [Account]: the snapshot and the balance evaluator ([isFiat],
      [getFiatBalances], [hasSufficientBalance]);
    - [Signer]: SHA-256, HMAC and [createSignature];
    - [Url]: [url.Values] and its encoding;
    - the world of a request (HTTP, clock, environment, JSON codec), the
      monad of the handlers, the exchange client ([getAccountInfo],
      [buyCrypto]), the notifier ([replyWhatsApp]) and the Gin handlers;
    - [Parser]: the command parser and the orchestrator as the
      specification describes them;
    - [Sample]: worlds and data for the examples.
    The theorems follow, by component. *)

From Stdlib Require Import ZArith NArith List Bool Ascii String Lia Floats.
From Stdlib Require DecimalString.
From stdpp Require Import base option list sorting gmap strings.
Import ListNotations.

Set Warnings "-register-all".

Local Open Scope list_scope.
Local Open Scope string_scope.

(* ===================================================================== *)
(** * Go's [strings] package, on byte strings *)
(* ===================================================================== *)

(** A Go [string] is a sequence of bytes; [string] of the Standard Library
    is a list of 8-bit [ascii] characters, so the two coincide. [ToLower],
    [ToUpper], [TrimSpace] and [Fields] have in Go a path for ASCII text,
    written out below, and a path through the tables of the [unicode]
    package, taken as soon as a byte above 0x7F is met; what the tables
    answer is a parameter, [Unicode]. [HasPrefix], [Contains] and [Replace]
    work on bytes. *)
Module GoStrings.

Definition byte_of (c : ascii) : Z := Z.of_N (N_of_ascii c).

(** [strings.asciiSpace]: tab, line feed, vertical tab, form feed,
    carriage return and space. *)
Definition isSpace (c : ascii) : bool :=
  let b := byte_of c in
  ((9 <=? b) && (b <=? 13) || (b =? 32))%Z.

Definition isUpper (c : ascii) : bool :=
  let b := byte_of c in ((65 <=? b) && (b <=? 90))%Z.

Definition isLower (c : ascii) : bool :=
  let b := byte_of c in ((97 <=? b) && (b <=? 122))%Z.

Definition isDigit (c : ascii) : bool :=
  let b := byte_of c in ((48 <=? b) && (b <=? 57))%Z.

Definition lowerByte (c : ascii) : ascii :=
  if isUpper c then ascii_of_N (N_of_ascii c + 32) else c.

Definition upperByte (c : ascii) : ascii :=
  if isLower c then ascii_of_N (N_of_ascii c - 32) else c.

Fixpoint mapBytes (f : ascii -> ascii) (s : string) : string :=
  match s with
  | EmptyString => EmptyString
  | String c s' => String (f c) (mapBytes f s')
  end.

Fixpoint allBytes (p : ascii -> bool) (s : string) : bool :=
  match s with
  | EmptyString => true
  | String c s' => p c && allBytes p s'
  end.

(** A byte below [utf8.RuneSelf]. *)
Definition isASCIIByte (c : ascii) : bool := (byte_of c <? 128)%Z.

Definition isASCII (s : string) : bool := allBytes isASCIIByte s.

(** The functions of [strings] that go through the [unicode] package:
    [strings.Map(unicode.ToLower, s)], [strings.Map(unicode.ToUpper, s)],
    [strings.TrimLeftFunc(s, unicode.IsSpace)],
    [strings.TrimRightFunc(s, unicode.IsSpace)] and
    [strings.FieldsFunc(s, unicode.IsSpace)]. *)
Record Unicode := {
  MapToLower : string -> string;
  MapToUpper : string -> string;
  TrimLeftSpace : string -> string;
  TrimRightSpace : string -> string;
  FieldsSpace : string -> list string
}.

(** [strings.ToLower] and [strings.ToUpper]: the byte map on ASCII text. *)
Definition ToLower (u : Unicode) (s : string) : string :=
  if isASCII s then mapBytes lowerByte s else MapToLower u s.

Definition ToUpper (u : Unicode) (s : string) : string :=
  if isASCII s then mapBytes upperByte s else MapToUpper u s.

Fixpoint trimLeft (s : string) : string :=
  match s with
  | EmptyString => EmptyString
  | String c s' => if isSpace c then trimLeft s' else s
  end.

Fixpoint trimRight (s : string) : string :=
  match s with
  | EmptyString => EmptyString
  | String c s' =>
      match trimRight s' with
      | EmptyString => if isSpace c then EmptyString else String c EmptyString
      | t => String c t
      end
  end.

Definition startsNonASCII (s : string) : bool :=
  match s with
  | String c _ => negb (isASCIIByte c)
  | EmptyString => false
  end.

Fixpoint endsNonASCII (s : string) : bool :=
  match s with
  | EmptyString => false
  | String c EmptyString => negb (isASCIIByte c)
  | String _ s' => endsNonASCII s'
  end.

(** [strings.TrimSpace]: the ASCII white space is skipped from the left; if
    the byte met there is above 0x7F the rest is trimmed by
    [TrimFunc(unicode.IsSpace)]; otherwise the same is done from the
    right, with [TrimRightFunc]. *)
Definition TrimSpace (u : Unicode) (s : string) : string :=
  let s1 := trimLeft s in
  if startsNonASCII s1 then TrimRightSpace u (TrimLeftSpace u s1)
  else
    let s2 := trimRight s1 in
    if endsNonASCII s2 then TrimRightSpace u s2 else s2.

(** The maximal runs of bytes that are not ASCII white space, in order. *)
Fixpoint fieldsASCII (s : string) : list string :=
  match s with
  | EmptyString => []
  | String c s' =>
      if isSpace c then fieldsASCII s'
      else
        match s' with
        | EmptyString => [String c EmptyString]
        | String c' _ =>
            if isSpace c' then String c EmptyString :: fieldsASCII s'
            else
              match fieldsASCII s' with
              | t :: ts => String c t :: ts
              | [] => [String c EmptyString]
              end
        end
  end.

(** [strings.Fields]. *)
Definition Fields (u : Unicode) (s : string) : list string :=
  if isASCII s then fieldsASCII s else FieldsSpace u s.

(** [strings.HasPrefix]. *)
Definition HasPrefix (s pre : string) : bool := String.prefix pre s.

(** [strings.Contains]. *)
Fixpoint Contains (s sub : string) : bool :=
  String.prefix sub s
  || match s with
     | EmptyString => false
     | String _ s' => Contains s' sub
     end.

(** [strings.Replace s old new (-1)] for a non-empty [old]: every
    non-overlapping occurrence of [old], scanning from the left, becomes
    [new]. [skip] counts the bytes of a matched occurrence still to pass
    over. (For the empty [old] Go inserts [new] around every rune; the
    handlers only replace ["r$"] and [","], and the embedding returns [s]
    unchanged there.) *)
Fixpoint replaceFrom (old new : string) (skip : nat) (s : string) : string :=
  match s with
  | EmptyString => EmptyString
  | String c s' =>
      match skip with
      | S k => replaceFrom old new k s'
      | O =>
          if String.prefix old s
          then new ++ replaceFrom old new (String.length old - 1) s'
          else String c (replaceFrom old new 0 s')
      end
  end.

Definition ReplaceAll (s old new : string) : string :=
  match old with
  | EmptyString => s
  | _ => replaceFrom old new 0 s
  end.

End GoStrings.

Import GoStrings.

(* ===================================================================== *)
(** * [float64], [strconv.ParseFloat], [strconv.FormatInt], [%.2f] *)
(* ===================================================================== *)

(** Go's [float64] is IEEE 754 binary64, which is the kernel's primitive
    [float]; its comparisons [<?] and [<=?] are the IEEE ones ([false] as
    soon as an operand is NaN), as Go's [<] and [<=] are. The exact value of
    a float is read through [Prim2SF] (sign, mantissa, binary exponent). *)
Module GoFloat.

Definition float64 : Set := float.

Definition digitVal (c : ascii) : option Z :=
  if isDigit c then Some (byte_of c - 48)%Z else None.

(** A hexadecimal digit, either case. *)
Definition hexVal (c : ascii) : option Z :=
  let b := byte_of c in
  if isDigit c then Some (b - 48)%Z
  else if ((97 <=? b) && (b <=? 102))%Z then Some (b - 87)%Z
  else if ((65 <=? b) && (b <=? 70))%Z then Some (b - 55)%Z
  else None.

(** [commonPrefixLenIgnoreCase s prefix], for a lower-case [prefix]. *)
Fixpoint commonPrefixLenIgnoreCase (s pre : string) : nat :=
  match s, pre with
  | String c s', String p pre' =>
      if Ascii.eqb (lowerByte c) p
      then S (commonPrefixLenIgnoreCase s' pre') else O
  | _, _ => O
  end.

(** [special]: the prefixes [inf], [infinity] (with an optional sign) and
    [nan] (without one), in any case; the result is the value and the
    number of bytes it takes. *)
Definition special (s : string) : option (float64 * nat) :=
  let infOf (neg : bool) (nsign : nat) (t : string) :=
    let n := commonPrefixLenIgnoreCase t "infinity" in
    let n := if (3 <? n)%nat && (n <? 8)%nat then 3%nat else n in
    if (n =? 3)%nat || (n =? 8)%nat
    then Some (if neg then neg_infinity else infinity, (nsign + n)%nat)
    else None in
  match s with
  | String "+" t => infOf false 1%nat t
  | String "-" t => infOf true 1%nat t
  | String ("i" | "I") _ => infOf false 0%nat s
  | String ("n" | "N") _ =>
      if (commonPrefixLenIgnoreCase s "nan" =? 3)%nat
      then Some (nan, 3%nat) else None
  | _ => None
  end.

(** What the digit loop of [readFloat] has seen: every digit of the
    mantissa read in [base] (Go keeps the leading 19 and a flag for the
    rest, and goes back to the text when the flag is set: the value it
    converts is the one of all the digits), how many of them follow the
    point, and the flags of the loop. *)
Record digits := {
  mant : Z;
  fracDigits : Z;
  sawdot : bool;
  sawdigits : bool;
  underscores : bool
}.

Definition noDigits : digits :=
  {| mant := 0; fracDigits := 0; sawdot := false; sawdigits := false;
     underscores := false |}.

Fixpoint readDigits (hex : bool) (st : digits) (s : string)
  : digits * string :=
  match s with
  | EmptyString => (st, s)
  | String c s' =>
      if Ascii.eqb c "_" then
        readDigits hex
          {| mant := mant st; fracDigits := fracDigits st;
             sawdot := sawdot st; sawdigits := sawdigits st;
             underscores := true |} s'
      else if Ascii.eqb c "." then
        if sawdot st then (st, s)
        else readDigits hex
               {| mant := mant st; fracDigits := fracDigits st;
                  sawdot := true; sawdigits := sawdigits st;
                  underscores := underscores st |} s'
      else
        match (if hex then hexVal c else digitVal c) with
        | Some d =>
            readDigits hex
              {| mant := (mant st * (if hex then 16 else 10) + d)%Z;
                 fracDigits :=
                   (if sawdot st then fracDigits st + 1 else fracDigits st)%Z;
                 sawdot := sawdot st; sawdigits := true;
                 underscores := underscores st |} s'
        | None => (st, s)
        end
  end.

(** The digits of an exponent: [e] grows while it is below 10000;
    underscores are skipped and flagged. The result is the exponent, the
    flag and the text left. *)
Fixpoint readExpDigits (e : Z) (us : bool) (s : string) : Z * bool * string :=
  match s with
  | EmptyString => (e, us, s)
  | String c s' =>
      if Ascii.eqb c "_" then readExpDigits e true s'
      else match digitVal c with
           | Some d =>
               readExpDigits (if (e <? 10000)%Z then e * 10 + d else e)%Z us s'
           | None => (e, us, s)
           end
  end.

(** [underscoreOK]: an underscore only between digits, or between a base
    prefix and a digit. [saw] is the class of the last byte: [0] a digit
    (or the base prefix), [1] an underscore, [2] the start, [3] anything
    else. *)
Fixpoint underscoreScan (hex : bool) (saw : nat) (s : string) : bool :=
  match s with
  | EmptyString => negb (saw =? 1)%nat
  | String c s' =>
      if isDigit c || (hex && match hexVal c with Some _ => true | None => false end)
      then underscoreScan hex 0 s'
      else if Ascii.eqb c "_"
      then (saw =? 0)%nat && underscoreScan hex 1 s'
      else negb (saw =? 1)%nat && underscoreScan hex 3 s'
  end.

Definition underscoreOK (s : string) : bool :=
  let s := match s with
           | String ("+" | "-") t => t
           | _ => s
           end in
  match s with
  | String "0" (String x t) =>
      if Ascii.eqb (lowerByte x) "b" || Ascii.eqb (lowerByte x) "o"
         || Ascii.eqb (lowerByte x) "x"
      then underscoreScan (Ascii.eqb (lowerByte x) "x") 0 t
      else underscoreScan false 2 s
  | _ => underscoreScan false 2 s
  end.

(** The number [readFloat] reads: its sign, the mantissa as an integer and
    the exponent of the base ([10], or [2] for a hexadecimal mantissa). *)
Record number := {
  neg : bool;
  hex : bool;
  mantissa : Z;
  exp : Z
}.

(** [readFloat], followed by the test of [ParseFloat] that the whole text
    was read: [None] is a syntax error. *)
Definition readFloat (s : string) : option number :=
  match s with
  | EmptyString => None
  | _ =>
    let '(ng, t) := match s with
                    | String "+" t => (false, t)
                    | String "-" t => (true, t)
                    | _ => (false, s)
                    end in
    let '(hx, t) := match t with
                    | String "0" (String x (String c t')) =>
                        if Ascii.eqb (lowerByte x) "x"
                        then (true, String c t') else (false, t)
                    | _ => (false, t)
                    end in
    let '(d, rest) := readDigits hx noDigits t in
    if negb (sawdigits d) then None
    else
      let expChar := if hx then "p"%char else "e"%char in
      let finish (us : bool) (e : Z) (rest : string) :=
        if us && negb (underscoreOK s) then None
        else match rest with
             | EmptyString =>
                 Some {| neg := ng; hex := hx; mantissa := mant d;
                         exp := (e - (if hx then 4 else 1) * fracDigits d)%Z |}
             | _ => None
             end in
      match rest with
      | String c rest' =>
          if Ascii.eqb (lowerByte c) expChar then
            let '(esign, rest') :=
              match rest' with
              | String "+" r => (1%Z, r)
              | String "-" r => ((-1)%Z, r)
              | _ => (1%Z, rest')
              end in
            match rest' with
            | String c' _ =>
                if isDigit c' then
                  let '(e, us, rest'') := readExpDigits 0 (underscores d) rest' in
                  finish us (e * esign)%Z rest''
                else None
            | EmptyString => None
            end
          else if hx then None
          else finish (underscores d) 0%Z rest
      | EmptyString =>
          if hx then None else finish (underscores d) 0%Z rest
      end
  end.

(** The binary64 nearest to the number read (ties to even), as Go's
    conversion returns it: an integer is rounded by [binary_normalize], a
    quotient [m / 10^k] by the correctly rounded division [SFdiv]. *)
Definition nearest (n : number) : spec_float :=
  let m := mantissa n in
  match m with
  | Zpos p =>
      if hex n then binary_normalize prec emax (if neg n then - m else m) (exp n) false
      else if (0 <=? exp n)%Z
      then binary_normalize prec emax
             ((if neg n then - m else m) * 10 ^ exp n) 0 false
      else SFdiv prec emax (S754_finite (neg n) p 0)
             (S754_finite false (Z.to_pos (10 ^ (- exp n))) 0)
  | _ => S754_zero (neg n)
  end.

(** [strconv.ParseFloat s 64]: [None] when Go returns an error (of syntax,
    or of range when the value rounds to an infinity), [Some f] when the
    error is [nil]. *)
Definition ParseFloat (s : string) : option float64 :=
  match special s with
  | Some (f, n) => if (n =? String.length s)%nat then Some f else None
  | None =>
      match readFloat s with
      | None => None
      | Some n =>
          match nearest n with
          | S754_infinity _ => None
          | sf => Some (SF2Prim sf)
          end
      end
  end.

(** [strconv.FormatInt n 10]. *)
Definition FormatInt (n : Z) : string :=
  DecimalString.NilZero.string_of_int (Z.to_int n).

Definition twoDigits (n : Z) : string :=
  String (ascii_of_N (Z.to_N (48 + n / 10)))
    (String (ascii_of_N (Z.to_N (48 + n mod 10))) EmptyString).

(** The integer nearest to [m * 2^e * 100], ties to even. *)
Definition hundredths (m e : Z) : Z :=
  if (0 <=? e)%Z then m * 2 ^ e * 100
  else
    let d := (2 ^ (- e))%Z in
    let q := (m * 100 / d)%Z in
    let r := (m * 100 mod d)%Z in
    match (2 * r ?= d)%Z with
    | Lt => q
    | Gt => q + 1
    | Eq => if Z.even q then q else q + 1
    end%Z.

(** [fmt.Sprintf "%.2f" f]: the sign of a negative number, the integer
    part, a point and two decimals, of the exact value of [f] rounded to
    the nearest hundredth (ties to even); the infinities and NaN print as
    [+Inf], [-Inf] and [NaN]. *)
Definition Sprintf_2f (f : float64) : string :=
  match Prim2SF f with
  | S754_nan => "NaN"
  | S754_infinity s => if s then "-Inf" else "+Inf"
  | S754_zero s => (if s then "-" else "") ++ "0.00"
  | S754_finite s m e =>
      let n := hundredths (Zpos m) e in
      (if s then "-" else "") ++ FormatInt (n / 100) ++ "." ++ twoDigits (n mod 100)
  end.

End GoFloat.

Import GoFloat.

(* ===================================================================== *)
(** * The account snapshot and the balance evaluator *)
(* ===================================================================== *)

Module Account.

Definition BRL : string := "BRL".
Definition USD : string := "USD".
Definition EUR : string := "EUR".

(** One element of [AccountInfo.Balances]: the asset and its free amount,
    both as the exchange sends them (the amount is a decimal string). *)
Record Balance := { Asset : string; Free : string }.

(** [type AccountInfo struct { Balances []struct{ Asset, Free string } }] *)
Record AccountInfo := { Balances : list Balance }.

(** The map literal of [isFiat]. *)
Definition fiatCurrencies : gmap string bool :=
  {[ "BRL" := true; "USD" := true; "EUR" := true ]}.

(** [isFiat]: [_, isFiat := fiatCurrencies[currency]], the presence of the
    key. *)
Definition isFiat (currency : string) : bool :=
  match fiatCurrencies !! currency with
  | Some _ => true
  | None => false
  end.

(** [isFiat] of the first revision of [main.go]:
    [asset == USD || asset == EUR || asset == BRL]. *)
Definition isFiat_v1 (asset : string) : bool :=
  String.eqb asset USD || String.eqb asset EUR || String.eqb asset BRL.

(** An element of the result of [getFiatBalances], the map
    [{"asset": balance.Asset, "amount": freeAmount}]. *)
Record FiatBalance := { asset : string; amount : float64 }.

(** [getFiatBalances]: the loop appends, in the order of the snapshot, the
    fiat entries whose free amount parses and is above zero. *)
Definition getFiatBalances (accountInfo : AccountInfo) : list FiatBalance :=
  fold_left
    (fun balances balance =>
       if isFiat (Asset balance) then
         match ParseFloat (Free balance) with
         | Some freeAmount =>
             if (0 <? freeAmount)%float
             then (balances ++ [{| asset := Asset balance; amount := freeAmount |}])%list
             else balances
         | None => balances
         end
       else balances)
    (Balances accountInfo) [].

(** The loop of [hasSufficientBalance] over the balances still to visit: it
    returns at the first entry of the asset. *)
Fixpoint hasSufficientBalance_loop (balances : list Balance) (asset : string)
    (requiredAmount : float64) : bool :=
  match balances with
  | [] => false
  | balance :: rest =>
      if String.eqb (Asset balance) asset then
        match ParseFloat (Free balance) with
        | Some free => (requiredAmount <=? free)%float
        | None => false
        end
      else hasSufficientBalance_loop rest asset requiredAmount
  end.

(** [hasSufficientBalance]; [free >= requiredAmount] is
    [requiredAmount <= free]. *)
Definition hasSufficientBalance (accountInfo : AccountInfo) (asset : string)
    (requiredAmount : float64) : bool :=
  hasSufficientBalance_loop (Balances accountInfo) asset requiredAmount.

(** [isTradingPairValid]: every pair is accepted. *)
Definition isTradingPairValid (pair : string) : bool := true.

End Account.

Import Account.

(* ===================================================================== *)
(** * The signer: SHA-256, HMAC and [createSignature] *)
(* ===================================================================== *)

(** [crypto/sha256] and [crypto/hmac] as FIPS 180-4 and RFC 2104 define
    them. A byte is an [ascii], a byte sequence a [string]; a 32-bit word
    is a [Z] below [2^32], with the wrap-around written out. *)
Module Signer.

Local Open Scope Z_scope.

Definition wrap32 (x : Z) : Z := x mod 2 ^ 32.

Definition rotr (n x : Z) : Z :=
  wrap32 (Z.lor (Z.shiftr x n) (Z.shiftl x (32 - n))).

Definition Ch (x y z : Z) : Z :=
  Z.lxor (Z.land x y) (Z.land (Z.lxor x 0xffffffff) z).

Definition Maj (x y z : Z) : Z :=
  Z.lxor (Z.lxor (Z.land x y) (Z.land x z)) (Z.land y z).

Definition bigSigma0 (x : Z) : Z :=
  Z.lxor (Z.lxor (rotr 2 x) (rotr 13 x)) (rotr 22 x).

Definition bigSigma1 (x : Z) : Z :=
  Z.lxor (Z.lxor (rotr 6 x) (rotr 11 x)) (rotr 25 x).

Definition smallSigma0 (x : Z) : Z :=
  Z.lxor (Z.lxor (rotr 7 x) (rotr 18 x)) (Z.shiftr x 3).

Definition smallSigma1 (x : Z) : Z :=
  Z.lxor (Z.lxor (rotr 17 x) (rotr 19 x)) (Z.shiftr x 10).

(** The first primes, by trial division. *)
Definition isPrime (n : Z) : bool :=
  forallb (fun d => negb (n mod Z.of_nat d =? 0)) (seq 2 (Z.to_nat n - 2)).

Definition primes (count : nat) : list Z :=
  firstn count (List.filter isPrime (map Z.of_nat (seq 2 310))).

(** The integer part of a cube root, one bit at a time from the top. *)
Fixpoint cbrtBits (bits : nat) (n r : Z) : Z :=
  match bits with
  | O => r
  | S b =>
      let c := r + 2 ^ Z.of_nat b in
      cbrtBits b n (if c * c * c <=? n then c else r)
  end.

(** The round constants: the first 32 bits of the fractional parts of the
    cube roots of the first 64 primes. *)
Definition K256 : list Z :=
  Eval vm_compute in map (fun p => wrap32 (cbrtBits 40 (p * 2 ^ 96) 0)) (primes 64).

(** The initial hash value: the first 32 bits of the fractional parts of
    the square roots of the first 8 primes. *)
Definition H256 : list Z :=
  Eval vm_compute in map (fun p => wrap32 (Z.sqrt (p * 2 ^ 64))) (primes 8).

(** The eight working words of the hash. *)
Record state := {
  wa : Z; wb : Z; wc : Z; wd : Z; we : Z; wf : Z; wg : Z; wh : Z
}.

Definition init256 : state :=
  let h (i : nat) := nth i H256 0 in
  {| wa := h 0%nat; wb := h 1%nat; wc := h 2%nat; wd := h 3%nat;
     we := h 4%nat; wf := h 5%nat; wg := h 6%nat; wh := h 7%nat |}.

Definition round (s : state) (kw : Z * Z) : state :=
  let t1 := wrap32 (wh s + bigSigma1 (we s) + Ch (we s) (wf s) (wg s)
                    + fst kw + snd kw) in
  let t2 := wrap32 (bigSigma0 (wa s) + Maj (wa s) (wb s) (wc s)) in
  {| wa := wrap32 (t1 + t2); wb := wa s; wc := wb s; wd := wc s;
     we := wrap32 (wd s + t1); wf := we s; wg := wf s; wh := wg s |}.

(** The message schedule: [n] more words after the ones of [w]. *)
Fixpoint schedule (n : nat) (w : list Z) : list Z :=
  match n with
  | O => w
  | S n' =>
      let t := length w in
      let at_ (i : nat) := nth (t - i) w 0 in
      schedule n'
        ((w ++ [wrap32 (smallSigma1 (at_ 2%nat) + at_ 7%nat
                       + smallSigma0 (at_ 15%nat) + at_ 16%nat)])%list)
  end.

(** One block of sixteen words. *)
Definition compress (s : state) (block : list Z) : state :=
  let r := fold_left round (combine K256 (schedule 48 block)) s in
  {| wa := wrap32 (wa s + wa r); wb := wrap32 (wb s + wb r);
     wc := wrap32 (wc s + wc r); wd := wrap32 (wd s + wd r);
     we := wrap32 (we s + we r); wf := wrap32 (wf s + wf r);
     wg := wrap32 (wg s + wg r); wh := wrap32 (wh s + wh r) |}.

Definition byteZ (c : ascii) : Z := Z.of_N (N_of_ascii c).
Definition byteOfZ (b : Z) : ascii := ascii_of_N (Z.to_N (b mod 256)).

(** A big-endian word of four bytes, and back. *)
Definition be32 (x : Z) : string :=
  String (byteOfZ (Z.shiftr x 24))
    (String (byteOfZ (Z.shiftr x 16))
       (String (byteOfZ (Z.shiftr x 8))
          (String (byteOfZ x) EmptyString))).

Fixpoint wordsOf (bs : list Z) : list Z :=
  match bs with
  | b0 :: b1 :: b2 :: b3 :: rest =>
      (b0 * 2 ^ 24 + b1 * 2 ^ 16 + b2 * 2 ^ 8 + b3) :: wordsOf rest
  | _ => []
  end.

(** The padding: a byte 0x80, zero bytes up to 56 modulo 64, and the length
    of the message in bits on eight bytes. *)
Definition padding (len : Z) : list Z :=
  ([0x80] ++ repeat 0 (Z.to_nat ((55 - len) mod 64))
   ++ map (fun i => Z.shiftr (8 * len) (8 * i) mod 256)
        [7; 6; 5; 4; 3; 2; 1; 0])%list.

Fixpoint blocks (n : nat) (ws : list Z) : list (list Z) :=
  match n with
  | O => []
  | S n' => firstn 16 ws :: blocks n' (skipn 16 ws)
  end.

Definition stateBytes (s : state) : string :=
  be32 (wa s) ++ be32 (wb s) ++ be32 (wc s) ++ be32 (wd s)
  ++ be32 (we s) ++ be32 (wf s) ++ be32 (wg s) ++ be32 (wh s).

(** [sha256.Sum256]: the digest of 32 bytes. *)
Definition sha256 (msg : string) : string :=
  let bs := map byteZ (list_ascii_of_string msg) in
  let ws := wordsOf (bs ++ padding (Z.of_nat (length bs)))%list in
  stateBytes (fold_left compress (blocks (length ws / 16) ws) init256).

Definition xorBytes (pad : Z) (s : string) : string :=
  mapBytes (fun c => byteOfZ (Z.lxor (byteZ c) pad)) s.

Fixpoint zeros (n : nat) : string :=
  match n with
  | O => EmptyString
  | S n' => String Ascii.zero (zeros n')
  end.

(** The key of an HMAC on a block of 64 bytes: a longer key is hashed first,
    and the key is filled with zero bytes up to the block. *)
Definition hmacKey (key : string) : string :=
  let k := if (64 <? String.length key)%nat then sha256 key else key in
  (k ++ zeros (64 - String.length k))%string.

(** [hmac.New(sha256.New, key)], [Write(data)], [Sum(nil)]. *)
Definition hmac_sha256 (key data : string) : string :=
  let k := hmacKey key in
  sha256 (xorBytes 0x5c k ++ sha256 (xorBytes 0x36 k ++ data))%string.

Definition hextable : string := "0123456789abcdef".

Definition hexDigit (n : Z) : ascii :=
  match String.get (Z.to_nat n) hextable with
  | Some c => c
  | None => Ascii.zero
  end.

(** [hex.EncodeToString]: [hextable[v>>4]] then [hextable[v&0x0f]], for
    every byte [v]. *)
Fixpoint EncodeToString (src : string) : string :=
  match src with
  | EmptyString => EmptyString
  | String v rest =>
      String (hexDigit (Z.shiftr (byteZ v) 4))
        (String (hexDigit (Z.land (byteZ v) 0x0f)) (EncodeToString rest))
  end.

(** [createSignature]. *)
Definition createSignature (secretKey data : string) : string :=
  EncodeToString (hmac_sha256 secretKey data).

End Signer.

Import Signer.

(* ===================================================================== *)
(** * [net/url]: form values and their encoding *)
(* ===================================================================== *)

Module Url.

(** [shouldEscape c encodeQueryComponent]: letters, digits and the marks
    [-], [_], [.], [~] are kept; every other byte is escaped. *)
Definition shouldEscape (c : ascii) : bool :=
  negb (isLower c || isUpper c || isDigit c
        || Ascii.eqb c "-" || Ascii.eqb c "_" || Ascii.eqb c "."
        || Ascii.eqb c "~").

Definition upperhex : string := "0123456789ABCDEF".

Definition upperHexDigit (n : Z) : ascii :=
  match String.get (Z.to_nat n) upperhex with
  | Some c => c
  | None => Ascii.zero
  end.

(** [url.QueryEscape]: a space becomes [+], any other byte to escape
    becomes [%XX]. *)
Fixpoint QueryEscape (s : string) : string :=
  match s with
  | EmptyString => EmptyString
  | String c s' =>
      if shouldEscape c then
        if Ascii.eqb c " " then String "+" (QueryEscape s')
        else String "%"
               (String (upperHexDigit (Z.shiftr (byte_of c) 4))
                  (String (upperHexDigit (Z.land (byte_of c) 15))
                     (QueryEscape s')))
      else String c (QueryEscape s')
  end.

(** [url.Values], a [map[string][]string]. *)
Abbreviation Values := (gmap string (list string)).

(** [Values.Set]: the key is bound to the single value. *)
Definition Set_ (v : Values) (key value : string) : Values :=
  <[ key := [value] ]> v.

(** The order of [slices.Sort] on strings: byte-wise lexicographic. *)
Definition sortedKeys (v : Values) : list string :=
  merge_sort String.le (map fst (map_to_list v)).

(** One [key=value] written to the buffer of [Encode], after a [&] when
    the buffer is not empty. *)
Definition writePair (buf k x : string) : string :=
  (if (0 <? String.length buf)%nat then buf ++ "&" else buf)
  ++ QueryEscape k ++ "=" ++ QueryEscape x.

(** [Values.Encode]: the keys in sorted order, every value of a key as
    [key=value], both escaped, joined by [&]. *)
Definition Encode (v : Values) : string :=
  fold_left
    (fun (buf : string) (k : string) =>
       fold_left (fun (buf : string) (x : string) => writePair buf k x)
         (default [] (v !! k)) buf)
    (sortedKeys v) "".

End Url.

Import Url.

(* ===================================================================== *)
(** * The world of a request: HTTP, clock, environment, JSON codec *)
(* ===================================================================== *)

Module Http.

(** What the service puts in an [http.Request]. *)
Record Request := {
  Method : string;
  URL : string;
  Header : gmap string string;
  Body : string
}.

(** What it reads of an [http.Response]: the status, and what
    [io.ReadAll(resp.Body)] returns (the bytes, and the error if any). *)
Record Response := {
  StatusCode : Z;
  Status : string;
  Payload : string;
  ReadError : option string
}.

(** The result of [client.Do]: a response; an error with a [nil] response
    (no connection, a time-out of the 10 second context, ...); or, when
    the redirect policy stops the request, the last response together
    with an error. *)
Inductive RoundTrip :=
| Answered (resp : Response)
| Failed (err : string)
| Stopped (resp : Response) (err : string).

End Http.

Import Http.

(** A value decoded from JSON into an [interface{}]. *)
Inductive JSON :=
| JNull
| JBool (b : bool)
| JNumber (f : float64)
| JString (s : string)
| JArray (items : list JSON)
| JObject (fields : list (string * JSON)).

(** The order payload, a [map[string]interface{}]. *)
Abbreviation Order := (gmap string JSON).

(** The values the handlers put in a [gin.H]. *)
Inductive Value :=
| VString (s : string)
| VInt (n : Z)
| VFiat (balances : list FiatBalance)
| VOrder (order : Order).

(** What a request leaves behind, in order: the entry into an operation of
    the exchange client or of the notifier, every HTTP round trip with its
    result, the lines of the notifier's log, and the answer written with
    [c.JSON] or [c.String]. (The other prints of the handlers to the
    console are not recorded.) *)
Inductive event :=
| Called_getAccountInfo
| Called_buyCrypto (symbol : string) (fiatAmount : float64)
| Called_replyWhatsApp (to message : string)
| RoundTripped (req : Request) (res : RoundTrip)
| Logged (line : string)
| WroteJSON (code : Z) (obj : gmap string Value)
| WroteString (code : Z) (text : string).

(** Everything outside [main.go] that a request depends on. The clock and
    the network see the events so far, so that two readings or two calls
    of one request may differ. The JSON codec of [encoding/json], the URL
    parser behind [http.NewRequest], the [%v] verb of [fmt] and the tables
    of [unicode] are taken as they are. *)
Record World := {
  unicode : Unicode;
  Getenv : string -> string;
  UnixMilli : list event -> Z;
  Do : list event -> Request -> RoundTrip;
  NewRequestError : string -> option string;
  Unmarshal_AccountInfo : string -> option AccountInfo;
  Unmarshal_Order : string -> option (option Order);
  Marshal : gmap string string -> string;
  Indent : string -> string + string;
  Sprint_v : option JSON -> string
}.

(* ===================================================================== *)
(** * The monad of the handlers *)
(* ===================================================================== *)

(** A computation returns, panics (a [nil] dereference; Gin's recovery
    middleware then answers 500) or ends the process ([log.Fatalf]). *)
Inductive outcome (A : Type) :=
| Returned (a : A)
| Panicked (msg : string)
| Exited (msg : string).

Arguments Returned {A} a.
Arguments Panicked {A} msg.
Arguments Exited {A} msg.

Definition M (A : Type) : Type := World -> list event -> outcome A * list event.

Definition ret {A : Type} (a : A) : M A := fun _ t => (Returned a, t).

Definition bind {A B : Type} (m : M A) (k : A -> M B) : M B :=
  fun w t =>
    match m w t with
    | (Returned a, t') => k a w t'
    | (Panicked msg, t') => (Panicked msg, t')
    | (Exited msg, t') => (Exited msg, t')
    end.

Declare Scope go_scope.
Delimit Scope go_scope with go.
Notation "x <- m ;; k" := (bind m (fun x => k))
  (at level 100, m at next level, right associativity) : go_scope.
Notation "m ;; k" := (bind m (fun _ => k))
  (at level 100, right associativity) : go_scope.
Local Open Scope go_scope.

Definition emit (e : event) : M unit := fun _ t => (Returned tt, (t ++ [e])%list).

Definition ask {A : Type} (f : World -> A) : M A := fun w t => (Returned (f w), t).

(** [time.Now().UnixMilli()]. *)
Definition now : M Z := fun w t => (Returned (UnixMilli w t), t).

(** [client.Do(req)]. *)
Definition clientDo (req : Request) : M RoundTrip :=
  fun w t => let r := Do w t req in (Returned r, (t ++ [RoundTripped req r])%list).

Definition panic {A : Type} (msg : string) : M A := fun _ t => (Panicked msg, t).

(** [log.Fatalf]: the line is logged and the process exits. *)
Definition fatal {A : Type} (msg : string) : M A :=
  fun _ t => (Exited msg, (t ++ [Logged msg])%list).

(* ===================================================================== *)
(** * The exchange client *)
(* ===================================================================== *)

Definition baseURL : string := "https://api.binance.com".
Definition orderAPI : string := "/api/v3/order".
Definition accountAPI : string := "/api/v3/account".

(** The package variables [apiKey] and [secretKey]. *)
Definition apiKey (w : World) : string := Getenv w "BINANCE_API_KEY".
Definition secretKey (w : World) : string := Getenv w "BINANCE_SECRET_KEY".

Definition StatusOK : Z := 200.
Definition StatusBadRequest : Z := 400.
Definition StatusForbidden : Z := 403.
Definition StatusInternalServerError : Z := 500.

(** The request of [getAccountInfo] at the time [ms]. *)
Definition accountRequest (w : World) (ms : Z) : Request :=
  let timestamp := FormatInt ms in
  let queryString := "timestamp=" ++ timestamp in
  let signature := createSignature (secretKey w) queryString in
  {| Method := "GET";
     URL := baseURL ++ accountAPI ++ "?" ++ queryString ++ "&signature=" ++ signature;
     Header := {[ "X-MBX-APIKEY" := apiKey w ]};
     Body := "" |}.

(** [getAccountInfo]: [None] is the [nil] snapshot returned with an
    error. *)
Definition getAccountInfo : M (option AccountInfo) :=
  emit Called_getAccountInfo ;;
  ms <- now ;;
  req <- ask (fun w => accountRequest w ms) ;;
  err <- ask (fun w => NewRequestError w (URL req)) ;;
  match err with
  | Some _ => ret None
  | None =>
      res <- clientDo req ;;
      match res with
      | Failed _ | Stopped _ _ => ret None
      | Answered resp =>
          match ReadError resp with
          | Some _ => ret None
          | None =>
              if negb (StatusCode resp =? StatusOK)%Z then ret None
              else ask (fun w => Unmarshal_AccountInfo w (Payload resp))
          end
      end
  end.

(** The form of [buyCrypto] before it is signed. *)
Definition orderValues (symbol : string) (fiatAmount : float64) (timestamp : string)
  : Values :=
  let data : Values := ∅ in
  let data := Set_ data "symbol" symbol in
  let data := Set_ data "side" "BUY" in
  let data := Set_ data "type" "MARKET" in
  let data := Set_ data "quoteOrderQty" (Sprintf_2f fiatAmount) in
  let data := Set_ data "timestamp" timestamp in
  data.

(** The string [buyCrypto] signs, and the body it sends. *)
Definition orderSigned (symbol : string) (fiatAmount : float64) (ms : Z) : string :=
  Encode (orderValues symbol fiatAmount (FormatInt ms)).

Definition orderBody (secret symbol : string) (fiatAmount : float64) (ms : Z)
  : string :=
  let data := orderValues symbol fiatAmount (FormatInt ms) in
  let signature := createSignature secret (Encode data) in
  let data := Set_ data "signature" signature in
  Encode data.

(** The request of [buyCrypto] at the time [ms]. *)
Definition orderRequest (w : World) (symbol : string) (fiatAmount : float64)
    (ms : Z) : Request :=
  {| Method := "POST";
     URL := baseURL ++ orderAPI;
     Header := <[ "Content-Type" := "application/x-www-form-urlencoded" ]>
                 {[ "X-MBX-APIKEY" := apiKey w ]};
     Body := orderBody (secretKey w) symbol fiatAmount ms |}.

(** [buyCrypto]: [None] is the [nil] map. *)
Definition buyCrypto (symbol : string) (fiatAmount : float64) : M (option Order) :=
  emit (Called_buyCrypto symbol fiatAmount) ;;
  ms <- now ;;
  req <- ask (fun w => orderRequest w symbol fiatAmount ms) ;;
  err <- ask (fun w => NewRequestError w (URL req)) ;;
  match err with
  | Some _ => ret None
  | None =>
      res <- clientDo req ;;
      match res with
      | Failed _ | Stopped _ _ => ret None
      | Answered resp =>
          match ReadError resp with
          | Some _ => ret None
          | None =>
              if negb (StatusCode resp =? StatusOK)%Z then ret None
              else
                decoded <- ask (fun w => Unmarshal_Order w (Payload resp)) ;;
                match decoded with
                | None => ret None
                | Some response => ret response
                end
          end
      end
  end.

(* ===================================================================== *)
(** * The notifier *)
(* ===================================================================== *)

(** The request of [replyWhatsApp]. *)
Definition replyRequest (w : World) (to message : string) : Request :=
  let data : gmap string string :=
    {[ "messaging_product" := "whatsapp"; "phone" := to; "body" := message ]} in
  {| Method := "POST";
     URL := Getenv w "WHATSAPP_API_URL" ++ "/" ++ Getenv w "WHATSAPP_PHONE_ID"
            ++ "/messages";
     Header := <[ "Authorization" := "Bearer " ++ Getenv w "WHATSAPP_TOKEN" ]>
                 {[ "Content-Type" := "application/json" ]};
     Body := Marshal w data |}.

(** What [replyWhatsApp] does with a response that is not [nil]: the
    status is printed, the body read and printed indented. *)
Definition readReply (responseZap : Response) : M unit :=
  emit (Logged ("lendo response: " ++ Status responseZap)) ;;
  match ReadError responseZap with
  | Some e => emit (Logged ("Error reading response body: " ++ e))
  | None => ret tt
  end ;;
  pretty <- ask (fun w => Indent w (Payload responseZap)) ;;
  match pretty with
  | inr e => emit (Logged ("Error indenting JSON: " ++ e))
  | inl prettyJSON => emit (Logged "Response:") ;; emit (Logged prettyJSON)
  end.

(** [replyWhatsApp]. After [client.Do] the error is logged, and
    [responseZap.Status] is read before the test [responseZap != nil]: with
    a [nil] response the read panics. ([json.Marshal] of a map of strings
    has no error.) *)
Definition replyWhatsApp (to message : string) : M unit :=
  emit (Called_replyWhatsApp to message) ;;
  req <- ask (fun w => replyRequest w to message) ;;
  err <- ask (fun w => NewRequestError w (URL req)) ;;
  match err with
  | Some e => fatal ("Can't create new request: " ++ e)
  | None =>
      res <- clientDo req ;;
      match res with
      | Failed e =>
          emit (Logged ("Can't send WhatsApp message: " ++ e)) ;;
          panic "invalid memory address or nil pointer dereference"
      | Stopped responseZap e =>
          emit (Logged ("Can't send WhatsApp message: " ++ e)) ;;
          readReply responseZap
      | Answered responseZap => readReply responseZap
      end
  end.

(* ===================================================================== *)
(** * The handlers *)
(* ===================================================================== *)

(** [c.JSON(code, obj)] and [c.String(code, text)]. *)
Definition c_JSON (code : Z) (obj : gmap string Value) : M unit :=
  emit (WroteJSON code obj).

Definition c_String (code : Z) (text : string) : M unit :=
  emit (WroteString code text).

(** The body of [POST /binance/comprar] once bound; [None] stands for an
    error of [c.ShouldBindJSON]. *)
Record BuyRequest := { Crypto : string; Amount : float64 }.

(** [handleGetBalance]. *)
Definition handleGetBalance : M unit :=
  accountInfo <- getAccountInfo ;;
  match accountInfo with
  | None =>
      c_JSON StatusInternalServerError {[ "error" := VString "Erro ao consultar saldo" ]}
  | Some accountInfo =>
      let fiatBalances := getFiatBalances accountInfo in
      if (length fiatBalances =? 0)%nat
      then c_JSON StatusOK
             {[ "message" := VString "Nenhum saldo disponível em moedas fiduciárias" ]}
      else c_JSON StatusOK {[ "fiat_balances" := VFiat fiatBalances ]}
  end.

(** [handleBuyCrypto]. *)
Definition handleBuyCrypto (bound : option BuyRequest) : M unit :=
  match bound with
  | None => c_JSON StatusBadRequest {[ "error" := VString "Parâmetros inválidos" ]}
  | Some req =>
      if (Amount req <=? 0)%float then
        c_JSON StatusBadRequest
          {[ "error" := VString "O valor para compra deve ser maior que zero" ]}
      else
        let symbol := Crypto req ++ BRL in
        if negb (isTradingPairValid symbol) then
          c_JSON StatusBadRequest {[ "error" := VString "Par de moedas não suportado" ]}
        else
          accountInfo <- getAccountInfo ;;
          match accountInfo with
          | None =>
              c_JSON StatusInternalServerError
                {[ "error" := VString "Erro ao consultar saldo" ]}
          | Some accountInfo =>
              if negb (hasSufficientBalance accountInfo BRL (Amount req)) then
                c_JSON StatusBadRequest
                  {[ "error" := VString "Saldo insuficiente para realizar a compra" ]}
              else
                orderResponse <- buyCrypto symbol (Amount req) ;;
                match orderResponse with
                | None =>
                    c_JSON StatusInternalServerError
                      {[ "error" := VString "Erro ao realizar a compra" ]}
                | Some orderResponse =>
                    c_JSON StatusOK {[ "order_details" := VOrder orderResponse ]}
                end
          end
  end.

(** [verifyWebhook]; [query] is [c.Query]. *)
Definition verifyWebhook (query : string -> string) : M unit :=
  let mode := query "hub.mode" in
  let challenge := query "hub.challenge" in
  let verifyToken := query "hub.verify_token" in
  expectedToken <- ask (fun w => Getenv w "WHATSAPP_TOKEN") ;;
  if String.eqb mode "subscribe" && String.eqb verifyToken expectedToken
  then c_String StatusOK challenge
  else c_String StatusForbidden "Forbidden".

(** The payload of the webhook, as [handleWhatsAppWebhook] declares it. *)
Module Webhook.

Record text := { Body : string }.
Record message := { From : string; Text : text }.
Record value := { Messages : list message }.
Record change := { Value : value }.
Record entry := { Changes : list change }.
Record payload := { Entry : list entry }.

End Webhook.

(** How an arm of the [switch] ends: with [return], or by leaving the
    [switch]. *)
Inductive flow := Return | Next.

(** The loop of the balance arm: the free amount of the first BRL entry that
    parses, [0.0] when there is none. *)
Fixpoint brlBalance_loop (balances : list Balance) : float64 :=
  match balances with
  | [] => 0%float
  | balance :: rest =>
      if String.eqb (Asset balance) BRL then
        match ParseFloat (Free balance) with
        | Some freeAmount => freeAmount
        | None => brlBalance_loop rest
        end
      else brlBalance_loop rest
  end.

(** [handleWhatsAppWebhook]; [None] stands for an error of
    [c.ShouldBindJSON]. *)
Definition handleWhatsAppWebhook (bound : option Webhook.payload) : M unit :=
  match bound with
  | None => c_JSON StatusBadRequest {[ "error" := VString "Payload inválido" ]}
  | Some req =>
      match Webhook.Entry req with
      | e0 :: _ =>
          match Webhook.Changes e0 with
          | c0 :: _ =>
              match Webhook.Messages (Webhook.Value c0) with
              | message :: _ =>
                  u <- ask unicode ;;
                  let from := Webhook.From message in
                  let body :=
                    ToLower u (TrimSpace u (Webhook.Body (Webhook.Text message))) in
                  r <-
                    (if Contains body "saldo" && Contains body "reais" then
                       accountInfo <- getAccountInfo ;;
                       match accountInfo with
                       | None => replyWhatsApp from "Erro ao consultar saldo." ;; ret Return
                       | Some accountInfo =>
                           let brlBalance := brlBalance_loop (Balances accountInfo) in
                           (if (0 <? brlBalance)%float
                            then replyWhatsApp from
                                   ("Seu saldo em reais é: R$ " ++ Sprintf_2f brlBalance)
                            else replyWhatsApp from
                                   "Você não tem saldo disponível em reais.") ;;
                           ret Next
                       end
                     else if HasPrefix body "comprar" then
                       match Fields u body with
                       | [_; amountPart; _; cryptoPart] =>
                           let valueStr := ReplaceAll amountPart "r$" "" in
                           let valueStr := ReplaceAll valueStr "," "." in
                           match ParseFloat valueStr with
                           | Some amount =>
                               if (amount <=? 0)%float then
                                 replyWhatsApp from
                                   "O valor para compra deve ser válido e maior que zero." ;;
                                 ret Return
                               else
                                 let crypto := ToUpper u cryptoPart in
                                 if negb (isTradingPairValid (crypto ++ BRL)) then
                                   replyWhatsApp from
                                     ("Desculpe, o par de moedas " ++ crypto
                                      ++ "/BRL não é suportado.") ;;
                                   ret Return
                                 else
                                   accountInfo <- getAccountInfo ;;
                                   match accountInfo with
                                   | None =>
                                       replyWhatsApp from
                                         "Erro ao validar saldo para compra." ;;
                                       ret Return
                                   | Some accountInfo =>
                                       if negb (hasSufficientBalance accountInfo BRL amount)
                                       then
                                         replyWhatsApp from
                                           "Saldo insuficiente para realizar a compra." ;;
                                         ret Return
                                       else
                                         orderResponse <- buyCrypto (crypto ++ BRL) amount ;;
                                         match orderResponse with
                                         | None =>
                                             replyWhatsApp from
                                               "Erro ao realizar a compra." ;;
                                             ret Return
                                         | Some orderResponse =>
                                             orderId <- ask (fun w =>
                                               Sprint_v w (orderResponse !! "orderId")) ;;
                                             replyWhatsApp from
                                               ("Compra realizada com sucesso!
Moeda: " ++ crypto ++ "
Valor: R$ " ++ Sprintf_2f amount ++ "
ID do Pedido: " ++ orderId) ;;
                                             ret Next
                                         end
                                   end
                           | None =>
                               replyWhatsApp from
                                 "O valor para compra deve ser válido e maior que zero." ;;
                               ret Return
                           end
                       | _ =>
                           replyWhatsApp from
                             "Formato inválido. Use: comprar <valor> em <cripto> (exemplo: comprar 100R$ em BTC)" ;;
                           ret Return
                       end
                     else
                       replyWhatsApp from
                         "Desculpe, não reconheço este comando. Envie 'ajuda' para listar os comandos disponíveis." ;;
                       ret Next) ;;
                  match r with
                  | Return => ret tt
                  | Next =>
                      c_JSON StatusOK
                        {[ "status" := VString "Mensagem processada com sucesso" ]}
                  end
              | [] => c_JSON StatusOK {[ "status" := VString "Nenhuma mensagem recebida" ]}
              end
          | [] => c_JSON StatusOK {[ "status" := VString "Nenhuma mensagem recebida" ]}
          end
      | [] => c_JSON StatusOK {[ "status" := VString "Nenhuma mensagem recebida" ]}
      end
  end.

(** The first revision of [main.go]: the handler of [POST /comprar]. *)
Module Rev1.

Definition comprar (bound : option BuyRequest) : M unit :=
  match bound with
  | None => c_JSON StatusBadRequest {[ "error" := VString "Parâmetros inválidos" ]}
  | Some req =>
      if (Amount req <=? 0)%float then
        c_JSON StatusBadRequest
          {[ "error" := VString "O valor para compra deve ser maior que zero" ]}
      else
        let symbol := Crypto req ++ BRL in
        orderResponse <- buyCrypto symbol (Amount req) ;;
        match orderResponse with
        | None =>
            c_JSON StatusInternalServerError
              {[ "error" := VString "Erro ao realizar a compra" ]}
        | Some orderResponse =>
            c_JSON StatusOK {[ "order_details" := VOrder orderResponse ]}
        end
  end.

End Rev1.

(* ===================================================================== *)
(** * The command parser and the orchestrator of the specification *)
(* ===================================================================== *)

(** The specification splits the chat path in two: a parser from the text
    to an intent, and an orchestrator that runs the intent. [main.go] has
    both inline in the [switch] of [handleWhatsAppWebhook]; the two
    definitions below follow the words of the specification, and
    [handleWhatsAppWebhook_refines] shows that the handler is their
    composition. *)
Module Parser.

Inductive Intent :=
| QueryBalance
| Buy (asset : string) (amount : float64)
| InvalidBuyFormat (hint : string)
| Unknown.

Definition formatHint : string :=
  "Formato inválido. Use: comprar <valor> em <cripto> (exemplo: comprar 100R$ em BTC)".

Definition amountHint : string :=
  "O valor para compra deve ser válido e maior que zero.".

Definition unknownHint : string :=
  "Desculpe, não reconheço este comando. Envie 'ajuda' para listar os comandos disponíveis.".

(** The amount token: the currency suffix stripped, the comma turned into a
    point, then the numeric parse. *)
Definition parseAmount (token : string) : option float64 :=
  ParseFloat (ReplaceAll (ReplaceAll token "r$" "") "," ".").

(** The intents in priority order, on the text trimmed and lower-cased. *)
Definition parse (u : Unicode) (rawText : string) : Intent :=
  let body := ToLower u (TrimSpace u rawText) in
  if Contains body "saldo" && Contains body "reais" then QueryBalance
  else if HasPrefix body "comprar" then
    match Fields u body with
    | [_; amountToken; _; assetToken] =>
        match parseAmount amountToken with
        | Some amount =>
            if (amount <=? 0)%float then InvalidBuyFormat amountHint
            else Buy (ToUpper u assetToken) amount
        | None => InvalidBuyFormat amountHint
        end
    | _ => InvalidBuyFormat formatHint
    end
  else Unknown.

(** The buy flow of the orchestrator: pair validation, snapshot,
    sufficiency check, order, reply. *)
Definition buyFlow (from crypto : string) (amount : float64) : M flow :=
  if negb (isTradingPairValid (crypto ++ BRL)) then
    replyWhatsApp from ("Desculpe, o par de moedas " ++ crypto ++ "/BRL não é suportado.") ;;
    ret Return
  else
    accountInfo <- getAccountInfo ;;
    match accountInfo with
    | None => replyWhatsApp from "Erro ao validar saldo para compra." ;; ret Return
    | Some accountInfo =>
        if negb (hasSufficientBalance accountInfo BRL amount) then
          replyWhatsApp from "Saldo insuficiente para realizar a compra." ;; ret Return
        else
          orderResponse <- buyCrypto (crypto ++ BRL) amount ;;
          match orderResponse with
          | None => replyWhatsApp from "Erro ao realizar a compra." ;; ret Return
          | Some orderResponse =>
              orderId <- ask (fun w => Sprint_v w (orderResponse !! "orderId")) ;;
              replyWhatsApp from
                ("Compra realizada com sucesso!
Moeda: " ++ crypto ++ "
Valor: R$ " ++ Sprintf_2f amount ++ "
ID do Pedido: " ++ orderId) ;;
              ret Next
          end
    end.

(** The balance inquiry of the orchestrator. *)
Definition balanceFlow (from : string) : M flow :=
  accountInfo <- getAccountInfo ;;
  match accountInfo with
  | None => replyWhatsApp from "Erro ao consultar saldo." ;; ret Return
  | Some accountInfo =>
      let brlBalance := brlBalance_loop (Balances accountInfo) in
      (if (0 <? brlBalance)%float
       then replyWhatsApp from ("Seu saldo em reais é: R$ " ++ Sprintf_2f brlBalance)
       else replyWhatsApp from "Você não tem saldo disponível em reais.") ;;
      ret Next
  end.

Definition orchestrate (from : string) (intent : Intent) : M unit :=
  r <- match intent with
       | QueryBalance => balanceFlow from
       | Buy asset amount => buyFlow from asset amount
       | InvalidBuyFormat hint => replyWhatsApp from hint ;; ret Return
       | Unknown => replyWhatsApp from unknownHint ;; ret Next
       end ;;
  match r with
  | Return => ret tt
  | Next => c_JSON StatusOK {[ "status" := VString "Mensagem processada com sucesso" ]}
  end.

End Parser.

Import Parser.

(** The message [handleWhatsAppWebhook] reads: the first message of the
    first change of the first entry. *)
Definition firstMessage (req : Webhook.payload) : option Webhook.message :=
  e0 ← head (Webhook.Entry req);
  c0 ← head (Webhook.Changes e0);
  head (Webhook.Messages (Webhook.Value c0)).

(** A delivery with one message. *)
Definition delivery (from text : string) : Webhook.payload :=
  {| Webhook.Entry :=
       [{| Webhook.Changes :=
             [{| Webhook.Value :=
                   {| Webhook.Messages :=
                        [{| Webhook.From := from;
                            Webhook.Text := {| Webhook.Body := text |} |}] |} |}] |}] |}.

(* ===================================================================== *)
(** * Reading a form body back *)
(* ===================================================================== *)

(** [strings.Split s sep] for a separator of one byte. *)
Fixpoint splitOn (sep : ascii) (s : string) : list string :=
  match s with
  | EmptyString => [EmptyString]
  | String c s' =>
      if Ascii.eqb c sep then EmptyString :: splitOn sep s'
      else match splitOn sep s' with
           | t :: ts => String c t :: ts
           | [] => [String c EmptyString]
           end
  end.

Fixpoint joinWith (sep : string) (parts : list string) : string :=
  match parts with
  | [] => EmptyString
  | [p] => p
  | p :: ps => p ++ sep ++ joinWith sep ps
  end.

(** The fields of a form body, [key=value] between [&], in order and still
    escaped. *)
Definition formFields (body : string) : list (string * string) :=
  map (fun kv => match splitOn "=" kv with
                 | k :: vs => (k, joinWith "=" vs)
                 | [] => (kv, EmptyString)
                 end)
      (splitOn "&" body).

(** A field as [Values.Encode] writes it. *)
Definition pairText (kx : string * string) : string :=
  QueryEscape (fst kx) ++ "=" ++ QueryEscape (snd kx).

(** The form body without the fields of the key [name]. *)
Definition removeField (name body : string) : string :=
  joinWith "&"
    (filter (fun kv => Is_true (negb (HasPrefix kv (name ++ "=")))) (splitOn "&" body)).

(** The digits of [hex.EncodeToString]. *)
Definition isLowerHex (c : ascii) : bool :=
  isDigit c || ((97 <=? byte_of c) && (byte_of c <=? 102))%Z.

(** The operations of a trace: the calls of the exchange client and the
    replies of the notifier, in order. *)
Definition isCall (e : event) : bool :=
  match e with
  | Called_getAccountInfo | Called_buyCrypto _ _ | Called_replyWhatsApp _ _ => true
  | _ => false
  end.

Definition calls (t : list event) : list event := filter (fun e => Is_true (isCall e)) t.

(** The answers written to the HTTP client, and the lines logged. *)
Definition isAnswer (e : event) : bool :=
  match e with
  | WroteJSON _ _ | WroteString _ _ => true
  | _ => false
  end.

Definition answers (t : list event) : list event :=
  filter (fun e => Is_true (isAnswer e)) t.

Definition logged (t : list event) : list string :=
  omap (fun e => match e with Logged line => Some line | _ => None end) t.

(** What has happened in a request when an order is submitted after its
    checks: the pair is valid, and the events before it are exactly one
    call of [getAccountInfo] and its round trip, answered 200 with a
    snapshot that decodes and on which the balance check passes. *)
Definition checkedBefore (w : World) (seen : list event) (symbol : string)
    (amount : float64) : Prop :=
  isTradingPairValid symbol = true
  /\ exists ms resp S,
       seen = [Called_getAccountInfo;
               RoundTripped (accountRequest w ms) (Answered resp)]
       /\ StatusCode resp = StatusOK
       /\ ReadError resp = None
       /\ Unmarshal_AccountInfo w (Payload resp) = Some S
       /\ hasSufficientBalance S BRL amount = true
       /\ exists b free,
            In b (Balances S) /\ Asset b = BRL
            /\ ParseFloat (Free b) = Some free
            /\ (amount <=? free)%float = true.

(** A pair of the fixed quote currency: a base asset followed by BRL. *)
Definition pairWithBRL (symbol : string) : Prop :=
  exists baseAsset, symbol = baseAsset ++ BRL.

(** [P] at every call of [buyCrypto] among the events [evs] that follow
    [seen]: [P] is given the events before the call, the symbol and the
    amount. *)
Fixpoint eachOrder (P : list event -> string -> float64 -> Prop)
    (seen evs : list event) : Prop :=
  match evs with
  | [] => True
  | e :: rest =>
      match e with
      | Called_buyCrypto symbol amount => P seen symbol amount
      | _ => True
      end
      /\ eachOrder P (seen ++ [e])%list rest
  end.

(** A float that is a number: not an infinity, not NaN. *)
Definition finite (f : float64) : bool :=
  match Prim2SF f with
  | S754_zero _ | S754_finite _ _ _ => true
  | _ => false
  end.

(** The bytes [url.QueryEscape] leaves as they are. *)
Definition unreserved (c : ascii) : bool := negb (shouldEscape c).

(** The bytes [url.QueryEscape] writes: the unreserved ones, [+] and [%]. *)
Definition formSafe (c : ascii) : bool :=
  unreserved c || Ascii.eqb c "+" || Ascii.eqb c "%".

(** [s] has no byte [c]. *)
Definition freeOf (c : ascii) (s : string) : bool :=
  allBytes (fun x => negb (Ascii.eqb x c)) s.

(* ===================================================================== *)
(** * Sample worlds and data *)
(* ===================================================================== *)

Module Sample.

(** An account with two BRL entries. *)
Definition twoEntries : AccountInfo :=
  {| Balances := [ {| Asset := "BRL"; Free := "1" |};
                   {| Asset := "BRL"; Free := "100" |} ] |}.

Definition wallet : AccountInfo :=
  {| Balances := [ {| Asset := "BTC"; Free := "0.5" |};
                   {| Asset := "BRL"; Free := "250.00" |};
                   {| Asset := "USD"; Free := "0.00" |} ] |}.

Definition env (name : string) : string :=
  if String.eqb name "WHATSAPP_TOKEN" then "s3cr3t-token"
  else if String.eqb name "BINANCE_API_KEY" then "key"
  else if String.eqb name "BINANCE_SECRET_KEY" then "secret"
  else if String.eqb name "WHATSAPP_API_URL" then "https://graph.facebook.com/v19.0"
  else if String.eqb name "WHATSAPP_PHONE_ID" then "1055"
  else "".

(** Tables for the samples, whose texts are ASCII: the byte maps. *)
Definition bytewise : Unicode :=
  {| MapToLower := mapBytes lowerByte;
     MapToUpper := mapBytes upperByte;
     TrimLeftSpace := trimLeft;
     TrimRightSpace := trimRight;
     FieldsSpace := fieldsASCII |}.

Definition ok200 : Response :=
  {| StatusCode := 200; Status := "200 OK"; Payload := "{}"; ReadError := None |}.

(** The exchange and the messaging provider both answer 200; the account
    is [wallet], the order comes back with the identifier 42. *)
Definition up : World :=
  {| unicode := bytewise;
     Getenv := env;
     UnixMilli := fun _ => 1700000000000%Z;
     Do := fun _ _ => Answered ok200;
     NewRequestError := fun _ => None;
     Unmarshal_AccountInfo := fun _ => Some wallet;
     Unmarshal_Order := fun _ => Some (Some {[ "orderId" := JNumber 42%float ]});
     Marshal := fun data => default "" (data !! "body");
     Indent := fun s => inl s;
     Sprint_v := fun _ => "42" |}.

(** As [up], but no connection to the messaging provider: the calls to
    anything but the exchange fail. *)
Definition notifierDown : World :=
  {| unicode := bytewise;
     Getenv := env;
     UnixMilli := fun _ => 1700000000000%Z;
     Do := fun _ req =>
             if HasPrefix (URL req) baseURL then Answered ok200
             else Failed "dial tcp: i/o timeout";
     NewRequestError := fun _ => None;
     Unmarshal_AccountInfo := fun _ => Some wallet;
     Unmarshal_Order := fun _ => Some (Some {[ "orderId" := JNumber 42%float ]});
     Marshal := fun data => default "" (data !! "body");
     Indent := fun s => inl s;
     Sprint_v := fun _ => "42" |}.

(** The query of a verification request whose token matches but whose
    [hub.mode] is absent. *)
(** The secret ["secret"] followed by a zero byte. *)
Definition paddedSecret : string := "secret" ++ String Ascii.zero "".

Definition queryNoMode (key : string) : string :=
  if String.eqb key "hub.challenge" then "1158201444"
  else if String.eqb key "hub.verify_token" then "s3cr3t-token"
  else "".

Definition querySubscribe (key : string) : string :=
  if String.eqb key "hub.mode" then "subscribe" else queryNoMode key.

End Sample.

(* ===================================================================== *)
(** * Auxiliary definitions of the proofs *)
(* ===================================================================== *)

(** What one turn of the loop of [getFiatBalances] keeps of an entry. *)
Definition fiatEntry (balance : Balance) : option FiatBalance :=
  if isFiat (Asset balance) then
    match ParseFloat (Free balance) with
    | Some freeAmount =>
        if (0 <? freeAmount)%float
        then Some {| asset := Asset balance; amount := freeAmount |}
        else None
    | None => None
    end
  else None.

(** The byte of two hexadecimal digits. *)
Definition unhex (hi lo : ascii) : option ascii :=
  match hexVal hi, hexVal lo with
  | Some h, Some l => Some (byteOfZ (16 * h + l))
  | _, _ => None
  end.

(** The bytes of a decimal number. *)
Definition isNumberByte (c : ascii) : bool :=
  isDigit c || Ascii.eqb c "-" || Ascii.eqb c ".".

(** The shape of a number printed with two decimals. *)
Definition twoDecimals (s : string) : Prop :=
  exists sign whole d1 d2,
    s = sign ++ whole ++ "." ++ String d1 (String d2 "")
    /\ (sign = "" \/ sign = "-")
    /\ whole <> ""
    /\ allBytes isDigit whole = true
    /\ isDigit d1 = true /\ isDigit d2 = true.


(* ===================================================================== *)
(** * Sanity checks of the library models *)
(* ===================================================================== *)

Example TrimSpace_ex (u : Unicode) : TrimSpace u "  Comprar 100R$ em BTC
 " = "Comprar 100R$ em BTC".
Proof. reflexivity. Qed.

Example Fields_ex (u : Unicode) :
  Fields u "comprar   100r$ em	btc " = ["comprar"; "100r$"; "em"; "btc"].
Proof. reflexivity. Qed.

Example Replace_ex :
  ReplaceAll (ReplaceAll "r$1,5r$,r" "r$" "") "," "." = "1.5.r".
Proof. reflexivity. Qed.

Example ToLower_ex (u : Unicode) : ToLower u "Comprar 100R$ EM btc" = "comprar 100r$ em btc".
Proof. reflexivity. Qed.

Example ParseFloat_100 : ParseFloat "100" = Some 100%float.
Proof. reflexivity. Qed.

Example ParseFloat_100_50 : ParseFloat "100.50" = Some 100.5%float.
Proof. reflexivity. Qed.

Example ParseFloat_abc : ParseFloat "abc" = None.
Proof. reflexivity. Qed.

(** FIPS 180-4 and RFC 4231 test vectors. *)
Example sha256_abc :
  EncodeToString (sha256 "abc")
  = "ba7816bf8f01cfea414140de5dae2223b00361a396177a9cb410ff61f20015ad".
Proof. vm_compute. reflexivity. Qed.

Example sha256_empty :
  EncodeToString (sha256 "")
  = "e3b0c44298fc1c149afbf4c8996fb92427ae41e4649b934ca495991b7852b855".
Proof. vm_compute. reflexivity. Qed.

Example hmac_rfc4231_2 :
  createSignature "Jefe" "what do ya want for nothing?"
  = "5bdcc146bf60754e6a042426089575c75a003f089d2739839dec58b964ec3843".
Proof. vm_compute. reflexivity. Qed.

(* ===================================================================== *)
(** * Counting the operations of a request *)
(* ===================================================================== *)

Definition isFetchCall (e : event) : bool :=
  match e with Called_getAccountInfo => true | _ => false end.

Definition isOrderCall (e : event) : bool :=
  match e with Called_buyCrypto _ _ => true | _ => false end.

Definition isReplyCall (e : event) : bool :=
  match e with Called_replyWhatsApp _ _ => true | _ => false end.

Definition isRoundTrip (e : event) : bool :=
  match e with RoundTripped _ _ => true | _ => false end.

(** How many events of [t] pass the test [p]. *)
Fixpoint countIf (p : event -> bool) (t : list event) : nat :=
  match t with
  | [] => O
  | e :: rest => if p e then S (countIf p rest) else countIf p rest
  end.

(** The query of a URL: what follows the first [?]. *)
Definition queryOf (url : string) : string :=
  match splitOn "?" url with
  | _ :: rest => joinWith "?" rest
  | [] => EmptyString
  end.

(** A delivery with two entries; the first has two changes, the first of
    which has two messages. *)
Definition batch (m1 m2 m3 m4 : Webhook.message) : Webhook.payload :=
  {| Webhook.Entry :=
       [{| Webhook.Changes :=
             [{| Webhook.Value := {| Webhook.Messages := [m1; m2] |} |};
              {| Webhook.Value := {| Webhook.Messages := [m3] |} |}] |};
        {| Webhook.Changes :=
             [{| Webhook.Value := {| Webhook.Messages := [m4] |} |}] |}] |}.

Definition textMessage (from text : string) : Webhook.message :=
  {| Webhook.From := from; Webhook.Text := {| Webhook.Body := text |} |}.

(** The first revision of [main.go]: the handler of [GET /saldo], with the
    loop over the balances inline. *)
Module FirstRevision.

Definition saldo : M unit :=
  accountInfo <- getAccountInfo ;;
  match accountInfo with
  | None =>
      c_JSON StatusInternalServerError {[ "error" := VString "Erro ao consultar saldo" ]}
  | Some accountInfo =>
      let fiatBalances :=
        fold_left
          (fun fiatBalances balance =>
             if isFiat_v1 (Asset balance) then
               match ParseFloat (Free balance) with
               | None => fiatBalances
               | Some freeAmount =>
                   if (0 <? freeAmount)%float
                   then (fiatBalances
                         ++ [{| asset := Asset balance; amount := freeAmount |}])%list
                   else fiatBalances
               end
             else fiatBalances)
          (Balances accountInfo) [] in
      if (length fiatBalances =? 0)%nat
      then c_JSON StatusOK
             {[ "message" := VString "Nenhum saldo disponível em moedas fiduciárias" ]}
      else c_JSON StatusOK {[ "fiat_balances" := VFiat fiatBalances ]}
  end.

End FirstRevision.

(** The start of [main] in the third revision, up to the router: the
    service refuses to start when one of the four package variables read
    from the environment is empty. *)
Definition startup : M unit :=
  apiKey <- ask apiKey ;;
  secretKey <- ask secretKey ;;
  whatsappToken <- ask (fun w => Getenv w "WHATSAPP_TOKEN") ;;
  whatsappPhoneID <- ask (fun w => Getenv w "WHATSAPP_PHONE_ID") ;;
  if String.eqb apiKey "" || String.eqb secretKey "" || String.eqb whatsappToken ""
     || String.eqb whatsappPhoneID ""
  then fatal "Erro: As variáveis de ambiente BINANCE_API_KEY, BINANCE_SECRET_KEY, WHATSAPP_TOKEN e WHATSAPP_PHONE_ID devem estar configuradas."
  else ret tt.

(** An account whose free amount in BRL the exchange reports as
    [Infinity], and a world as [Sample.up] with this account. *)
Definition unbounded : AccountInfo :=
  {| Balances := [ {| Asset := "BRL"; Free := "Infinity" |} ] |}.

Definition infiniteBalance : World :=
  {| unicode := Sample.bytewise;
     Getenv := Sample.env;
     UnixMilli := fun _ => 1700000000000%Z;
     Do := fun _ _ => Answered Sample.ok200;
     NewRequestError := fun _ => None;
     Unmarshal_AccountInfo := fun _ => Some unbounded;
     Unmarshal_Order := fun _ => Some (Some {[ "orderId" := JNumber 42%float ]});
     Marshal := fun data => default "" (data !! "body");
     Indent := fun s => inl s;
     Sprint_v := fun _ => "42" |}.

(* ===================================================================== *)
(** * The second revision: credentials from the Secret Manager *)
(* ===================================================================== *)

(** The second revision of [main.go] keeps no credentials in the
    environment. [main] reads the configuration of the notifier from the
    secret [whatsappConfigs]; the handler of the chat reads the keys of the
    exchange from the secret named after the sender of the message, and
    stores them in package variables that [getAccountInfo] and [buyCrypto]
    read. *)
Module SecondRevision.

(** The package variables. *)
Record Globals := {
  binanceApiKey : string;
  binanceSecretKey : string;
  whatsappToken : string;
  whatsappApiUrl : string;
  whatsappPhoneId : string
}.

(** Their initial values. *)
Definition unset : Globals :=
  {| binanceApiKey := ""; binanceSecretKey := ""; whatsappToken := "";
     whatsappApiUrl := ""; whatsappPhoneId := "" |}.

(** What the second revision needs beside the [World]: the Secret Manager
    ([NewClient], and [AccessSecretVersion] from the path of a version to
    its payload or an error), [json.Unmarshal] into a
    [map[string]interface{}] (the map or an error; the [nil] map of the
    JSON [null] is the empty map) and [json.Marshal] of the message of the
    notifier. *)
Record Platform := {
  NewClientError : option string;
  AccessSecretVersion : string -> string + string;
  Unmarshal_Secret : string -> gmap string JSON + string;
  Marshal_any : JSON -> string
}.

(** [buildSecretPath]. *)
Definition buildSecretPath (secretName : string) : string :=
  let projectID := "425135792660" in
  "projects/" ++ projectID ++ "/secrets/" ++ secretName ++ "/versions/latest".

(** A computation of the second revision reads and writes the package
    variables, and leaves events. It is the run of one request served
    alone: the package variables are shared by every request of the
    process, and what a request served at the same time writes to them in
    between is not modelled. *)
Definition N (A : Type) : Type :=
  Globals -> list event -> outcome A * Globals * list event.

Definition ret {A : Type} (a : A) : N A := fun g t => (Returned a, g, t).

Definition bind {A B : Type} (m : N A) (k : A -> N B) : N B :=
  fun g t =>
    match m g t with
    | (Returned a, g', t') => k a g' t'
    | (Panicked msg, g', t') => (Panicked msg, g', t')
    | (Exited msg, g', t') => (Exited msg, g', t')
    end.

Declare Scope rev2_scope.
Delimit Scope rev2_scope with rev2.
Notation "x <- m ;; k" := (bind m (fun x => k))
  (at level 100, m at next level, right associativity) : rev2_scope.
Notation "m ;; k" := (bind m (fun _ => k))
  (at level 100, right associativity) : rev2_scope.
Local Open Scope rev2_scope.

Definition emit (e : event) : N unit := fun g t => (Returned tt, g, (t ++ [e])%list).

Definition globals : N Globals := fun g t => (Returned g, g, t).

Definition assign (f : Globals -> Globals) : N unit := fun g t => (Returned tt, f g, t).

Definition panic {A : Type} (msg : string) : N A := fun g t => (Panicked msg, g, t).

Definition fatal {A : Type} (msg : string) : N A :=
  fun g t => (Exited msg, g, (t ++ [Logged msg])%list).

Definition c_JSON (code : Z) (obj : gmap string Value) : N unit :=
  emit (WroteJSON code obj).

Definition c_String (code : Z) (text : string) : N unit :=
  emit (WroteString code text).

(** The dynamic type of a value of a [map[string]interface{}], as a failed
    type assertion prints it; [None] is the missing key. *)
Definition dynamicType (v : option JSON) : string :=
  match v with
  | None | Some JNull => "nil"
  | Some (JBool _) => "bool"
  | Some (JNumber _) => "float64"
  | Some (JString _) => "string"
  | Some (JArray _) => "[]interface {}"
  | Some (JObject _) => "map[string]interface {}"
  end.

(** The type assertion [v.(string)]. *)
Definition assertString (v : option JSON) : N string :=
  match v with
  | Some (JString s) => ret s
  | _ => panic ("interface conversion: interface {} is " ++ dynamicType v
                ++ ", not string")
  end.

(** The request of [getAccountInfo] at the time [ms], under the package
    variables [g]. *)
Definition accountRequest (g : Globals) (ms : Z) : Request :=
  let timestamp := FormatInt ms in
  let queryString := "timestamp=" ++ timestamp in
  let signature := createSignature (binanceSecretKey g) queryString in
  {| Method := "GET";
     URL := baseURL ++ accountAPI ++ "?" ++ queryString ++ "&signature=" ++ signature;
     Header := {[ "X-MBX-APIKEY" := binanceApiKey g ]};
     Body := "" |}.

(** The request of [buyCrypto]. *)
Definition orderRequest (g : Globals) (symbol : string) (fiatAmount : float64)
    (ms : Z) : Request :=
  {| Method := "POST";
     URL := baseURL ++ orderAPI;
     Header := <[ "Content-Type" := "application/x-www-form-urlencoded" ]>
                 {[ "X-MBX-APIKEY" := binanceApiKey g ]};
     Body := orderBody (binanceSecretKey g) symbol fiatAmount ms |}.

(** The message of [replyWhatsApp], and its request. *)
Definition replyData (to message : string) : JSON :=
  JObject [("messaging_product", JString "whatsapp");
           ("recipient_type", JString "individual");
           ("to", JString to);
           ("type", JString "text");
           ("text", JObject [("preview_url", JBool false);
                             ("body", JString message)])].

(** [type Secret struct { Name string; Value map[string]interface{} }] *)
Record Secret := { Name : string; Value : gmap string JSON }.

Section Handlers.

Variable w : World.
Variable p : Platform.

(** [isTradingPairValid] is called by the handler and declared in no file
    of this revision: any function of the pair. *)
Variable isTradingPairValid : string -> bool.

Definition now : N Z := fun g t => (Returned (UnixMilli w t), g, t).

Definition clientDo (req : Request) : N RoundTrip :=
  fun g t => let r := Do w t req in (Returned r, g, (t ++ [RoundTripped req r])%list).

(** [accessSecretVersion]: the secret, or the error returned with [nil]. *)
Definition accessSecretVersion (name : string) : N (Secret + string) :=
  match NewClientError p with
  | Some e => fatal ("failed to setup client: " ++ e)
  | None =>
      match AccessSecretVersion p (buildSecretPath name) with
      | inr e => ret (inr e)
      | inl data =>
          match Unmarshal_Secret p data with
          | inr e => ret (inr e)
          | inl secretData => ret (inl {| Name := name; Value := secretData |})
          end
      end
  end.

(** The start of [main], up to the router: the configuration of the
    notifier is read from the secret [whatsappConfigs]. *)
Definition configure : N unit :=
  secret <- accessSecretVersion "whatsappConfigs" ;;
  match secret with
  | inr err => fatal ("Falha ao acessar o segredo: " ++ err)
  | inl secret =>
      v <- assertString (Value secret !! "WHATSAPP_PHONE_ID") ;;
      assign (fun g =>
                {| binanceApiKey := binanceApiKey g;
                   binanceSecretKey := binanceSecretKey g;
                   whatsappToken := whatsappToken g;
                   whatsappApiUrl := whatsappApiUrl g;
                   whatsappPhoneId := v |}) ;;
      v <- assertString (Value secret !! "WHATSAPP_TOKEN") ;;
      assign (fun g =>
                {| binanceApiKey := binanceApiKey g;
                   binanceSecretKey := binanceSecretKey g;
                   whatsappToken := v;
                   whatsappApiUrl := whatsappApiUrl g;
                   whatsappPhoneId := whatsappPhoneId g |}) ;;
      v <- assertString (Value secret !! "WHATSAPP_API_URL") ;;
      assign (fun g =>
                {| binanceApiKey := binanceApiKey g;
                   binanceSecretKey := binanceSecretKey g;
                   whatsappToken := whatsappToken g;
                   whatsappApiUrl := v;
                   whatsappPhoneId := whatsappPhoneId g |})
  end.

(** [getAccountInfo]: [None] is the [nil] snapshot returned with an
    error. *)
Definition getAccountInfo : N (option AccountInfo) :=
  emit Called_getAccountInfo ;;
  ms <- now ;;
  g <- globals ;;
  let req := accountRequest g ms in
  match NewRequestError w (URL req) with
  | Some _ => ret None
  | None =>
      res <- clientDo req ;;
      match res with
      | Failed _ | Stopped _ _ => ret None
      | Answered resp =>
          match ReadError resp with
          | Some _ => ret None
          | None =>
              if negb (StatusCode resp =? StatusOK)%Z then ret None
              else ret (Unmarshal_AccountInfo w (Payload resp))
          end
      end
  end.

(** [buyCrypto]: [None] is the [nil] map. *)
Definition buyCrypto (symbol : string) (fiatAmount : float64) : N (option Order) :=
  emit (Called_buyCrypto symbol fiatAmount) ;;
  ms <- now ;;
  g <- globals ;;
  let req := orderRequest g symbol fiatAmount ms in
  match NewRequestError w (URL req) with
  | Some _ => ret None
  | None =>
      res <- clientDo req ;;
      match res with
      | Failed _ | Stopped _ _ => ret None
      | Answered resp =>
          match ReadError resp with
          | Some _ => ret None
          | None =>
              if negb (StatusCode resp =? StatusOK)%Z then ret None
              else
                match Unmarshal_Order w (Payload resp) with
                | None => ret None
                | Some response => ret response
                end
          end
      end
  end.

Definition replyRequest (g : Globals) (to message : string) : Request :=
  {| Method := "POST";
     URL := whatsappApiUrl g ++ "/" ++ whatsappPhoneId g ++ "/messages";
     Header := <[ "Authorization" := "Bearer " ++ whatsappToken g ]>
                 {[ "Content-Type" := "application/json" ]};
     Body := Marshal_any p (replyData to message) |}.

(** What [replyWhatsApp] does once [responseZap.Status] has been read. *)
Definition readReply (responseZap : Response) : N unit :=
  emit (Logged ("lendo response: " ++ Status responseZap)) ;;
  match ReadError responseZap with
  | Some e => emit (Logged ("Error reading response body: " ++ e))
  | None => ret tt
  end ;;
  match Indent w (Payload responseZap) with
  | inr e => emit (Logged ("Error indenting JSON: " ++ e))
  | inl prettyJSON => emit (Logged "Response:") ;; emit (Logged prettyJSON)
  end.

(** [replyWhatsApp]: [responseZap.Status] is read whatever [client.Do]
    returned, and there is no test for [nil]. *)
Definition replyWhatsApp (to message : string) : N unit :=
  emit (Called_replyWhatsApp to message) ;;
  g <- globals ;;
  let req := replyRequest g to message in
  match NewRequestError w (URL req) with
  | Some e => fatal ("Can't create new request: " ++ e)
  | None =>
      res <- clientDo req ;;
      match res with
      | Failed e =>
          emit (Logged ("Can't send WhatsApp message: " ++ e)) ;;
          panic "invalid memory address or nil pointer dereference"
      | Stopped responseZap e =>
          emit (Logged ("Can't send WhatsApp message: " ++ e)) ;;
          readReply responseZap
      | Answered responseZap => readReply responseZap
      end
  end.

(** [verifyWebhook]: the expected token is the package variable. *)
Definition verifyWebhook (query : string -> string) : N unit :=
  let mode := query "hub.mode" in
  let challenge := query "hub.challenge" in
  let verifyToken := query "hub.verify_token" in
  g <- globals ;;
  let expectedToken := whatsappToken g in
  if String.eqb mode "subscribe" && String.eqb verifyToken expectedToken
  then c_String StatusOK challenge
  else c_String StatusForbidden "Forbidden".

(** [handleWhatsAppWebhook]. The secret of the sender is read with its
    error dropped, and its two keys are stored in the package variables
    before the [switch]. *)
Definition handleWhatsAppWebhook (bound : option Webhook.payload) : N unit :=
  match bound with
  | None => c_JSON StatusBadRequest {[ "error" := VString "Payload inválido" ]}
  | Some req =>
      match firstMessage req with
      | None => c_JSON StatusOK {[ "status" := VString "Nenhuma mensagem recebida" ]}
      | Some message =>
          let u := unicode w in
          let from := Webhook.From message in
          let body := ToLower u (TrimSpace u (Webhook.Body (Webhook.Text message))) in
          secrets <- accessSecretVersion from ;;
          match secrets with
          | inr _ => panic "invalid memory address or nil pointer dereference"
          | inl secrets =>
              v <- assertString (Value secrets !! "BINANCE_API_KEY") ;;
              assign (fun g =>
                        {| binanceApiKey := v;
                           binanceSecretKey := binanceSecretKey g;
                           whatsappToken := whatsappToken g;
                           whatsappApiUrl := whatsappApiUrl g;
                           whatsappPhoneId := whatsappPhoneId g |}) ;;
              v <- assertString (Value secrets !! "BINANCE_SECRET_KEY") ;;
              assign (fun g =>
                        {| binanceApiKey := binanceApiKey g;
                           binanceSecretKey := v;
                           whatsappToken := whatsappToken g;
                           whatsappApiUrl := whatsappApiUrl g;
                           whatsappPhoneId := whatsappPhoneId g |}) ;;
              r <-
                (if Contains body "saldo" && Contains body "reais" then
                   accountInfo <- getAccountInfo ;;
                   match accountInfo with
                   | None => replyWhatsApp from "Erro ao consultar saldo." ;; ret Return
                   | Some accountInfo =>
                       let brlBalance := brlBalance_loop (Balances accountInfo) in
                       (if (0 <? brlBalance)%float
                        then replyWhatsApp from
                               ("Seu saldo em reais é: R$ " ++ Sprintf_2f brlBalance)
                        else replyWhatsApp from
                               "Você não tem saldo disponível em reais.") ;;
                       ret Next
                   end
                 else if HasPrefix body "comprar" then
                   match Fields u body with
                   | [_; amountPart; _; cryptoPart] =>
                       let valueStr := ReplaceAll amountPart "r$" "" in
                       let valueStr := ReplaceAll valueStr "," "." in
                       match ParseFloat valueStr with
                       | Some amount =>
                           if (amount <=? 0)%float then
                             replyWhatsApp from
                               "O valor para compra deve ser válido e maior que zero." ;;
                             ret Return
                           else
                             let crypto := ToUpper u cryptoPart in
                             if negb (isTradingPairValid (crypto ++ BRL)) then
                               replyWhatsApp from
                                 ("Desculpe, o par de moedas " ++ crypto
                                  ++ "/BRL não é suportado.") ;;
                               ret Return
                             else
                               accountInfo <- getAccountInfo ;;
                               match accountInfo with
                               | None =>
                                   replyWhatsApp from
                                     "Erro ao validar saldo para compra." ;;
                                   ret Return
                               | Some accountInfo =>
                                   if negb (hasSufficientBalance accountInfo BRL amount)
                                   then
                                     replyWhatsApp from
                                       "Saldo insuficiente para realizar a compra." ;;
                                     ret Return
                                   else
                                     orderResponse <- buyCrypto (crypto ++ BRL) amount ;;
                                     match orderResponse with
                                     | None =>
                                         replyWhatsApp from
                                           "Erro ao realizar a compra." ;;
                                         ret Return
                                     | Some orderResponse =>
                                         replyWhatsApp from
                                           ("Compra realizada com sucesso!
Moeda: " ++ crypto ++ "
Valor: R$ " ++ Sprintf_2f amount ++ "
ID do Pedido: " ++ Sprint_v w (orderResponse !! "orderId")) ;;
                                         ret Next
                                     end
                               end
                       | None =>
                           replyWhatsApp from
                             "O valor para compra deve ser válido e maior que zero." ;;
                           ret Return
                       end
                   | _ =>
                       replyWhatsApp from
                         "Formato inválido. Use: comprar <valor> em <cripto> (exemplo: comprar 100R$ em BTC)" ;;
                       ret Return
                   end
                 else
                   replyWhatsApp from
                     "Desculpe, não reconheço este comando. Envie 'ajuda' para listar os comandos disponíveis." ;;
                   ret Next) ;;
              match r with
              | Return => ret tt
              | Next =>
                  c_JSON StatusOK
                    {[ "status" := VString "Mensagem processada com sucesso" ]}
              end
          end
      end
  end.

End Handlers.

End SecondRevision.

(** The credentials of the exchange, as the second revision takes them
    from the secret of a sender. *)
Definition credentialsOf (p : SecondRevision.Platform) (from : string)
  : option (string * string) :=
  match SecondRevision.AccessSecretVersion p (SecondRevision.buildSecretPath from) with
  | inr _ => None
  | inl data =>
      match SecondRevision.Unmarshal_Secret p data with
      | inr _ => None
      | inl secretData =>
          match secretData !! "BINANCE_API_KEY", secretData !! "BINANCE_SECRET_KEY" with
          | Some (JString k), Some (JString s) => Some (k, s)
          | _, _ => None
          end
      end
  end.

(** The configuration of the notifier, as the second revision takes it
    from the secret [whatsappConfigs]: the phone identifier, the token and
    the URL. *)
Definition configOf (p : SecondRevision.Platform) : option (string * string * string) :=
  match SecondRevision.AccessSecretVersion p
          (SecondRevision.buildSecretPath "whatsappConfigs") with
  | inr _ => None
  | inl data =>
      match SecondRevision.Unmarshal_Secret p data with
      | inr _ => None
      | inl secretData =>
          match secretData !! "WHATSAPP_PHONE_ID", secretData !! "WHATSAPP_TOKEN",
                secretData !! "WHATSAPP_API_URL" with
          | Some (JString phone), Some (JString token), Some (JString url) =>
              Some (phone, token, url)
          | _, _, _ => None
          end
      end
  end.

(** A Secret Manager with the configuration of the notifier and the keys
    of one sender, ["5511"]; payloads are named after their secrets. *)
Definition vault : SecondRevision.Platform :=
  {| SecondRevision.NewClientError := None;
     SecondRevision.AccessSecretVersion := fun path =>
       if String.eqb path (SecondRevision.buildSecretPath "whatsappConfigs")
       then inl "config"
       else if String.eqb path (SecondRevision.buildSecretPath "5511")
       then inl "keys"
       else inr "rpc error: code = NotFound";
     SecondRevision.Unmarshal_Secret := fun data =>
       if String.eqb data "config"
       then inl {[ "WHATSAPP_PHONE_ID" := JString "1055";
                   "WHATSAPP_TOKEN" := JString "s3cr3t-token";
                   "WHATSAPP_API_URL" := JString "https://graph.facebook.com/v19.0" ]}
       else if String.eqb data "keys"
       then inl {[ "BINANCE_API_KEY" := JString "key";
                   "BINANCE_SECRET_KEY" := JString "secret" ]}
       else inr "unexpected end of JSON input";
     SecondRevision.Marshal_any := fun _ => "{}" |}.

(* ===================================================================== *)
(** * Properties of the balance evaluator *)
(* ===================================================================== *)

(** A float above zero is not below or equal to zero (NaN is neither). *)
Lemma ltb_zero_not_leb (f : float64) :
  (0 <? f)%float = true -> (f <=? 0)%float = false.
Proof.
  rewrite ltb_spec, leb_spec.
  replace (Prim2SF 0) with (S754_zero false) by (vm_compute; reflexivity).
  unfold SFltb, SFleb.
  destruct (Prim2SF f) as [s|s| |s m e]; simpl; try discriminate;
    destruct s; simpl; congruence.
Qed.

Lemma isFiat_spec (c : string) :
  isFiat c = true <-> c = BRL \/ c = USD \/ c = EUR.
Proof.
  unfold isFiat, fiatCurrencies, BRL, USD, EUR.
  destruct (decide (c = "BRL")) as [->|n1]; [rewrite lookup_insert_eq; tauto|].
  rewrite lookup_insert_ne by congruence.
  destruct (decide (c = "USD")) as [->|n2]; [rewrite lookup_insert_eq; tauto|].
  rewrite lookup_insert_ne by congruence.
  destruct (decide (c = "EUR")) as [->|n3]; [rewrite lookup_singleton_eq; tauto|].
  rewrite lookup_singleton_ne by congruence.
  split; [discriminate | intros [?|[?|?]]; congruence].
Qed.

(** The map literal and the chain of comparisons of the first revision
    accept the same assets. *)
Lemma isFiat_v1_eq (c : string) : isFiat_v1 c = isFiat c.
Proof.
  apply eq_true_iff_eq. rewrite isFiat_spec. unfold isFiat_v1.
  rewrite !orb_true_iff, !String.eqb_eq. tauto.
Qed.

Lemma getFiatBalances_fold (bals : list Balance) (acc : list FiatBalance) :
  fold_left
    (fun balances balance =>
       if isFiat (Asset balance) then
         match ParseFloat (Free balance) with
         | Some freeAmount =>
             if (0 <? freeAmount)%float
             then (balances ++ [{| asset := Asset balance; amount := freeAmount |}])%list
             else balances
         | None => balances
         end
       else balances)
    bals acc
  = (acc ++ omap fiatEntry bals)%list.
Proof.
  revert acc. induction bals as [|b bals IH]; intros acc; simpl.
  - now rewrite app_nil_r.
  - rewrite IH. unfold fiatEntry at 2.
    destruct (isFiat (Asset b)); [|reflexivity].
    destruct (ParseFloat (Free b)) as [f|]; [|reflexivity].
    destruct (0 <? f)%float; [|reflexivity].
    now rewrite <- app_assoc.
Qed.

(** [getFiatBalances] keeps, in order, the entries that pass the filter. *)
Lemma getFiatBalances_omap (S : AccountInfo) :
  getFiatBalances S = omap fiatEntry (Balances S).
Proof. unfold getFiatBalances. now rewrite getFiatBalances_fold. Qed.

(** The loop of [hasSufficientBalance] answers for the first entry of the
    asset. *)
Lemma hasSufficientBalance_loop_true (bals : list Balance) (a : string) (x : float64) :
  hasSufficientBalance_loop bals a x = true <->
  exists pre b post f,
    bals = (pre ++ b :: post)%list
    /\ Forall (fun b' => Asset b' <> a) pre
    /\ Asset b = a
    /\ ParseFloat (Free b) = Some f
    /\ (x <=? f)%float = true.
Proof.
  induction bals as [|b bals IH]; simpl.
  - split; [discriminate|]. intros (pre & b & post & f & E & _).
    destruct pre; discriminate.
  - destruct (String.eqb_spec (Asset b) a) as [Ea|Na].
    + split.
      * intros H. destruct (ParseFloat (Free b)) as [f|] eqn:Ef; [|discriminate].
        exists [], b, bals, f. repeat split; auto.
      * intros (pre & b' & post & f & E & Hpre & Hb & Hf & Hx).
        destruct pre as [|p pre]; simpl in E; injection E as -> ->.
        -- now rewrite Hf.
        -- inversion Hpre; subst. congruence.
    + rewrite IH. split.
      * intros (pre & b' & post & f & -> & Hpre & Hb & Hf & Hx).
        exists (b :: pre), b', post, f. repeat split; auto.
      * intros (pre & b' & post & f & E & Hpre & Hb & Hf & Hx).
        destruct pre as [|p pre]; simpl in E; injection E as -> ->.
        -- congruence.
        -- inversion Hpre; subst. exists pre, b', post, f. repeat split; auto.
Qed.

(** A snapshot the balance check accepts has an entry of the asset whose
    free amount covers the request. *)
Lemma hasSufficientBalance_entry (S : AccountInfo) (a : string) (x : float64) :
  hasSufficientBalance S a x = true ->
  exists b f, In b (Balances S) /\ Asset b = a
              /\ ParseFloat (Free b) = Some f /\ (x <=? f)%float = true.
Proof.
  unfold hasSufficientBalance. rewrite hasSufficientBalance_loop_true.
  intros (pre & b & post & f & E & _ & Hb & Hf & Hx).
  exists b, f. rewrite E. repeat split; auto. apply in_or_app. right. now left.
Qed.

(** C2, as stated, fails: with two entries for BRL, the second of which
    covers the amount, some entry has enough and the answer is [false]. *)
Lemma hasSufficientBalance_some_entry_fails :
  ~ (hasSufficientBalance Sample.twoEntries "BRL" 50%float = true <->
     exists b f, In b (Balances Sample.twoEntries) /\ Asset b = "BRL"
                 /\ ParseFloat (Free b) = Some f /\ (50 <=? f)%float = true).
Proof.
  intros [_ H].
  assert (E : hasSufficientBalance Sample.twoEntries "BRL" 50%float = false)
    by (vm_compute; reflexivity).
  rewrite E in H. discriminate H.
  exists {| Asset := "BRL"; Free := "100" |}, 100%float.
  split; [right; left; reflexivity|].
  split; [reflexivity|]. split; vm_compute; reflexivity.
Qed.

(** C2 (amended): [hasSufficientBalance S a x] is [true] exactly when the
    first entry of [S] whose asset is [a] has a free amount that parses to a
    number [f] with [f >= x]; it is [false] when [S] has no entry for [a]
    (the empty snapshot included); and when no asset occurs twice in [S],
    it is [true] exactly when some entry of [a] has a free amount [>= x]. *)
Theorem hasSufficientBalance_first_entry (S : AccountInfo) (a : string) (x : float64) :
  (hasSufficientBalance S a x = true <->
   exists pre b post f,
     Balances S = (pre ++ b :: post)%list
     /\ Forall (fun b' => Asset b' <> a) pre
     /\ Asset b = a
     /\ ParseFloat (Free b) = Some f
     /\ (x <=? f)%float = true)
  /\ ((forall b, In b (Balances S) -> Asset b <> a) ->
      hasSufficientBalance S a x = false)
  /\ hasSufficientBalance {| Balances := [] |} a x = false
  /\ (List.NoDup (map Asset (Balances S)) ->
      (hasSufficientBalance S a x = true <->
       exists b f, In b (Balances S) /\ Asset b = a
                   /\ ParseFloat (Free b) = Some f /\ (x <=? f)%float = true)).
Proof.
  split; [apply hasSufficientBalance_loop_true|].
  split.
  { intros Habs. apply not_true_is_false. intros H.
    apply hasSufficientBalance_entry in H as (b & f & Hin & Hb & _).
    exact (Habs b Hin Hb). }
  split; [reflexivity|].
  intros Hnd. split; [apply hasSufficientBalance_entry|].
  intros (b & f & Hin & Hb & Hf & Hx).
  apply hasSufficientBalance_loop_true.
  apply in_split in Hin as (pre & post & E).
  exists pre, b, post, f. repeat split; auto.
  rewrite E, map_app in Hnd. simpl in Hnd.
  apply List.Forall_forall. intros b' Hb' Eb'.
  apply NoDup_remove_2 in Hnd. apply Hnd.
  apply in_or_app. left.
  replace (Asset b) with (Asset b') by congruence.
  now apply in_map.
Qed.

(** The amended C2 at a wallet with one entry per asset: 250.00 BRL cover a
    request of 100. *)
Lemma hasSufficientBalance_first_entry_witness :
  List.NoDup (map Asset (Balances Sample.wallet))
  /\ hasSufficientBalance Sample.wallet "BRL" 100%float = true.
Proof.
  assert (Hnd : List.NoDup (map Asset (Balances Sample.wallet))).
  { simpl. repeat constructor; simpl; intuition discriminate. }
  split; [exact Hnd|].
  destruct (hasSufficientBalance_first_entry Sample.wallet "BRL" 100%float)
    as (_ & _ & _ & H).
  apply (H Hnd).
  exists {| Asset := "BRL"; Free := "250.00" |}, 250%float.
  split; [right; left; reflexivity|].
  split; [reflexivity|]. split; vm_compute; reflexivity.
Defined.

(** C6: every entry [getFiatBalances] returns has an amount strictly above
    zero (so not [<= 0]) and an asset among BRL, USD and EUR, and it is the
    parsed free amount of an entry of the snapshot. *)
Theorem getFiatBalances_only_positive_fiat (S : AccountInfo) (r : FiatBalance) :
  In r (getFiatBalances S) ->
  (0 <? amount r)%float = true
  /\ (amount r <=? 0)%float = false
  /\ (asset r = "BRL" \/ asset r = "USD" \/ asset r = "EUR")
  /\ isFiat (asset r) = true
  /\ exists b, In b (Balances S) /\ Asset b = asset r
               /\ ParseFloat (Free b) = Some (amount r).
Proof.
  rewrite getFiatBalances_omap, <- list_elem_of_In, list_elem_of_omap.
  intros (b & Hb & Hr). apply list_elem_of_In in Hb.
  unfold fiatEntry in Hr.
  destruct (isFiat (Asset b)) eqn:Hfiat; [|discriminate].
  destruct (ParseFloat (Free b)) as [f|] eqn:Hf; [|discriminate].
  destruct (0 <? f)%float eqn:Hpos; [|discriminate].
  injection Hr as <-. simpl.
  split; [exact Hpos|]. split; [now apply ltb_zero_not_leb|].
  split; [now apply isFiat_spec|]. split; [exact Hfiat|].
  exists b. auto.
Qed.

(** C6 at the sample wallet: of BTC 0.5, BRL 250.00 and USD 0.00 only the
    BRL entry is returned. *)
Lemma getFiatBalances_only_positive_fiat_witness :
  getFiatBalances Sample.wallet = [{| asset := "BRL"; amount := 250%float |}]
  /\ (0 <? 250)%float = true.
Proof.
  assert (E : getFiatBalances Sample.wallet = [{| asset := "BRL"; amount := 250%float |}])
    by (vm_compute; reflexivity).
  split; [exact E|].
  refine (proj1 (getFiatBalances_only_positive_fiat Sample.wallet
                   {| asset := "BRL"; amount := 250%float |} _)).
  rewrite E. left. reflexivity.
Defined.

(* ===================================================================== *)
(** * The verification handshake and the empty delivery *)
(* ===================================================================== *)

(** C5, as stated, fails: the token of the request matches the configured
    one, [hub.mode] is absent, and the answer is 403, not 200 with the
    challenge. *)
Lemma verifyWebhook_token_alone_is_refused :
  ~ (Sample.queryNoMode "hub.verify_token" = Getenv Sample.up "WHATSAPP_TOKEN" ->
     verifyWebhook Sample.queryNoMode Sample.up []
     = (Returned tt, [WroteString 200 (Sample.queryNoMode "hub.challenge")])).
Proof.
  intros H. specialize (H eq_refl). vm_compute in H. discriminate H.
Qed.

(** C5 (amended): [GET /whatsapp/webhook] answers 200 with the value of
    [hub.challenge] as the body exactly when [hub.mode] is ["subscribe"] and
    [hub.verify_token] is the configured token; in every other case it
    answers 403 with the body ["Forbidden"]. Nothing else happens. *)
Theorem verifyWebhook_answer (query : string -> string) (w : World) (t : list event) :
  (query "hub.mode" = "subscribe"
   /\ query "hub.verify_token" = Getenv w "WHATSAPP_TOKEN" ->
   verifyWebhook query w t
   = (Returned tt, t ++ [WroteString 200 (query "hub.challenge")])%list)
  /\ (query "hub.mode" <> "subscribe"
      \/ query "hub.verify_token" <> Getenv w "WHATSAPP_TOKEN" ->
      verifyWebhook query w t
      = (Returned tt, t ++ [WroteString 403 "Forbidden"])%list).
Proof.
  unfold verifyWebhook, bind, ask, c_String, emit.
  destruct (String.eqb_spec (query "hub.mode") "subscribe") as [Em|Nm];
    destruct (String.eqb_spec (query "hub.verify_token") (Getenv w "WHATSAPP_TOKEN"))
      as [Et|Nt]; simpl; split; intros H; try reflexivity; tauto.
Qed.

(** The amended C5 at a subscription request with the right token, and at
    the same request without [hub.mode]. *)
Lemma verifyWebhook_answer_witness :
  verifyWebhook Sample.querySubscribe Sample.up []
  = (Returned tt, [WroteString 200 "1158201444"])
  /\ verifyWebhook Sample.queryNoMode Sample.up []
     = (Returned tt, [WroteString 403 "Forbidden"]).
Proof.
  split.
  - apply (proj1 (verifyWebhook_answer Sample.querySubscribe Sample.up [])).
    split; reflexivity.
  - apply (proj2 (verifyWebhook_answer Sample.queryNoMode Sample.up [])).
    left. discriminate.
Defined.

(** C9: a bound payload whose entry list is empty, or whose first entry has
    no change, or whose first change has no message, is answered 200 with
    the status ["Nenhuma mensagem recebida"]; the answer is the only event:
    no reply is sent and the exchange is not called. *)
Theorem handleWhatsAppWebhook_no_message (req : Webhook.payload) (w : World)
    (t : list event) :
  Webhook.Entry req = []
  \/ (exists e0, head (Webhook.Entry req) = Some e0 /\ Webhook.Changes e0 = [])
  \/ (exists e0 c0, head (Webhook.Entry req) = Some e0
                    /\ head (Webhook.Changes e0) = Some c0
                    /\ Webhook.Messages (Webhook.Value c0) = []) ->
  handleWhatsAppWebhook (Some req) w t
  = (Returned tt,
     t ++ [WroteJSON 200 {[ "status" := VString "Nenhuma mensagem recebida" ]}])%list.
Proof.
  unfold handleWhatsAppWebhook.
  intros [H|[(e0 & He & Hc)|(e0 & c0 & He & Hc & Hm)]].
  - now rewrite H.
  - destruct (Webhook.Entry req) as [|e es]; [reflexivity|].
    injection He as ->. now rewrite Hc.
  - destruct (Webhook.Entry req) as [|e es]; [reflexivity|].
    injection He as ->.
    destruct (Webhook.Changes e0) as [|c cs]; [reflexivity|].
    injection Hc as ->. now rewrite Hm.
Qed.

(** C9 at the payload without entries and at one whose only change carries
    no message. *)
Lemma handleWhatsAppWebhook_no_message_witness :
  handleWhatsAppWebhook (Some {| Webhook.Entry := [] |}) Sample.up []
  = (Returned tt, [WroteJSON 200 {[ "status" := VString "Nenhuma mensagem recebida" ]}])
  /\ handleWhatsAppWebhook
       (Some {| Webhook.Entry :=
                  [{| Webhook.Changes :=
                        [{| Webhook.Value := {| Webhook.Messages := [] |} |}] |}] |})
       Sample.up []
     = (Returned tt, [WroteJSON 200 {[ "status" := VString "Nenhuma mensagem recebida" ]}]).
Proof.
  split.
  - apply (handleWhatsAppWebhook_no_message {| Webhook.Entry := [] |} Sample.up []).
    left. reflexivity.
  - apply (handleWhatsAppWebhook_no_message _ Sample.up []).
    right. right. eexists _, _. repeat split; reflexivity.
Defined.

(* ===================================================================== *)
(** * Orders are submitted after the checks *)
(* ===================================================================== *)

Lemma eachOrder_at (P : list event -> string -> float64 -> Prop)
    (evs seen pre post : list event) (symbol : string) (amount : float64) :
  eachOrder P seen evs ->
  evs = (pre ++ Called_buyCrypto symbol amount :: post)%list ->
  P (seen ++ pre)%list symbol amount.
Proof.
  revert seen pre. induction evs as [|e evs IH]; intros seen pre H E.
  - destruct pre; discriminate.
  - destruct pre as [|p pre]; simpl in E; injection E as -> ->.
    + rewrite app_nil_r. exact (proj1 H).
    + replace (seen ++ p :: pre)%list with ((seen ++ [p]) ++ pre)%list
        by now rewrite <- app_assoc.
      apply (IH _ _ (proj2 H) eq_refl).
Qed.

(** [x] contains no case distinction of its own. *)
Ltac plain_scrutinee x :=
  lazymatch x with
  | context [match _ with _ => _ end] => fail
  | _ => idtac
  end.

(** One case distinction on what the world answers, or on a test of the
    handler: the innermost scrutinee first. *)
Ltac run_step :=
  match goal with
  | |- context [match ?x with _ => _ end] => plain_scrutinee x; destruct x eqn:?
  end.

(** The trace of a run, as the initial trace followed by a list of
    events. *)
Ltac run_trace :=
  cbn [snd fst]; rewrite <- ?app_assoc; cbn [app].

Ltac close_checked :=
  lazymatch goal with
  | Hu : Unmarshal_AccountInfo _ (Payload ?resp) = Some ?S,
    Hs : negb (StatusCode ?resp =? StatusOK)%Z = false,
    Hb : negb (hasSufficientBalance ?S BRL ?amount) = false |- _ =>
      apply negb_false_iff in Hs; apply Z.eqb_eq in Hs;
      apply negb_false_iff in Hb;
      split; [reflexivity|];
      eexists _, resp, S;
      split; [reflexivity|]; split; [exact Hs|]; split; [assumption|];
      split; [exact Hu|]; split; [exact Hb|];
      exact (hasSufficientBalance_entry S BRL amount Hb)
  end.

(** The goals of [eachOrder] on a list of events written out. *)
Ltac order_goals :=
  cbn [eachOrder];
  repeat match goal with
         | |- _ /\ _ => split
         | |- True => exact I
         end;
  try (eexists; reflexivity);
  try close_checked.

Lemma handleBuyCrypto_orders (bound : option BuyRequest) (w : World)
    (t : list event) :
  exists evs, snd (handleBuyCrypto bound w t) = (t ++ evs)%list
              /\ eachOrder (fun seen s a => checkedBefore w seen s a /\ pairWithBRL s)
                   [] evs.
Proof.
  unfold handleBuyCrypto, getAccountInfo, buyCrypto, c_JSON, bind, ask, now,
    clientDo, emit, ret.
  cbn [isTradingPairValid negb].
  repeat run_step.
  all: run_trace; eexists; (split; [reflexivity|]).
  all: order_goals.
Qed.

Lemma handleWhatsAppWebhook_orders (bound : option Webhook.payload) (w : World)
    (t : list event) :
  exists evs, snd (handleWhatsAppWebhook bound w t) = (t ++ evs)%list
              /\ eachOrder (fun seen s a => checkedBefore w seen s a /\ pairWithBRL s)
                   [] evs.
Proof.
  unfold handleWhatsAppWebhook, replyWhatsApp, readReply, getAccountInfo, buyCrypto,
    c_JSON, bind, ask, now, clientDo, emit, ret, panic, fatal.
  cbn [isTradingPairValid negb].
  repeat run_step.
  all: run_trace; eexists; (split; [reflexivity|]).
  all: order_goals.
Qed.

(** The handler of the first revision calls [buyCrypto] first. *)
Lemma Rev1_comprar_buys_first (req : BuyRequest) (w : World) (t : list event) :
  (Amount req <=? 0)%float = false ->
  exists evs,
    snd (Rev1.comprar (Some req) w t)
    = (t ++ Called_buyCrypto (Crypto req ++ BRL) (Amount req) :: evs)%list.
Proof.
  intros Hpos.
  unfold Rev1.comprar, buyCrypto, c_JSON, bind, ask, now, clientDo, emit, ret.
  rewrite Hpos.
  repeat run_step.
  all: run_trace; eexists; reflexivity.
Qed.

(** C1, as stated, fails: [POST /comprar] of the first revision, asked for
    100 BRL of BTC, calls [buyCrypto] first, with no snapshot fetched and
    no balance checked. *)
Lemma first_revision_buys_unchecked :
  ~ (forall pre symbol amount post,
       snd (Rev1.comprar (Some {| Crypto := "BTC"; Amount := 100%float |}) Sample.up [])
       = (pre ++ Called_buyCrypto symbol amount :: post)%list ->
       checkedBefore Sample.up pre symbol amount).
Proof.
  intros H.
  destruct (Rev1_comprar_buys_first {| Crypto := "BTC"; Amount := 100%float |} Sample.up [])
    as [evs E]; [vm_compute; reflexivity|].
  specialize (H [] _ _ _ E).
  destruct H as (_ & ms & resp & S & Hseen & _). discriminate Hseen.
Qed.

(** C1 (amended): in [handleBuyCrypto] and in [handleWhatsAppWebhook], for
    every bound or unbound request, every world and every call of
    [buyCrypto] the handler makes: the pair is valid, and the events of the
    request before the call are exactly one call of [getAccountInfo] with
    its round trip, answered 200 with a snapshot [S] that decodes, on which
    [hasSufficientBalance S BRL amount] holds (so an entry of BRL in [S] has
    a free amount [>= amount]); no other fetch comes in between. The handler
    of [POST /comprar] in the first revision has no such check: for a
    positive amount its first event is the call of [buyCrypto]. *)
Theorem orders_follow_the_checks (w : World) (t : list event) :
  (forall bound, exists evs,
      snd (handleBuyCrypto bound w t) = (t ++ evs)%list
      /\ forall pre symbol amount post,
           evs = (pre ++ Called_buyCrypto symbol amount :: post)%list ->
           checkedBefore w pre symbol amount)
  /\ (forall bound, exists evs,
         snd (handleWhatsAppWebhook bound w t) = (t ++ evs)%list
         /\ forall pre symbol amount post,
              evs = (pre ++ Called_buyCrypto symbol amount :: post)%list ->
              checkedBefore w pre symbol amount)
  /\ (forall req, (Amount req <=? 0)%float = false ->
        exists evs,
          snd (Rev1.comprar (Some req) w t)
          = (t ++ Called_buyCrypto (Crypto req ++ BRL) (Amount req) :: evs)%list).
Proof.
  split; [|split].
  - intros bound. destruct (handleBuyCrypto_orders bound w t) as (evs & E & H).
    exists evs. split; [exact E|]. intros pre symbol amount post Eevs.
    exact (proj1 (eachOrder_at _ evs [] pre post symbol amount H Eevs)).
  - intros bound. destruct (handleWhatsAppWebhook_orders bound w t) as (evs & E & H).
    exists evs. split; [exact E|]. intros pre symbol amount post Eevs.
    exact (proj1 (eachOrder_at _ evs [] pre post symbol amount H Eevs)).
  - intros req. apply Rev1_comprar_buys_first.
Qed.

(** The amended C1 at the chat command ["comprar 100 em btc"], with 250 BRL
    in the account: the order is submitted, and the events before it are
    the fetch of the snapshot on which the check passed. *)
Lemma orders_follow_the_checks_witness :
  exists pre post,
    snd (handleWhatsAppWebhook
           (Some (delivery "5511988887777" "comprar 100 em btc")) Sample.up [])
    = (pre ++ Called_buyCrypto "BTCBRL" 100%float :: post)%list
    /\ checkedBefore Sample.up pre "BTCBRL" 100%float.
Proof.
  destruct (orders_follow_the_checks Sample.up []) as (_ & H & _).
  destruct (H (Some (delivery "5511988887777" "comprar 100 em btc")))
    as (evs & E & Hc).
  vm_compute in E. subst evs.
  match type of Hc with
  | forall pre symbol amount post, (?e1 :: ?e2 :: _ :: ?rest) = _ -> _ =>
      exists [e1; e2], rest;
      split; [vm_compute; reflexivity | apply (Hc [e1; e2] _ _ rest); reflexivity]
  end.
Defined.

(* ===================================================================== *)
(** * The notifier *)
(* ===================================================================== *)

(** When the transport fails, [replyWhatsApp] logs the error and then
    panics on [responseZap.Status]: it does not return. *)
Lemma replyWhatsApp_transport_failure (w : World) (t : list event)
    (to message err : string) :
  NewRequestError w (URL (replyRequest w to message)) = None ->
  Do w (t ++ [Called_replyWhatsApp to message])%list (replyRequest w to message)
  = Failed err ->
  replyWhatsApp to message w t
  = (Panicked "invalid memory address or nil pointer dereference",
     t ++ [Called_replyWhatsApp to message;
           RoundTripped (replyRequest w to message) (Failed err);
           Logged ("Can't send WhatsApp message: " ++ err)])%list.
Proof.
  intros Hreq Hdo.
  unfold replyWhatsApp, bind, ask, clientDo, emit, panic.
  rewrite Hreq, Hdo. run_trace. reflexivity.
Qed.

(** Whatever the world answers, the only operation of [replyWhatsApp] is
    the reply itself. *)
Lemma replyWhatsApp_calls (w : World) (t : list event) (to message : string) :
  exists evs, snd (replyWhatsApp to message w t) = (t ++ evs)%list
              /\ calls evs = [Called_replyWhatsApp to message].
Proof.
  unfold replyWhatsApp, readReply, bind, ask, clientDo, emit, panic, fatal, ret.
  repeat run_step.
  all: run_trace; eexists; (split; [reflexivity|reflexivity]).
Qed.

(** C8 (the code departs from the claim): the order for 100 BRL of BTC is
    placed, the confirmation cannot be delivered, the failure is logged, and
    the handler panics: it writes no answer. *)
Theorem notifier_failure_panics :
  let run :=
    handleWhatsAppWebhook (Some (delivery "5511988887777" "comprar 100 em btc"))
      Sample.notifierDown [] in
  fst run = Panicked "invalid memory address or nil pointer dereference"
  /\ calls (snd run)
     = [Called_getAccountInfo;
        Called_buyCrypto "BTCBRL" 100%float;
        Called_replyWhatsApp "5511988887777"
          "Compra realizada com sucesso!
Moeda: BTC
Valor: R$ 100.00
ID do Pedido: 42"]
  /\ logged (snd run) = ["Can't send WhatsApp message: dial tcp: i/o timeout"]
  /\ answers (snd run) = [].
Proof. vm_compute. repeat split. Qed.

(* ===================================================================== *)
(** * The command parser *)
(* ===================================================================== *)

(** The handler is the parser followed by the orchestrator. *)
Lemma handleWhatsAppWebhook_refines (req : Webhook.payload) (msg : Webhook.message)
    (w : World) (t : list event) :
  firstMessage req = Some msg ->
  handleWhatsAppWebhook (Some req) w t
  = orchestrate (Webhook.From msg)
      (parse (unicode w) (Webhook.Body (Webhook.Text msg))) w t.
Proof.
  unfold firstMessage, handleWhatsAppWebhook.
  destruct (Webhook.Entry req) as [|e0 es]; [discriminate|].
  cbn [head mbind option_bind].
  destruct (Webhook.Changes e0) as [|c0 cs]; [discriminate|].
  cbn [head mbind option_bind].
  destruct (Webhook.Messages (Webhook.Value c0)) as [|m ms]; [discriminate|].
  cbn [head]. intros [= ->].
  unfold orchestrate, parse, parseAmount, buyFlow, balanceFlow, unknownHint,
    amountHint, formatHint.
  unfold bind at 1. unfold ask at 1.
  set (u := unicode w).
  set (body := ToLower u (TrimSpace u (Webhook.Body (Webhook.Text msg)))).
  destruct (Contains body "saldo" && Contains body "reais"); [reflexivity|].
  destruct (HasPrefix body "comprar"); [|reflexivity].
  destruct (Fields u body) as [|p0 [|p1 [|p2 [|p3 [|p4 ps]]]]]; try reflexivity.
  destruct (ParseFloat _) as [amount|]; [|reflexivity].
  destruct (amount <=? 0)%float; reflexivity.
Qed.

Lemma firstMessage_delivery (from text : string) :
  firstMessage (delivery from text)
  = Some {| Webhook.From := from; Webhook.Text := {| Webhook.Body := text |} |}.
Proof. reflexivity. Qed.

(** What the parser answers to a buy command that is not a balance
    inquiry. *)
Lemma parse_comprar (u : Unicode) (text : string) :
  let body := ToLower u (TrimSpace u text) in
  Contains body "saldo" && Contains body "reais" = false ->
  HasPrefix body "comprar" = true ->
  parse u text
  = match Fields u body with
    | [_; amountToken; _; assetToken] =>
        match parseAmount amountToken with
        | Some amount =>
            if (amount <=? 0)%float then InvalidBuyFormat amountHint
            else Buy (ToUpper u assetToken) amount
        | None => InvalidBuyFormat amountHint
        end
    | _ => InvalidBuyFormat formatHint
    end.
Proof. intros body Hb Hp. unfold parse. fold body. now rewrite Hb, Hp. Qed.

(** C3, as stated, fails: ["comprar saldo reais"] starts with the buy
    keyword and has three tokens, not four, yet it is answered as a balance
    inquiry (the account is fetched and the balance sent), not with one of
    the two replies to an invalid buy. *)
Lemma comprar_saldo_reais_is_a_balance_inquiry :
  ~ (HasPrefix (ToLower Sample.bytewise (TrimSpace Sample.bytewise "comprar saldo reais"))
       "comprar" = true ->
     length (Fields Sample.bytewise
               (ToLower Sample.bytewise (TrimSpace Sample.bytewise "comprar saldo reais")))
     <> 4%nat ->
     exists hint,
       calls (snd (handleWhatsAppWebhook
                     (Some (delivery "5511988887777" "comprar saldo reais"))
                     Sample.up []))
       = [Called_replyWhatsApp "5511988887777" hint]).
Proof.
  intros H. destruct H as (hint & H); [reflexivity | discriminate |].
  vm_compute in H. discriminate H.
Qed.

(** C3 (amended). The handler runs the orchestrator on the intent the
    parser gives to the text of the first message. The parser trims and
    lower-cases the text and maps ["saldo em reais"] to the balance inquiry,
    ["comprar 100r$ em btc"] to the buy of BTC for 100.0,
    ["comprar 100,50 em eth"] to the buy of ETH for 100.5,
    ["comprar abc em btc"] to the reply about the amount, and ["oi"] to the
    reply to an unrecognized command. A text that contains both ["saldo"]
    and ["reais"] is a balance inquiry even when it starts with ["comprar"].
    A text that starts with ["comprar"] and is not a balance inquiry gets
    the reply about the format when its token count is not 4, and the reply
    about the amount when its second token, without ["r$"] and with commas
    turned into points, fails to parse or parses to a number [<= 0]. For
    both replies, and for the unrecognized command, the only operation is
    the reply. *)
Theorem command_parser (u : Unicode) :
  (forall req msg w t,
      firstMessage req = Some msg ->
      handleWhatsAppWebhook (Some req) w t
      = orchestrate (Webhook.From msg)
          (parse (unicode w) (Webhook.Body (Webhook.Text msg))) w t)
  /\ parse u "saldo em reais" = QueryBalance
  /\ parse u "comprar 100r$ em btc" = Buy "BTC" 100%float
  /\ parse u "comprar 100,50 em eth" = Buy "ETH" 100.5%float
  /\ parse u "comprar abc em btc" = InvalidBuyFormat amountHint
  /\ parse u "oi" = Unknown
  /\ (forall text,
        Contains (ToLower u (TrimSpace u text)) "saldo"
        && Contains (ToLower u (TrimSpace u text)) "reais" = true ->
        parse u text = QueryBalance)
  /\ (forall text,
        Contains (ToLower u (TrimSpace u text)) "saldo"
        && Contains (ToLower u (TrimSpace u text)) "reais" = false ->
        HasPrefix (ToLower u (TrimSpace u text)) "comprar" = true ->
        length (Fields u (ToLower u (TrimSpace u text))) <> 4%nat ->
        parse u text = InvalidBuyFormat formatHint)
  /\ (forall text p0 p1 p2 p3,
        Contains (ToLower u (TrimSpace u text)) "saldo"
        && Contains (ToLower u (TrimSpace u text)) "reais" = false ->
        HasPrefix (ToLower u (TrimSpace u text)) "comprar" = true ->
        Fields u (ToLower u (TrimSpace u text)) = [p0; p1; p2; p3] ->
        parseAmount p1 = None
        \/ (exists amount, parseAmount p1 = Some amount
                           /\ (amount <=? 0)%float = true) ->
        parse u text = InvalidBuyFormat amountHint)
  /\ (forall from intent w t,
        (exists hint, intent = InvalidBuyFormat hint) \/ intent = Unknown ->
        exists evs hint,
          snd (orchestrate from intent w t) = (t ++ evs)%list
          /\ calls evs = [Called_replyWhatsApp from hint]
          /\ (intent = Unknown -> hint = unknownHint)
          /\ (forall h, intent = InvalidBuyFormat h -> hint = h)).
Proof.
  split; [exact handleWhatsAppWebhook_refines|].
  do 5 (split; [vm_compute; reflexivity|]).
  split; [intros text H; unfold parse; now rewrite H|].
  split.
  { intros text Hb Hp Hlen. rewrite (parse_comprar u text Hb Hp).
    destruct (Fields _ _) as [|p0 [|p1 [|p2 [|p3 [|p4 ps]]]]]; try reflexivity.
    now contradiction Hlen. }
  split.
  { intros text p0 p1 p2 p3 Hb Hp Hf Ha. rewrite (parse_comprar u text Hb Hp), Hf.
    destruct Ha as [->|(amount & -> & ->)]; reflexivity. }
  intros from intent w t Hi.
  destruct Hi as [(hint & ->)| ->].
  - destruct (replyWhatsApp_calls w t from hint) as (evs & E & C).
    exists evs, hint. split; [|split; [exact C|split; [discriminate|congruence]]].
    unfold orchestrate, bind, ret.
    destruct (replyWhatsApp from hint w t) as [[[]| |] t']; exact E.
  - destruct (replyWhatsApp_calls w t from unknownHint) as (evs & E & C).
    unfold orchestrate, bind, ret, c_JSON, emit.
    destruct (replyWhatsApp from unknownHint w t) as [[[]| |] t'];
      cbn [snd] in E |- *; subst t'.
    + exists (evs ++ [WroteJSON StatusOK
                        {[ "status" := VString "Mensagem processada com sucesso" ]}])%list,
        unknownHint.
      split; [now rewrite app_assoc|].
      split; [|split; [reflexivity|discriminate]].
      unfold calls in *. rewrite filter_app, C. reflexivity.
    + exists evs, unknownHint. repeat split; try assumption. discriminate.
    + exists evs, unknownHint. repeat split; try assumption. discriminate.
Qed.

(** The amended C3 at a buy command of three tokens, at one with the amount
    zero, and at a text in upper case with blanks around it. *)
Lemma command_parser_witness :
  parse Sample.bytewise "comprar 100 btc" = InvalidBuyFormat formatHint
  /\ parse Sample.bytewise "comprar 0 em btc" = InvalidBuyFormat amountHint
  /\ parse Sample.bytewise "comprar saldo reais" = QueryBalance
  /\ parse Sample.bytewise "  Comprar 100R$ em BTC " = Buy "BTC" 100%float.
Proof.
  destruct (command_parser Sample.bytewise)
    as (_ & _ & _ & _ & _ & _ & Hq & Hf & Ha & _).
  split; [apply Hf; [reflexivity|reflexivity|vm_compute; discriminate]|].
  split.
  { apply (Ha "comprar 0 em btc" "comprar" "0" "em" "btc");
      [reflexivity|reflexivity|reflexivity|].
    right. exists 0%float. split; vm_compute; reflexivity. }
  split; [apply Hq; reflexivity|].
  vm_compute. reflexivity.
Defined.

(** C10, as stated, fails: ["comprar 100 saldo reais"] starts with the buy
    keyword, has four tokens and the amount 100, yet the handler does not
    run the buy of ["REAIS"]: it answers the balance inquiry. *)
Lemma comprar_100_saldo_reais_is_not_a_buy :
  ~ (HasPrefix
       (ToLower Sample.bytewise (TrimSpace Sample.bytewise "comprar 100 saldo reais"))
       "comprar" = true ->
     Fields Sample.bytewise
       (ToLower Sample.bytewise (TrimSpace Sample.bytewise "comprar 100 saldo reais"))
     = ["comprar"; "100"; "saldo"; "reais"] ->
     parseAmount "100" = Some 100%float ->
     (0 <? 100)%float = true ->
     calls (snd (handleWhatsAppWebhook
                   (Some (delivery "5511988887777" "comprar 100 saldo reais"))
                   Sample.up []))
     = calls (snd (orchestrate "5511988887777" (Buy "REAIS" 100%float)
                     Sample.up []))).
Proof.
  intros H.
  assert (E := H eq_refl eq_refl eq_refl eq_refl).
  vm_compute in E. discriminate E.
Qed.

(** C10 (amended): for every text that, trimmed and lower-cased, does not
    contain both ["saldo"] and ["reais"], starts with ["comprar"], has
    exactly four tokens, and whose second token parses to an amount above
    zero, the handler runs the buy flow with the fourth token in upper case
    as the asset and that amount, whatever the first and the third token
    are. *)
Theorem third_token_is_ignored (from text p0 p1 p2 p3 : string) (amount : float64)
    (w : World) (t : list event) :
  let u := unicode w in
  Contains (ToLower u (TrimSpace u text)) "saldo"
  && Contains (ToLower u (TrimSpace u text)) "reais" = false ->
  HasPrefix (ToLower u (TrimSpace u text)) "comprar" = true ->
  Fields u (ToLower u (TrimSpace u text)) = [p0; p1; p2; p3] ->
  parseAmount p1 = Some amount ->
  (0 <? amount)%float = true ->
  parse u text = Buy (ToUpper u p3) amount
  /\ handleWhatsAppWebhook (Some (delivery from text)) w t
     = orchestrate from (Buy (ToUpper u p3) amount) w t.
Proof.
  intros u Hb Hp Hf Ha Hpos.
  assert (E : parse u text = Buy (ToUpper u p3) amount).
  { rewrite (parse_comprar u text Hb Hp), Hf, Ha.
    now rewrite (ltb_zero_not_leb amount Hpos). }
  split; [exact E|].
  rewrite (handleWhatsAppWebhook_refines _ _ w t (firstMessage_delivery from text)).
  cbn [Webhook.From Webhook.Text Webhook.Body]. fold u. now rewrite E.
Qed.

(** The amended C10 at ["comprar 100 xx btc"], whose third token is not
    ["em"]. *)
Lemma third_token_is_ignored_witness :
  parse Sample.bytewise "comprar 100 xx btc" = Buy "BTC" 100%float
  /\ handleWhatsAppWebhook (Some (delivery "5511988887777" "comprar 100 xx btc"))
       Sample.up []
     = orchestrate "5511988887777" (Buy "BTC" 100%float) Sample.up [].
Proof.
  apply (third_token_is_ignored "5511988887777" "comprar 100 xx btc"
           "comprar" "100" "xx" "btc" 100%float Sample.up []);
    vm_compute; reflexivity.
Defined.

(* ===================================================================== *)
(** * The signer *)
(* ===================================================================== *)

Lemma append_cons (c : ascii) (s1 s2 : string) :
  String c s1 ++ s2 = String c (s1 ++ s2).
Proof. reflexivity. Qed.

Lemma append_nil_l (s : string) : "" ++ s = s.
Proof. reflexivity. Qed.

Lemma length_append (s1 s2 : string) :
  String.length (s1 ++ s2) = (String.length s1 + String.length s2)%nat.
Proof.
  induction s1 as [|c s1 IH]; [reflexivity|].
  rewrite append_cons. cbn [String.length]. now rewrite IH.
Qed.

Lemma append_assoc (s1 s2 s3 : string) : (s1 ++ s2) ++ s3 = s1 ++ (s2 ++ s3).
Proof.
  induction s1 as [|c s1 IH]; [reflexivity|].
  rewrite !append_cons. now rewrite IH.
Qed.

Lemma append_nil_r (s : string) : s ++ "" = s.
Proof.
  induction s as [|c s IH]; [reflexivity|].
  rewrite append_cons. now rewrite IH.
Qed.

(** A case for each of the 256 bytes. *)
Ltac each_byte c :=
  let b0 := fresh in let b1 := fresh in let b2 := fresh in let b3 := fresh in
  let b4 := fresh in let b5 := fresh in let b6 := fresh in let b7 := fresh in
  destruct c as [b0 b1 b2 b3 b4 b5 b6 b7];
  destruct b0, b1, b2, b3, b4, b5, b6, b7.

(** A property of a byte that holds as soon as a test on it does. *)
Ltac bytes_where c :=
  let H := fresh in
  each_byte c; intros H; try reflexivity; discriminate H.

Lemma sha256_length (msg : string) : String.length (sha256 msg) = 32%nat.
Proof. unfold sha256, stateBytes. now rewrite !length_append. Qed.

Lemma EncodeToString_length (src : string) :
  String.length (EncodeToString src) = (2 * String.length src)%nat.
Proof. induction src as [|v src IH]; simpl; [reflexivity|]. rewrite IH. lia. Qed.

(** The two digits of a byte are lower-case hexadecimal digits. *)
Lemma hexDigits_lower (v : ascii) :
  isLowerHex (hexDigit (Z.shiftr (byteZ v) 4)) = true
  /\ isLowerHex (hexDigit (Z.land (byteZ v) 15)) = true.
Proof. each_byte v; split; reflexivity. Qed.

Lemma EncodeToString_lower (src : string) :
  allBytes isLowerHex (EncodeToString src) = true.
Proof.
  induction src as [|v src IH]; [reflexivity|].
  cbn [EncodeToString allBytes].
  destruct (hexDigits_lower v) as [-> ->]. exact IH.
Qed.

Lemma unhex_hexDigits (v : ascii) :
  unhex (hexDigit (Z.shiftr (byteZ v) 4)) (hexDigit (Z.land (byteZ v) 15)) = Some v.
Proof. each_byte v; reflexivity. Qed.

Lemma EncodeToString_inj (s1 s2 : string) :
  EncodeToString s1 = EncodeToString s2 -> s1 = s2.
Proof.
  revert s2. induction s1 as [|v1 s1 IH]; intros [|v2 s2]; simpl;
    try discriminate; [reflexivity|].
  intros [= Hhi Hlo Hrest].
  assert (E : Some v1 = Some v2).
  { rewrite <- (unhex_hexDigits v1), <- (unhex_hexDigits v2).
    change (Z.land (byteZ v1) 15) with (Z.land (byteZ v1) 0x0f).
    now rewrite Hhi, Hlo. }
  injection E as ->. f_equal. now apply IH.
Qed.

(** C7, as stated, fails: two secrets that differ, one being the other with
    a zero byte after it, sign the same string with the same digest. *)
Lemma zero_padded_secret_collides :
  ~ ("secret" <> Sample.paddedSecret ->
     createSignature "secret" "timestamp=1700000000000"
     <> createSignature Sample.paddedSecret "timestamp=1700000000000").
Proof.
  intros H. apply H; [discriminate|]. vm_compute. reflexivity.
Qed.

(** C7 (amended): [createSignature] is a function of its two arguments: the
    same secret and the same string give the same digest. The digest has 64
    characters, all lower-case hexadecimal digits, and encodes the 32 bytes
    of HMAC-SHA256: two digests are equal exactly when the two HMAC tags
    are. Secrets with the same padded key ([hmacKey]: a secret of at most 64
    bytes filled with zero bytes, a longer one hashed first) give the same
    digest for every string, so different secrets need not give different
    digests. *)
Theorem createSignature_is_hex_of_hmac (secret data secret' data' : string) :
  (secret = secret' -> data = data' ->
   createSignature secret data = createSignature secret' data')
  /\ String.length (createSignature secret data) = 64%nat
  /\ allBytes isLowerHex (createSignature secret data) = true
  /\ String.length (hmac_sha256 secret data) = 32%nat
  /\ (createSignature secret data = createSignature secret' data'
      <-> hmac_sha256 secret data = hmac_sha256 secret' data')
  /\ (hmacKey secret = hmacKey secret' ->
      createSignature secret data = createSignature secret' data).
Proof.
  split; [now intros -> ->|].
  split.
  { unfold createSignature, hmac_sha256.
    now rewrite EncodeToString_length, sha256_length. }
  split; [apply EncodeToString_lower|].
  split; [apply sha256_length|].
  split.
  { unfold createSignature. split; [apply EncodeToString_inj|now intros ->]. }
  intros Hk. unfold createSignature, hmac_sha256. now rewrite Hk.
Qed.

(** The amended C7 at the two secrets of the counterexample. *)
Lemma createSignature_is_hex_of_hmac_witness :
  hmacKey "secret" = hmacKey Sample.paddedSecret
  /\ createSignature "secret" "timestamp=1700000000000"
     = createSignature Sample.paddedSecret "timestamp=1700000000000".
Proof.
  assert (Hk : hmacKey "secret" = hmacKey Sample.paddedSecret)
    by (vm_compute; reflexivity).
  split; [exact Hk|].
  destruct (createSignature_is_hex_of_hmac "secret" "timestamp=1700000000000"
              Sample.paddedSecret "timestamp=1700000000000")
    as (_ & _ & _ & _ & _ & H).
  exact (H Hk).
Defined.

(* ===================================================================== *)
(** * The order request: what is signed is what is sent *)
(* ===================================================================== *)

Lemma allBytes_append (p : ascii -> bool) (a b : string) :
  allBytes p (a ++ b) = allBytes p a && allBytes p b.
Proof.
  induction a as [|c a IH]; [reflexivity|].
  rewrite append_cons. cbn [allBytes]. rewrite IH. now rewrite andb_assoc.
Qed.

Lemma allBytes_impl (p q : ascii -> bool) (s : string) :
  (forall c, p c = true -> q c = true) ->
  allBytes p s = true -> allBytes q s = true.
Proof.
  intros Hpq. induction s as [|c s IH]; [reflexivity|].
  cbn [allBytes]. rewrite !andb_true_iff. intros [Hc Hs]. auto.
Qed.

(** ** [url.QueryEscape] *)

Lemma QueryEscape_cons (c : ascii) (s : string) :
  QueryEscape (String c s) = QueryEscape (String c "") ++ QueryEscape s.
Proof.
  cbn [QueryEscape]. destruct (shouldEscape c); [|reflexivity].
  destruct (Ascii.eqb c " "); reflexivity.
Qed.

Lemma QueryEscape_byte_safe (c : ascii) :
  allBytes formSafe (QueryEscape (String c "")) = true.
Proof. each_byte c; reflexivity. Qed.

(** [url.QueryEscape] writes unreserved bytes, [+] and [%] only. *)
Lemma QueryEscape_safe (s : string) : allBytes formSafe (QueryEscape s) = true.
Proof.
  induction s as [|c s IH]; [reflexivity|].
  now rewrite QueryEscape_cons, allBytes_append, QueryEscape_byte_safe, IH.
Qed.

Lemma formSafe_not_amp (c : ascii) : formSafe c = true -> negb (Ascii.eqb c "&") = true.
Proof. bytes_where c. Qed.

Lemma formSafe_not_eq (c : ascii) : formSafe c = true -> negb (Ascii.eqb c "=") = true.
Proof. bytes_where c. Qed.

Lemma QueryEscape_freeOf_amp (s : string) : freeOf "&" (QueryEscape s) = true.
Proof. exact (allBytes_impl _ _ _ formSafe_not_amp (QueryEscape_safe s)). Qed.

Lemma QueryEscape_freeOf_eq (s : string) : freeOf "=" (QueryEscape s) = true.
Proof. exact (allBytes_impl _ _ _ formSafe_not_eq (QueryEscape_safe s)). Qed.

(** A string of unreserved bytes is escaped to itself. *)
Lemma QueryEscape_unreserved (s : string) :
  allBytes unreserved s = true -> QueryEscape s = s.
Proof.
  induction s as [|c s IH]; [reflexivity|].
  cbn [allBytes QueryEscape]. rewrite andb_true_iff. intros [Hc Hs].
  unfold unreserved in Hc. apply negb_true_iff in Hc. rewrite Hc.
  now rewrite IH.
Qed.

Lemma isLowerHex_unreserved (c : ascii) : isLowerHex c = true -> unreserved c = true.
Proof. bytes_where c. Qed.

Lemma isDigit_unreserved (c : ascii) : isDigit c = true -> unreserved c = true.
Proof. bytes_where c. Qed.

Lemma createSignature_escaped (secret data : string) :
  QueryEscape (createSignature secret data) = createSignature secret data.
Proof.
  apply QueryEscape_unreserved.
  exact (allBytes_impl _ _ _ isLowerHex_unreserved (EncodeToString_lower _)).
Qed.

(** ** Decimal numbers *)

Lemma isNumberByte_unreserved (c : ascii) : isNumberByte c = true -> unreserved c = true.
Proof. bytes_where c. Qed.

Lemma string_of_uint_digits (d : Decimal.uint) :
  allBytes isDigit (DecimalString.NilEmpty.string_of_uint d) = true.
Proof. induction d; cbn [DecimalString.NilEmpty.string_of_uint allBytes]; auto. Qed.

Lemma NilZero_string_of_uint_digits (d : Decimal.uint) :
  allBytes isDigit (DecimalString.NilZero.string_of_uint d) = true
  /\ DecimalString.NilZero.string_of_uint d <> "".
Proof.
  destruct d; (split; [first [reflexivity | apply (string_of_uint_digits (_ d))]
                      | discriminate]).
Qed.

(** [FormatInt] of a number that is not negative has digits only. *)
Lemma FormatInt_digits (n : Z) :
  (0 <= n)%Z -> allBytes isDigit (FormatInt n) = true /\ FormatInt n <> "".
Proof.
  intros Hn. unfold FormatInt. destruct n as [|p|p]; [split; [reflexivity|discriminate]| |lia].
  cbn [Z.to_int DecimalString.NilZero.string_of_int].
  apply NilZero_string_of_uint_digits.
Qed.

Lemma FormatInt_bytes (n : Z) : allBytes isNumberByte (FormatInt n) = true.
Proof.
  assert (Hd : forall c, isDigit c = true -> isNumberByte c = true).
  { intros c H. unfold isNumberByte. now rewrite H. }
  destruct n as [|p|p].
  - reflexivity.
  - exact (allBytes_impl _ _ _ Hd (proj1 (FormatInt_digits (Zpos p) ltac:(lia)))).
  - unfold FormatInt. cbn [Z.to_int DecimalString.NilZero.string_of_int].
    cbn [allBytes]. 
    replace (isNumberByte "-") with true by reflexivity. cbn [andb].
    exact (allBytes_impl _ _ _ Hd (proj1 (NilZero_string_of_uint_digits _))).
Qed.

Lemma FormatInt_escaped (n : Z) : QueryEscape (FormatInt n) = FormatInt n.
Proof.
  apply QueryEscape_unreserved.
  exact (allBytes_impl _ _ _ isNumberByte_unreserved (FormatInt_bytes n)).
Qed.

Lemma digit_byte (d : Z) :
  (0 <= d <= 9)%Z -> isDigit (ascii_of_N (Z.to_N (48 + d))) = true.
Proof.
  intros H.
  assert (E : (d = 0 \/ d = 1 \/ d = 2 \/ d = 3 \/ d = 4 \/ d = 5 \/ d = 6
               \/ d = 7 \/ d = 8 \/ d = 9)%Z) by lia.
  repeat (destruct E as [->|E]; [reflexivity|]). now subst.
Qed.

Lemma hundredths_nonneg (m : positive) (e : Z) : (0 <= hundredths (Zpos m) e)%Z.
Proof.
  unfold hundredths. destruct (0 <=? e)%Z eqn:He.
  - apply Z.leb_le in He. 
    apply Z.mul_nonneg_nonneg; [|lia].
    apply Z.mul_nonneg_nonneg; [lia|]. now apply Z.pow_nonneg.
  - apply Z.leb_gt in He.
    assert (Hd : (0 < 2 ^ (- e))%Z) by (apply Z.pow_pos_nonneg; lia).
    assert (Hq : (0 <= Z.pos m * 100 / 2 ^ (- e))%Z) by (apply Z.div_pos; lia).
    destruct (2 * (Z.pos m * 100 mod 2 ^ (- e)) ?= 2 ^ (- e))%Z; [|lia|lia].
    destruct (Z.even _); lia.
Qed.

(** [%.2f] of a finite float: an optional sign, digits, a point and exactly
    two digits. *)
Lemma Sprintf_2f_finite (f : float64) : finite f = true -> twoDecimals (Sprintf_2f f).
Proof.
  unfold finite, Sprintf_2f, twoDecimals.
  destruct (Prim2SF f) as [s|s| |s m e]; try discriminate; intros _.
  - exists (if s then "-" else ""), "0", "0"%char, "0"%char.
    repeat split; try reflexivity; try discriminate. destruct s; auto.
  - pose proof (hundredths_nonneg m e) as Hn.
    set (n := hundredths (Z.pos m) e) in *.
    destruct (FormatInt_digits (n / 100)) as [Hd Hne]; [apply Z.div_pos; lia|].
    assert (Hm : (0 <= n mod 100 < 100)%Z) by (apply Z.mod_pos_bound; lia).
    exists (if s then "-" else ""), (FormatInt (n / 100)),
      (ascii_of_N (Z.to_N (48 + n mod 100 / 10))),
      (ascii_of_N (Z.to_N (48 + (n mod 100) mod 10))).
    split; [reflexivity|]. split; [destruct s; auto|]. split; [exact Hne|].
    split; [exact Hd|].
    split; apply digit_byte.
    + split; [apply Z.div_pos; lia|].
      apply Z.lt_succ_r, Z.div_lt_upper_bound; lia.
    + pose proof (Z.mod_pos_bound (n mod 100) 10). lia.
Qed.

Lemma twoDecimals_escaped (s : string) : twoDecimals s -> QueryEscape s = s.
Proof.
  intros (sign & whole & d1 & d2 & -> & Hs & _ & Hw & H1 & H2).
  apply QueryEscape_unreserved.
  rewrite !allBytes_append. cbn [allBytes].
  rewrite (isDigit_unreserved _ H1), (isDigit_unreserved _ H2).
  rewrite (allBytes_impl _ _ _ isDigit_unreserved Hw).
  destruct Hs as [-> | ->]; reflexivity.
Qed.

(** ** [Values.Encode] of the order *)

Lemma joinWith_cons (sep p q : string) (ps : list string) :
  joinWith sep (p :: q :: ps) = p ++ sep ++ joinWith sep (q :: ps).
Proof. reflexivity. Qed.

Lemma joinWith_snoc (sep p : string) (parts : list string) :
  parts <> [] ->
  joinWith sep (parts ++ [p]) = joinWith sep parts ++ sep ++ p.
Proof.
  induction parts as [|a [|b parts] IH]; intros Hne; [congruence|reflexivity|].
  change ((a :: b :: parts) ++ [p])%list with (a :: b :: (parts ++ [p]))%list.
  rewrite !joinWith_cons.
  change (b :: (parts ++ [p]))%list with ((b :: parts) ++ [p])%list.
  rewrite IH by discriminate. now rewrite !append_assoc.
Qed.

Lemma pairText_length (kx : string * string) :
  (0 <? String.length (pairText kx))%nat = true.
Proof.
  unfold pairText. rewrite length_append, append_cons. cbn [String.length].
  apply Nat.ltb_lt. lia.
Qed.

Lemma joinWith_pairs_length (kx : string * string) (kvs : list (string * string)) :
  (0 <? String.length (joinWith "&" (map pairText (kx :: kvs))))%nat = true.
Proof.
  pose proof (pairText_length kx) as H. apply Nat.ltb_lt in H. apply Nat.ltb_lt.
  destruct kvs as [|kx' kvs]; [exact H|].
  cbn [map]. rewrite joinWith_cons, length_append. lia.
Qed.

Lemma writePair_first (k x : string) :
  writePair "" k x = joinWith "&" (map pairText [(k, x)]).
Proof. reflexivity. Qed.

(** The buffer of [Encode] after one more pair. *)
Lemma writePair_join (kvs : list (string * string)) (k x : string) :
  kvs <> [] ->
  writePair (joinWith "&" (map pairText kvs)) k x
  = joinWith "&" (map pairText (kvs ++ [(k, x)])).
Proof.
  intros Hne. destruct kvs as [|kx kvs]; [congruence|].
  unfold writePair. rewrite joinWith_pairs_length.
  rewrite map_app. cbn [map]. rewrite joinWith_snoc by discriminate.
  now rewrite append_assoc.
Qed.

Lemma sortedKeys_order (symbol q ts : string) :
  sortedKeys
    (Set_ (Set_ (Set_ (Set_ (Set_ ∅ "symbol" symbol) "side" "BUY") "type" "MARKET")
             "quoteOrderQty" q) "timestamp" ts)
  = ["quoteOrderQty"; "side"; "symbol"; "timestamp"; "type"].
Proof. vm_compute. reflexivity. Qed.

Lemma sortedKeys_signed_order (symbol q ts sig : string) :
  sortedKeys
    (Set_ (Set_ (Set_ (Set_ (Set_ (Set_ ∅ "symbol" symbol) "side" "BUY") "type" "MARKET")
                   "quoteOrderQty" q) "timestamp" ts) "signature" sig)
  = ["quoteOrderQty"; "side"; "signature"; "symbol"; "timestamp"; "type"].
Proof. vm_compute. reflexivity. Qed.

Ltac lookup_keys :=
  unfold Set_;
  repeat (rewrite lookup_insert_eq || (rewrite lookup_insert_ne by discriminate));
  cbn [default from_option id fold_left].

Lemma Encode_order (symbol q ts : string) :
  Encode (Set_ (Set_ (Set_ (Set_ (Set_ ∅ "symbol" symbol) "side" "BUY") "type" "MARKET")
                  "quoteOrderQty" q) "timestamp" ts)
  = joinWith "&"
      (map pairText [("quoteOrderQty", q); ("side", "BUY"); ("symbol", symbol);
                     ("timestamp", ts); ("type", "MARKET")]).
Proof.
  unfold Encode. rewrite sortedKeys_order. cbn [fold_left]. lookup_keys.
  rewrite writePair_first.
  repeat (rewrite writePair_join by discriminate; cbn [app]).
  reflexivity.
Qed.

Lemma Encode_signed_order (symbol q ts sig : string) :
  Encode (Set_ (Set_ (Set_ (Set_ (Set_ (Set_ ∅ "symbol" symbol) "side" "BUY")
                              "type" "MARKET") "quoteOrderQty" q) "timestamp" ts)
             "signature" sig)
  = joinWith "&"
      (map pairText [("quoteOrderQty", q); ("side", "BUY"); ("signature", sig);
                     ("symbol", symbol); ("timestamp", ts); ("type", "MARKET")]).
Proof.
  unfold Encode. rewrite sortedKeys_signed_order. cbn [fold_left]. lookup_keys.
  rewrite writePair_first.
  repeat (rewrite writePair_join by discriminate; cbn [app]).
  reflexivity.
Qed.

(** ** Splitting a form body *)

Lemma splitOn_free (sep : ascii) (a : string) :
  freeOf sep a = true -> splitOn sep a = [a].
Proof.
  unfold freeOf. induction a as [|c a IH]; [reflexivity|].
  cbn [allBytes splitOn]. rewrite andb_true_iff. intros [Hc Ha].
  apply negb_true_iff in Hc. rewrite Hc, (IH Ha). reflexivity.
Qed.

Lemma splitOn_app (sep : ascii) (a b : string) :
  freeOf sep a = true -> splitOn sep (a ++ String sep b) = a :: splitOn sep b.
Proof.
  unfold freeOf. induction a as [|c a IH].
  - intros _. rewrite append_nil_l. cbn [splitOn]. now rewrite Ascii.eqb_refl.
  - cbn [allBytes]. rewrite andb_true_iff. intros [Hc Ha].
    apply negb_true_iff in Hc. rewrite append_cons. cbn [splitOn].
    rewrite Hc, (IH Ha). reflexivity.
Qed.

Lemma splitOn_join (sep : ascii) (parts : list string) :
  parts <> [] ->
  Forall (fun p => freeOf sep p = true) parts ->
  splitOn sep (joinWith (String sep "") parts) = parts.
Proof.
  induction parts as [|a [|b parts] IH]; intros Hne Hfree; [congruence| |].
  - apply splitOn_free. now inversion Hfree.
  - rewrite joinWith_cons. inversion Hfree as [|? ? Ha Hrest]; subst.
    rewrite append_cons, append_nil_l, (splitOn_app sep a _ Ha).
    now rewrite IH.
Qed.

Lemma freeOf_append (c : ascii) (a b : string) :
  freeOf c (a ++ b) = freeOf c a && freeOf c b.
Proof. apply allBytes_append. Qed.

(** A field [key=value] read back. *)
Lemma formField_pair (k v : string) :
  freeOf "=" k = true -> freeOf "=" v = true ->
  match splitOn "=" (k ++ "=" ++ v) with
  | k' :: vs => (k', joinWith "=" vs)
  | [] => (k ++ "=" ++ v, EmptyString)
  end = (k, v).
Proof.
  intros Hk Hv. rewrite append_cons, append_nil_l.
  now rewrite (splitOn_app "=" k v Hk), (splitOn_free "=" v Hv).
Qed.

(** The fields of the signed body, with the values already escaped. *)
Lemma signed_body_fields (q sig sym ts : string) :
  freeOf "&" q = true -> freeOf "&" sig = true -> freeOf "&" sym = true ->
  freeOf "&" ts = true ->
  freeOf "=" q = true -> freeOf "=" sig = true -> freeOf "=" sym = true ->
  freeOf "=" ts = true ->
  let body :=
    joinWith "&" ["quoteOrderQty=" ++ q; "side=BUY"; "signature=" ++ sig;
                  "symbol=" ++ sym; "timestamp=" ++ ts; "type=MARKET"] in
  formFields body
  = [("quoteOrderQty", q); ("side", "BUY"); ("signature", sig); ("symbol", sym);
     ("timestamp", ts); ("type", "MARKET")]
  /\ removeField "signature" body
     = joinWith "&" ["quoteOrderQty=" ++ q; "side=BUY"; "symbol=" ++ sym;
                     "timestamp=" ++ ts; "type=MARKET"].
Proof.
  intros Aq As Ay At Eq Es Ey Et body.
  assert (Hsplit : splitOn "&" body
                   = ["quoteOrderQty=" ++ q; "side=BUY"; "signature=" ++ sig;
                      "symbol=" ++ sym; "timestamp=" ++ ts; "type=MARKET"]).
  { apply (splitOn_join "&"); [discriminate|].
    repeat constructor; rewrite ?freeOf_append, ?Aq, ?As, ?Ay, ?At; reflexivity. }
  split.
  - unfold formFields. rewrite Hsplit. cbn [map].
    change ("quoteOrderQty=" ++ q) with ("quoteOrderQty" ++ "=" ++ q).
    change ("signature=" ++ sig) with ("signature" ++ "=" ++ sig).
    change ("symbol=" ++ sym) with ("symbol" ++ "=" ++ sym).
    change ("timestamp=" ++ ts) with ("timestamp" ++ "=" ++ ts).
    rewrite !formField_pair by (assumption || reflexivity).
    reflexivity.
  - unfold removeField. rewrite Hsplit.
    rewrite filter_cons_True by exact I.
    rewrite filter_cons_True by exact I.
    rewrite filter_cons_False by (intros H; destruct sig; exact H).
    rewrite !filter_cons_True by exact I.
    reflexivity.
Qed.

(** Every request [buyCrypto] sends is the order request, whose body is
    [orderBody]. *)
Lemma buyCrypto_sends_orderRequest (symbol : string) (amount : float64) (w : World)
    (t : list event) :
  exists evs,
    snd (buyCrypto symbol amount w t)
    = (t ++ Called_buyCrypto symbol amount :: evs)%list
    /\ forall req res,
         In (RoundTripped req res) evs ->
         exists ms, req = orderRequest w symbol amount ms
                    /\ Body req = orderBody (secretKey w) symbol amount ms.
Proof.
  unfold buyCrypto, bind, ask, now, clientDo, emit, ret.
  repeat run_step.
  all: run_trace; eexists; (split; [reflexivity|]).
  all: intros req res Hin; cbn [In] in Hin.
  all: repeat match goal with
              | H : _ \/ _ |- _ => destruct H as [H|H]
              | H : False |- _ => destruct H
              | H : RoundTripped _ _ = RoundTripped _ _ |- _ => injection H as <- <-
              end.
  all: eexists; split; reflexivity.
Qed.

(** An amount that is not below or equal to zero and that some free amount
    covers is above zero: it is not NaN. *)
Lemma covered_amount_positive (x free : float64) :
  (x <=? 0)%float = false -> (x <=? free)%float = true -> (0 <? x)%float = true.
Proof.
  rewrite ltb_spec, !leb_spec.
  replace (Prim2SF 0) with (S754_zero false) by (vm_compute; reflexivity).
  unfold SFltb, SFleb.
  destruct (Prim2SF x) as [s|s| |s m e]; simpl; try discriminate;
    destruct s; simpl; congruence.
Qed.

Lemma checked_amount_positive (S : AccountInfo) (a : string) (x : float64) :
  (x <=? 0)%float = false ->
  negb (hasSufficientBalance S a x) = false ->
  (0 <? x)%float = true.
Proof.
  intros Hx Hb. apply negb_false_iff in Hb.
  destruct (hasSufficientBalance_entry S a x Hb) as (b & f & _ & _ & _ & Hf).
  exact (covered_amount_positive x f Hx Hf).
Qed.

Ltac positive_goals :=
  intros ? ? Hin; cbn [In] in Hin;
  repeat match type of Hin with
         | _ \/ _ => destruct Hin as [Hin|Hin]
         | False => destruct Hin
         | _ = _ => first [ discriminate Hin | injection Hin as <- <- ]
         end;
  eauto using checked_amount_positive.


Lemma handleBuyCrypto_positive (bound : option BuyRequest) (w : World)
    (t : list event) :
  exists evs,
    snd (handleBuyCrypto bound w t) = (t ++ evs)%list
    /\ forall symbol amount,
         In (Called_buyCrypto symbol amount) evs -> (0 <? amount)%float = true.
Proof.
  unfold handleBuyCrypto, getAccountInfo, buyCrypto, c_JSON, bind, ask, now,
    clientDo, emit, ret.
  cbn [isTradingPairValid negb].
  repeat run_step.
  all: run_trace; eexists; (split; [reflexivity|]); positive_goals.
Qed.

Lemma handleWhatsAppWebhook_positive (bound : option Webhook.payload) (w : World)
    (t : list event) :
  exists evs,
    snd (handleWhatsAppWebhook bound w t) = (t ++ evs)%list
    /\ forall symbol amount,
         In (Called_buyCrypto symbol amount) evs -> (0 <? amount)%float = true.
Proof.
  unfold handleWhatsAppWebhook, replyWhatsApp, readReply, getAccountInfo, buyCrypto,
    c_JSON, bind, ask, now, clientDo, emit, ret, panic, fatal.
  cbn [isTradingPairValid negb].
  repeat run_step.
  all: run_trace; eexists; (split; [reflexivity|]); positive_goals.
Qed.

(** An amount above zero that is not finite is the positive infinity, which
    [%.2f] prints as [+Inf]. *)
Lemma Sprintf_2f_infinite (f : float64) :
  finite f = false -> (0 <? f)%float = true -> Sprintf_2f f = "+Inf".
Proof.
  unfold finite, Sprintf_2f. rewrite ltb_spec.
  replace (Prim2SF 0) with (S754_zero false) by (vm_compute; reflexivity).
  unfold SFltb.
  destruct (Prim2SF f) as [s|s| |s m e]; simpl; try discriminate.
  destruct s; [discriminate|reflexivity].
Qed.

(** A number with two decimals starts with a digit or with the sign. *)
Lemma twoDecimals_head (c : ascii) (s : string) :
  twoDecimals (String c s) -> isDigit c = true \/ c = "-"%char.
Proof.
  intros (sign & whole & d1 & d2 & E & Hs & Hne & Hw & _).
  destruct Hs as [-> | ->].
  - rewrite append_nil_l in E. destruct whole as [|x whole]; [congruence|].
    rewrite append_cons in E. injection E as -> _.
    cbn [allBytes] in Hw. apply andb_true_iff in Hw. left. exact (proj1 Hw).
  - rewrite append_cons in E. injection E as -> _. now right.
Qed.

(** C4, as stated, fails. The exchange reports an infinite free amount in
    BRL and the chat command is ["comprar inf em btc"]: the amount parses,
    is not [<= 0] and is covered, so the order is submitted; the request
    that goes to the order endpoint carries [quoteOrderQty=%2BInf], which is
    not a number with two decimals. *)
Lemma infinite_amount_is_sent_as_Inf :
  ~ (forall req res,
       In (RoundTripped req res)
          (snd (handleWhatsAppWebhook
                  (Some (delivery "5511988887777" "comprar inf em btc"))
                  infiniteBalance [])) ->
       URL req = baseURL ++ orderAPI ->
       exists q, In ("quoteOrderQty", q) (formFields (Body req)) /\ twoDecimals q).
Proof.
  intros H.
  destruct (H (orderRequest infiniteBalance "BTCBRL" infinity 1700000000000)
              (Answered Sample.ok200))
    as (q & Hq & Htwo).
  - vm_compute. right. right. right. left. reflexivity.
  - reflexivity.
  - vm_compute in Hq.
    destruct Hq as [Hq|Hq]; [injection Hq as <-|].
    + destruct (twoDecimals_head _ _ Htwo) as [Hd|Hd]; discriminate Hd.
    + repeat match type of Hq with
             | _ \/ _ => destruct Hq as [Hq|Hq]; [discriminate Hq|]
             | False => destruct Hq
             end.
Qed.

(** C4 (amended): for every secret, base asset, amount and clock reading,
    with the symbol the base asset followed by BRL. The string [buyCrypto]
    signs is the form with [quoteOrderQty] (the amount printed by [%.2f],
    escaped), [side=BUY], [symbol], [timestamp] and [type=MARKET], in the
    sorted order of the keys; the body it sends is the same form with the
    field [signature], the digest of the signed string, in its sorted place;
    read back, the body has exactly these six fields; and the body without
    the field [signature] is the signed string. For a finite amount [%.2f]
    prints an optional sign, digits, a point and exactly two digits, which
    escaping leaves as they are. An amount above zero that is not finite is
    printed [+Inf] and sent as [%2BInf], which is not a number with two
    decimals. Every request [buyCrypto] sends carries this body, and every
    order of [handleBuyCrypto] and of [handleWhatsAppWebhook] is for a
    symbol that ends in BRL and for an amount above zero: finite, or the
    positive infinity. *)
Theorem order_body_is_signed_as_sent (secret baseAsset : string) (amount : float64)
    (ms : Z) :
  let symbol := baseAsset ++ BRL in
  let signed := orderSigned symbol amount ms in
  let body := orderBody secret symbol amount ms in
  let signature := createSignature secret signed in
  signed
  = joinWith "&" ["quoteOrderQty=" ++ QueryEscape (Sprintf_2f amount); "side=BUY";
                  "symbol=" ++ QueryEscape symbol; "timestamp=" ++ FormatInt ms;
                  "type=MARKET"]
  /\ body
     = joinWith "&" ["quoteOrderQty=" ++ QueryEscape (Sprintf_2f amount); "side=BUY";
                     "signature=" ++ signature; "symbol=" ++ QueryEscape symbol;
                     "timestamp=" ++ FormatInt ms; "type=MARKET"]
  /\ formFields body
     = [("quoteOrderQty", QueryEscape (Sprintf_2f amount)); ("side", "BUY");
        ("signature", signature); ("symbol", QueryEscape symbol);
        ("timestamp", FormatInt ms); ("type", "MARKET")]
  /\ removeField "signature" body = signed
  /\ (finite amount = true ->
      twoDecimals (Sprintf_2f amount)
      /\ QueryEscape (Sprintf_2f amount) = Sprintf_2f amount)
  /\ (forall w t, exists evs,
         snd (buyCrypto symbol amount w t)
         = (t ++ Called_buyCrypto symbol amount :: evs)%list
         /\ forall req res,
              In (RoundTripped req res) evs ->
              exists ms', req = orderRequest w symbol amount ms'
                          /\ Body req = orderBody (secretKey w) symbol amount ms')
  /\ (forall w t bound, exists evs,
         snd (handleBuyCrypto bound w t) = (t ++ evs)%list
         /\ forall pre s a post,
              evs = (pre ++ Called_buyCrypto s a :: post)%list ->
              pairWithBRL s /\ (0 <? a)%float = true)
  /\ (forall w t bound, exists evs,
         snd (handleWhatsAppWebhook bound w t) = (t ++ evs)%list
         /\ forall pre s a post,
              evs = (pre ++ Called_buyCrypto s a :: post)%list ->
              pairWithBRL s /\ (0 <? a)%float = true)
  /\ (finite amount = false -> (0 <? amount)%float = true ->
      Sprintf_2f amount = "+Inf"
      /\ QueryEscape (Sprintf_2f amount) = "%2BInf"
      /\ ~ twoDecimals (Sprintf_2f amount)).
Proof.
  intros symbol signed body signature.
  assert (Esigned :
            signed
            = joinWith "&" ["quoteOrderQty=" ++ QueryEscape (Sprintf_2f amount);
                            "side=BUY"; "symbol=" ++ QueryEscape symbol;
                            "timestamp=" ++ FormatInt ms; "type=MARKET"]).
  { unfold signed, orderSigned, orderValues. rewrite Encode_order.
    cbn [map]. unfold pairText. cbn [fst snd]. rewrite FormatInt_escaped.
    reflexivity. }
  assert (Ebody :
            body
            = joinWith "&" ["quoteOrderQty=" ++ QueryEscape (Sprintf_2f amount);
                            "side=BUY"; "signature=" ++ signature;
                            "symbol=" ++ QueryEscape symbol;
                            "timestamp=" ++ FormatInt ms; "type=MARKET"]).
  { unfold body, orderBody, orderValues. rewrite Encode_signed_order.
    cbn [map]. unfold pairText. cbn [fst snd].
    rewrite FormatInt_escaped, createSignature_escaped.
    reflexivity. }
  assert (Hfields :
            formFields body
            = [("quoteOrderQty", QueryEscape (Sprintf_2f amount)); ("side", "BUY");
               ("signature", signature); ("symbol", QueryEscape symbol);
               ("timestamp", FormatInt ms); ("type", "MARKET")]
            /\ removeField "signature" body = signed).
  { rewrite Ebody, Esigned.
    apply signed_body_fields;
      try apply QueryEscape_freeOf_amp; try apply QueryEscape_freeOf_eq.
    - unfold signature. rewrite <- createSignature_escaped. apply QueryEscape_freeOf_amp.
    - rewrite <- FormatInt_escaped. apply QueryEscape_freeOf_amp.
    - unfold signature. rewrite <- createSignature_escaped. apply QueryEscape_freeOf_eq.
    - rewrite <- FormatInt_escaped. apply QueryEscape_freeOf_eq. }
  split; [exact Esigned|]. split; [exact Ebody|].
  split; [exact (proj1 Hfields)|]. split; [exact (proj2 Hfields)|].
  split.
  { intros Hfin. pose proof (Sprintf_2f_finite amount Hfin) as H.
    split; [exact H|now apply twoDecimals_escaped]. }
  split; [intros w t; apply buyCrypto_sends_orderRequest|].
  split; [|split].
  - intros w t bound. destruct (handleBuyCrypto_orders bound w t) as (evs & E & H).
    destruct (handleBuyCrypto_positive bound w t) as (evs' & E' & Hpos).
    rewrite E in E'. apply app_inv_head in E'. subst evs'.
    exists evs. split; [exact E|]. intros pre s a post Eevs. split.
    + exact (proj2 (eachOrder_at _ evs [] pre post s a H Eevs)).
    + apply (Hpos s a). rewrite Eevs. apply in_elt.
  - intros w t bound. destruct (handleWhatsAppWebhook_orders bound w t) as (evs & E & H).
    destruct (handleWhatsAppWebhook_positive bound w t) as (evs' & E' & Hpos).
    rewrite E in E'. apply app_inv_head in E'. subst evs'.
    exists evs. split; [exact E|]. intros pre s a post Eevs. split.
    + exact (proj2 (eachOrder_at _ evs [] pre post s a H Eevs)).
    + apply (Hpos s a). rewrite Eevs. apply in_elt.
  - intros Hinf Hpos. rewrite (Sprintf_2f_infinite amount Hinf Hpos).
    split; [reflexivity|]. split; [reflexivity|].
    intros Htwo. destruct (twoDecimals_head _ _ Htwo) as [Hd|Hd]; discriminate Hd.
Qed.

(** The amended C4 at the order of 100 BRL of BTC, whose amount is finite:
    the body is the one the exchange documents, and the signature can be
    cut out of it; and at the infinite amount, sent as [%2BInf]. *)
Lemma order_body_is_signed_as_sent_witness :
  finite 100%float = true
  /\ Sprintf_2f 100%float = "100.00"
  /\ orderSigned "BTCBRL" 100%float 1700000000000
     = "quoteOrderQty=100.00&side=BUY&symbol=BTCBRL&timestamp=1700000000000&type=MARKET"
  /\ removeField "signature" (orderBody "secret" "BTCBRL" 100%float 1700000000000)
     = orderSigned "BTCBRL" 100%float 1700000000000
  /\ finite infinity = false /\ (0 <? infinity)%float = true
  /\ QueryEscape (Sprintf_2f infinity) = "%2BInf"
  /\ ~ twoDecimals (Sprintf_2f infinity).
Proof.
  destruct (order_body_is_signed_as_sent "secret" "BTC" 100%float 1700000000000)
    as (_ & _ & _ & Hcut & Hfin & _).
  destruct (order_body_is_signed_as_sent "secret" "BTC" infinity 1700000000000)
    as (_ & _ & _ & _ & _ & _ & _ & _ & Hinf).
  assert (F : finite 100%float = true) by (vm_compute; reflexivity).
  assert (I1 : finite infinity = false) by (vm_compute; reflexivity).
  assert (I2 : (0 <? infinity)%float = true) by (vm_compute; reflexivity).
  destruct (Hfin F) as [_ _].
  destruct (Hinf I1 I2) as (_ & Hesc & Hnot).
  split; [exact F|].
  split; [vm_compute; reflexivity|].
  split; [vm_compute; reflexivity|].
  split; [exact Hcut|].
  split; [exact I1|]. split; [exact I2|]. split; [exact Hesc|exact Hnot].
Defined.

(* ===================================================================== *)
(** * No operation is repeated *)
(* ===================================================================== *)

Ltac count_events :=
  cbn [countIf isFetchCall isOrderCall isReplyCall isRoundTrip isAnswer];
  repeat split; lia.

(** X1: in one request, whatever the exchange and the messaging provider
    answer, [handleGetBalance] fetches the account once and does nothing
    else; [handleBuyCrypto] fetches the account at most once and submits at
    most one order, in at most two round trips; [handleWhatsAppWebhook]
    fetches at most once, submits at most one order and sends at most one
    reply, in at most three round trips. Nothing is tried a second time. *)
Theorem no_call_is_repeated (w : World) (t : list event) :
  (exists evs,
      snd (handleGetBalance w t) = (t ++ evs)%list
      /\ countIf isFetchCall evs = 1%nat
      /\ countIf isOrderCall evs = 0%nat
      /\ countIf isReplyCall evs = 0%nat
      /\ (countIf isRoundTrip evs <= 1)%nat)
  /\ (forall bound, exists evs,
         snd (handleBuyCrypto bound w t) = (t ++ evs)%list
         /\ (countIf isFetchCall evs <= 1)%nat
         /\ (countIf isOrderCall evs <= 1)%nat
         /\ countIf isReplyCall evs = 0%nat
         /\ (countIf isRoundTrip evs <= 2)%nat)
  /\ (forall bound, exists evs,
         snd (handleWhatsAppWebhook bound w t) = (t ++ evs)%list
         /\ (countIf isFetchCall evs <= 1)%nat
         /\ (countIf isOrderCall evs <= 1)%nat
         /\ (countIf isReplyCall evs <= 1)%nat
         /\ (countIf isRoundTrip evs <= 3)%nat).
Proof.
  split; [|split].
  - unfold handleGetBalance, getAccountInfo, c_JSON, bind, ask, now, clientDo, emit, ret.
    repeat run_step.
    all: run_trace; eexists; (split; [reflexivity|]); count_events.
  - intros bound.
    unfold handleBuyCrypto, getAccountInfo, buyCrypto, c_JSON, bind, ask, now,
      clientDo, emit, ret.
    cbn [isTradingPairValid negb].
    repeat run_step.
    all: run_trace; eexists; (split; [reflexivity|]); count_events.
  - intros bound.
    unfold handleWhatsAppWebhook, replyWhatsApp, readReply, getAccountInfo, buyCrypto,
      c_JSON, bind, ask, now, clientDo, emit, ret, panic, fatal.
    cbn [isTradingPairValid negb].
    repeat run_step.
    all: run_trace; eexists; (split; [reflexivity|]); count_events.
Qed.

(* ===================================================================== *)
(** * The answers of the purchase endpoint *)
(* ===================================================================== *)

(** X2: [handleBuyCrypto] always returns, and writes exactly one answer,
    last: 200 with the order of the exchange, after one order call; 400
    with an error text, and then no order was submitted; or 500 with an
    error text. When the body does not bind or the amount is not above
    zero, the answer is a 400 and nothing else happens: the exchange is not
    contacted. *)
Theorem handleBuyCrypto_answers_once (bound : option BuyRequest) (w : World)
    (t : list event) :
  exists pre code obj,
    handleBuyCrypto bound w t = (Returned tt, (t ++ pre ++ [WroteJSON code obj])%list)
    /\ countIf isAnswer pre = 0%nat
    /\ ((code = StatusOK
         /\ countIf isOrderCall pre = 1%nat
         /\ exists order, obj = {[ "order_details" := VOrder order ]})
        \/ (code = StatusBadRequest
            /\ countIf isOrderCall pre = 0%nat
            /\ exists text, obj = {[ "error" := VString text ]})
        \/ (code = StatusInternalServerError
            /\ exists text, obj = {[ "error" := VString text ]}))
    /\ (match bound with
        | Some req => (Amount req <=? 0)%float = true
        | None => True
        end -> code = StatusBadRequest /\ pre = []).
Proof.
  unfold handleBuyCrypto, getAccountInfo, buyCrypto, c_JSON, bind, ask, now,
    clientDo, emit, ret.
  cbn [isTradingPairValid negb].
  repeat run_step.
  all: rewrite <- ?app_assoc; cbn [app].
  all: match goal with
       | |- exists _ _ _, (_, (?t ++ ?l)%list) = _ /\ _ =>
           exists (removelast l);
           match eval cbn [List.last] in (List.last l Called_getAccountInfo) with
           | WroteJSON ?c ?o => exists c, o
           end
       end.
  all: cbn [removelast app].
  all: split; [reflexivity|]; split; [reflexivity|].
  all: cbn [countIf isOrderCall].
  all: split;
    [ first [ left; split; [reflexivity|]; split; [reflexivity|]; eexists; reflexivity
            | right; left; split; [reflexivity|]; split; [reflexivity|];
              eexists; reflexivity
            | right; right; split; [reflexivity|]; eexists; reflexivity ]
    | first [ intros _; split; reflexivity | intros H; try exact (False_ind _ H); congruence ] ].
Qed.

(* ===================================================================== *)
(** * The amounts of the orders *)
(* ===================================================================== *)

(** X3: the amount of every order that [handleBuyCrypto] and
    [handleWhatsAppWebhook] submit is strictly above zero; in particular it
    is never NaN, although the text [nan] parses as a number in a chat
    command. *)
Theorem orders_have_positive_amounts (w : World) (t : list event) :
  (forall bound, exists evs,
      snd (handleBuyCrypto bound w t) = (t ++ evs)%list
      /\ forall symbol amount,
           In (Called_buyCrypto symbol amount) evs -> (0 <? amount)%float = true)
  /\ (forall bound, exists evs,
         snd (handleWhatsAppWebhook bound w t) = (t ++ evs)%list
         /\ forall symbol amount,
              In (Called_buyCrypto symbol amount) evs -> (0 <? amount)%float = true).
Proof.
  split; intros bound.
  - apply handleBuyCrypto_positive.
  - apply handleWhatsAppWebhook_positive.
Qed.

(* ===================================================================== *)
(** * The three readings of a snapshot *)
(* ===================================================================== *)

Lemma brlBalance_loop_first (pre post : list Balance) (b : Balance) (f : float64) :
  Forall (fun b' => Asset b' <> BRL) pre ->
  Asset b = BRL -> ParseFloat (Free b) = Some f ->
  brlBalance_loop (pre ++ b :: post) = f.
Proof.
  intros Hpre Hb Hf. induction Hpre as [|p pre Hp _ IH]; cbn [app brlBalance_loop].
  - rewrite Hb, String.eqb_refl, Hf. reflexivity.
  - destruct (String.eqb_spec (Asset p) BRL) as [E|_]; [contradiction|exact IH].
Qed.

(** X4: the balance check, the balance the chat reports and the list of
    [GET /binace/saldo] agree on a snapshot that the check accepts: when
    [hasSufficientBalance] accepts an amount above zero in BRL, the balance
    of the chat path covers the amount, and [getFiatBalances] lists an entry
    in BRL that covers it. *)
Theorem accepted_amount_is_covered (S : AccountInfo) (x : float64) :
  hasSufficientBalance S BRL x = true ->
  (0 <? x)%float = true ->
  (x <=? brlBalance_loop (Balances S))%float = true
  /\ (0 <? brlBalance_loop (Balances S))%float = true
  /\ exists r, In r (getFiatBalances S) /\ asset r = BRL
               /\ amount r = brlBalance_loop (Balances S).
Proof.
  unfold hasSufficientBalance. rewrite hasSufficientBalance_loop_true.
  intros (pre & b & post & f & E & Hpre & Hb & Hf & Hx) Hpos.
  rewrite E, (brlBalance_loop_first pre post b f Hpre Hb Hf).
  assert (Hf0 : (0 <? f)%float = true).
  { revert Hpos Hx. rewrite !ltb_spec, leb_spec.
    replace (Prim2SF 0) with (S754_zero false) by (vm_compute; reflexivity).
    unfold SFltb, SFleb.
    destruct (Prim2SF x) as [s|s| |s m e], (Prim2SF f) as [s'|s'| |s' m' e'];
      simpl; try discriminate; try destruct s; try destruct s'; simpl;
      try discriminate; try reflexivity. }
  split; [exact Hx|]. split; [exact Hf0|].
  exists {| asset := Asset b; amount := f |}.
  split; [|split; [exact Hb|reflexivity]].
  rewrite getFiatBalances_omap, <- list_elem_of_In, list_elem_of_omap.
  exists b. split.
  - apply list_elem_of_In. rewrite E. apply in_or_app. right. now left.
  - unfold fiatEntry. rewrite Hb.
    replace (isFiat BRL) with true by (symmetry; apply isFiat_spec; now left).
    now rewrite Hf, Hf0.
Qed.

Lemma accepted_amount_is_covered_witness :
  (100 <=? brlBalance_loop (Balances Sample.wallet))%float = true
  /\ (0 <? brlBalance_loop (Balances Sample.wallet))%float = true
  /\ exists r, In r (getFiatBalances Sample.wallet) /\ asset r = BRL
               /\ amount r = brlBalance_loop (Balances Sample.wallet).
Proof.
  apply (accepted_amount_is_covered Sample.wallet 100%float); vm_compute; reflexivity.
Defined.

(* ===================================================================== *)
(** * The list of fiat balances *)
(* ===================================================================== *)

(** X5: [getFiatBalances] lists every fiat entry whose free amount parses
    and is above zero, at its place: the result for a snapshot is the result
    for the entries before it, then the entry, then the result for the
    entries after it. Entries are neither merged nor reordered, and an asset
    listed twice by the exchange is listed twice. *)
Theorem getFiatBalances_lists_in_order (S : AccountInfo) (pre post : list Balance)
    (b : Balance) (f : float64) :
  Balances S = (pre ++ b :: post)%list ->
  isFiat (Asset b) = true ->
  ParseFloat (Free b) = Some f ->
  (0 <? f)%float = true ->
  getFiatBalances S
  = (getFiatBalances {| Balances := pre |}
     ++ {| asset := Asset b; amount := f |}
     :: getFiatBalances {| Balances := post |})%list.
Proof.
  intros E Hfiat Hf Hpos.
  rewrite !getFiatBalances_omap, E. cbn [Balances].
  rewrite omap_app. cbn [omap list_omap]. unfold fiatEntry at 2.
  now rewrite Hfiat, Hf, Hpos.
Qed.

Lemma getFiatBalances_lists_in_order_witness :
  getFiatBalances Sample.wallet
  = (getFiatBalances {| Balances := [ {| Asset := "BTC"; Free := "0.5" |} ] |}
     ++ {| asset := "BRL"; amount := 250%float |}
     :: getFiatBalances {| Balances := [ {| Asset := "USD"; Free := "0.00" |} ] |})%list.
Proof.
  apply (getFiatBalances_lists_in_order Sample.wallet
           [ {| Asset := "BTC"; Free := "0.5" |} ]
           [ {| Asset := "USD"; Free := "0.00" |} ]
           {| Asset := "BRL"; Free := "250.00" |} 250%float);
    vm_compute; reflexivity.
Defined.

(* ===================================================================== *)
(** * The exchange client *)
(* ===================================================================== *)

Lemma joinWith_splitOn (sep : ascii) (s : string) :
  joinWith (String sep "") (splitOn sep s) = s.
Proof.
  induction s as [|c s IH]; [reflexivity|].
  cbn [splitOn]. destruct (Ascii.eqb_spec c sep) as [->|_].
  - destruct (splitOn sep s) as [|p ps] eqn:E.
    + destruct s; cbn [splitOn] in E; [discriminate|].
      destruct (Ascii.eqb a sep); [discriminate|].
      destruct (splitOn sep s); discriminate.
    + rewrite joinWith_cons, append_nil_l, append_cons, append_nil_l, IH.
      reflexivity.
  - destruct (splitOn sep s) as [|p [|q ps]] eqn:E.
    + destruct s; cbn [splitOn] in E; [discriminate|].
      destruct (Ascii.eqb a sep); [discriminate|].
      destruct (splitOn sep s); discriminate.
    + cbn [joinWith] in *. now rewrite IH.
    + rewrite joinWith_cons in *. rewrite append_cons. now rewrite IH.
Qed.

Lemma queryOf_path (path query : string) :
  freeOf "?" path = true -> queryOf (path ++ "?" ++ query) = query.
Proof.
  intros H. unfold queryOf. rewrite append_cons, append_nil_l.
  rewrite (splitOn_app "?" path query H). apply joinWith_splitOn.
Qed.

Lemma FormatInt_freeOf (c : ascii) (n : Z) :
  isNumberByte c = false -> freeOf c (FormatInt n) = true.
Proof.
  intros Hc. unfold freeOf.
  apply (allBytes_impl isNumberByte); [|apply FormatInt_bytes].
  intros x Hx. apply negb_true_iff. destruct (Ascii.eqb_spec x c) as [->|]; congruence.
Qed.

Lemma createSignature_freeOf (c : ascii) (secret data : string) :
  isLowerHex c = false -> freeOf c (createSignature secret data) = true.
Proof.
  intros Hc. unfold freeOf, createSignature.
  apply (allBytes_impl isLowerHex); [|apply EncodeToString_lower].
  intros x Hx. apply negb_true_iff. destruct (Ascii.eqb_spec x c) as [->|]; congruence.
Qed.

(** X6: the account request is signed as it is sent. [getAccountInfo] sends
    at most one request: a GET without body to the account endpoint, with
    the API key in the header [X-MBX-APIKEY], at the time [ms] read once
    after the call. Read back, its query has exactly the fields [timestamp],
    the decimal of [ms], and [signature], in this order; the signature is
    the digest, under the secret key, of the query without the field
    [signature]. *)
Theorem account_request_is_signed_as_sent (w : World) (t : list event) :
  let seen := (t ++ [Called_getAccountInfo])%list in
  let ms := UnixMilli w seen in
  let req := accountRequest w ms in
  let query := queryOf (URL req) in
  (exists evs, snd (getAccountInfo w t) = (seen ++ evs)%list
               /\ (evs = [] \/ exists res, evs = [RoundTripped req res]))
  /\ Method req = "GET" /\ Body req = ""
  /\ Header req !! "X-MBX-APIKEY" = Some (apiKey w)
  /\ HasPrefix (URL req) (baseURL ++ accountAPI ++ "?") = true
  /\ formFields query
     = [("timestamp", FormatInt ms);
        ("signature", createSignature (secretKey w) ("timestamp=" ++ FormatInt ms))]
  /\ createSignature (secretKey w) (removeField "signature" query)
     = default "" (snd <$> last (formFields query)).
Proof.
  intros seen ms req query.
  assert (Equery : query = "timestamp=" ++ FormatInt ms ++ "&signature="
                           ++ createSignature (secretKey w) ("timestamp=" ++ FormatInt ms)).
  { unfold query, req, accountRequest. cbn [URL].
    change (baseURL ++ accountAPI ++ "?" ++ ?q) with ((baseURL ++ accountAPI) ++ "?" ++ q).
    now rewrite queryOf_path by (vm_compute; reflexivity). }
  assert (Hsplit : splitOn "&" query
                   = ["timestamp=" ++ FormatInt ms;
                      "signature=" ++ createSignature (secretKey w)
                                        ("timestamp=" ++ FormatInt ms)]).
  { rewrite Equery.
    change ("timestamp=" ++ FormatInt ms ++ "&signature=" ++ ?s)
      with ("timestamp=" ++ FormatInt ms ++ String "&" ("signature=" ++ s)).
    rewrite <- append_assoc.
    rewrite splitOn_app
      by (rewrite freeOf_append, FormatInt_freeOf by reflexivity; reflexivity).
    rewrite splitOn_free
      by (rewrite freeOf_append, createSignature_freeOf by reflexivity; reflexivity).
    reflexivity. }
  assert (Hfields : formFields query
                    = [("timestamp", FormatInt ms);
                       ("signature",
                        createSignature (secretKey w) ("timestamp=" ++ FormatInt ms))]).
  { unfold formFields. rewrite Hsplit. cbn [map].
    change ("timestamp=" ++ FormatInt ms) with ("timestamp" ++ "=" ++ FormatInt ms).
    change ("signature=" ++ ?s) with ("signature" ++ "=" ++ s).
    rewrite (formField_pair "timestamp" (FormatInt ms))
      by (try reflexivity; apply FormatInt_freeOf; reflexivity).
    rewrite (formField_pair "signature")
      by (try reflexivity; apply createSignature_freeOf; reflexivity).
    reflexivity. }
  split; [|split; [reflexivity|split; [reflexivity|split; [|split; [|split]]]]].
  - unfold getAccountInfo, bind, ask, now, clientDo, emit, ret.
    repeat run_step.
    all: cbn [snd];
      first [ exists []; split; [now rewrite app_nil_r | left; reflexivity]
            | eexists [_]; split; [reflexivity | right; eexists; reflexivity] ].
  - unfold req, accountRequest. cbn [Header]. apply lookup_singleton_eq.
  - reflexivity.
  - exact Hfields.
  - rewrite Hfields. cbn [last fmap option_fmap option_map snd default from_option id].
    unfold removeField. rewrite Hsplit.
    rewrite filter_cons_True by (vm_compute; exact I).
    rewrite filter_cons_False by (vm_compute; intros H; exact H).
    reflexivity.
Qed.

Ltac status_facts :=
  repeat match goal with
         | H : negb (_ =? _)%Z = false |- _ =>
             apply negb_false_iff in H; apply Z.eqb_eq in H
         | H : negb (_ =? _)%Z = true |- _ =>
             apply negb_true_iff in H; apply Z.eqb_neq in H
         end.

Ltac some_result :=
  status_facts;
  split;
  [ intros H;
    first [ discriminate H
          | try subst;
            split; [reflexivity|];
            eexists; split; [reflexivity|];
            repeat split; assumption ]
  | intros (Hn & resp' & Hd & Hr & Hs & Hu);
    first [ discriminate Hn | discriminate Hd | injection Hd as <-; congruence ] ].

(** X7: what the exchange client takes for a success. [getAccountInfo]
    returns a snapshot exactly when the request could be built, the round
    trip gave a response without error, the body was read, the status is
    200 and the body decodes to this snapshot; [buyCrypto] returns an order
    under the same conditions. Any other status is a failure even with a
    body that decodes, as is a response that comes with an error. Both
    always return: they have no panic and no exit. *)
Theorem exchange_success_is_200_decoded (w : World) (t : list event) :
  (let seen := (t ++ [Called_getAccountInfo])%list in
   let req := accountRequest w (UnixMilli w seen) in
   exists r evs,
     getAccountInfo w t = (Returned r, evs)
     /\ forall S,
          r = Some S <->
          NewRequestError w (URL req) = None
          /\ exists resp,
               Do w seen req = Answered resp
               /\ ReadError resp = None
               /\ StatusCode resp = StatusOK
               /\ Unmarshal_AccountInfo w (Payload resp) = Some S)
  /\ (forall symbol amount,
        let seen := (t ++ [Called_buyCrypto symbol amount])%list in
        let req := orderRequest w symbol amount (UnixMilli w seen) in
        exists r evs,
          buyCrypto symbol amount w t = (Returned r, evs)
          /\ forall order,
               r = Some order <->
               NewRequestError w (URL req) = None
               /\ exists resp,
                    Do w seen req = Answered resp
                    /\ ReadError resp = None
                    /\ StatusCode resp = StatusOK
                    /\ Unmarshal_Order w (Payload resp) = Some (Some order)).
Proof.
  split; [|intros symbol amount].
  - unfold getAccountInfo, bind, ask, now, clientDo, emit, ret.
    repeat run_step.
    all: eexists _, _; (split; [reflexivity|]); intros S0.
    all: some_result.
  - unfold buyCrypto, bind, ask, now, clientDo, emit, ret.
    repeat run_step.
    all: eexists _, _; (split; [reflexivity|]); intros S0.
    all: some_result.
Qed.

(* ===================================================================== *)
(** * The answers of the balance endpoint *)
(* ===================================================================== *)


(* ===================================================================== *)
(** * How the handler of the chat ends *)
(* ===================================================================== *)

(** X21: the handler of the chat ends early in two ways only, both in the
    reply. When it panics, the last events are a round trip of
    [replyWhatsApp] that failed without a response and the line of log
    about it; when it ends the process, the request of the reply could not
    be built. In both cases no answer has been written, and what was done
    at the exchange before the reply stays done. *)
Theorem chat_handler_ends_early_in_the_reply (bound : option Webhook.payload)
    (w : World) (t : list event) :
  exists o evs,
    handleWhatsAppWebhook bound w t = (o, (t ++ evs)%list)
    /\ match o with
       | Returned _ => True
       | Panicked text =>
           text = "invalid memory address or nil pointer dereference"
           /\ answers evs = []
           /\ exists pre to message e,
                evs = (pre ++ [RoundTripped (replyRequest w to message) (Failed e);
                               Logged ("Can't send WhatsApp message: " ++ e)])%list
       | Exited text =>
           answers evs = []
           /\ exists pre to message e,
                NewRequestError w (URL (replyRequest w to message)) = Some e
                /\ text = "Can't create new request: " ++ e
                /\ evs = (pre ++ [Called_replyWhatsApp to message; Logged text])%list
       end.
Proof.
  unfold handleWhatsAppWebhook, replyWhatsApp, readReply, getAccountInfo, buyCrypto,
    c_JSON, bind, ask, now, clientDo, emit, ret, panic, fatal.
  cbn [isTradingPairValid negb].
  repeat run_step.
  all: run_trace; eexists _, _; (split; [reflexivity|]).
  all: lazy beta iota; try exact I.
  all: repeat match goal with |- _ = _ /\ _ => split; [reflexivity|] end.
  all: match goal with
       | |- exists _ _ _ _, ?l = _ => exists (removelast (removelast l))
       | |- exists _ _ _ _, _ /\ _ /\ ?l = _ => exists (removelast (removelast l))
       end.
  all: cbn [removelast app].
  all: eexists _, _, _.
  all: first [ reflexivity | split; [eassumption|]; split; reflexivity ].
Qed.

(* ===================================================================== *)
(** * The chat endpoint *)
(* ===================================================================== *)

(** X8: only the first message of a delivery is served. A payload whose
    first entry has a first change with a first message is handled exactly
    as the delivery of that one message: the other messages, changes and
    entries are dropped without a reply. *)
Theorem later_messages_are_dropped (req : Webhook.payload) (msg : Webhook.message)
    (w : World) (t : list event) :
  firstMessage req = Some msg ->
  handleWhatsAppWebhook (Some req) w t
  = handleWhatsAppWebhook
      (Some (delivery (Webhook.From msg) (Webhook.Body (Webhook.Text msg)))) w t.
Proof.
  intros H.
  rewrite (handleWhatsAppWebhook_refines req msg w t H).
  now rewrite (handleWhatsAppWebhook_refines _ _ w t (firstMessage_delivery _ _)).
Qed.

Lemma later_messages_are_dropped_witness :
  handleWhatsAppWebhook
    (Some (batch (textMessage "5511" "saldo em reais")
                 (textMessage "5522" "comprar 100 em btc")
                 (textMessage "5533" "comprar 50 em eth")
                 (textMessage "5544" "saldo em reais")))
    Sample.up []
  = handleWhatsAppWebhook (Some (delivery "5511" "saldo em reais")) Sample.up [].
Proof.
  apply (later_messages_are_dropped _ (textMessage "5511" "saldo em reais")).
  reflexivity.
Defined.

(** X9: [replyWhatsApp] takes any response for a delivery. It returns
    normally exactly when the request could be built and the round trip
    gave a response, with or without an error beside it; the status code of
    the provider is not looked at, so a refusal of the provider is not told
    from a success. *)
Theorem replyWhatsApp_returns_on_any_response (w : World) (t : list event)
    (to message : string) :
  let seen := (t ++ [Called_replyWhatsApp to message])%list in
  let req := replyRequest w to message in
  (exists t', replyWhatsApp to message w t = (Returned tt, t'))
  <-> NewRequestError w (URL req) = None
      /\ forall e, Do w seen req <> Failed e.
Proof.
  unfold replyWhatsApp, readReply, bind, ask, clientDo, emit, panic, fatal, ret.
  repeat run_step.
  all: split;
    [ intros [t' H]; first [ discriminate H | split; [reflexivity|discriminate] ]
    | intros [Hn Hd];
      first [ discriminate Hn | exfalso; exact (Hd _ eq_refl)
            | eexists; reflexivity ] ].
Qed.

(** X10: a delivery with a message gets one reply, to its sender, and the
    reply is the last operation of the request: one call of
    [replyWhatsApp], addressed to the [from] of the first message, after
    the calls of the exchange client. *)
Theorem webhook_replies_once_to_the_sender (req : Webhook.payload)
    (msg : Webhook.message) (w : World) (t : list event) :
  firstMessage req = Some msg ->
  exists evs text,
    snd (handleWhatsAppWebhook (Some req) w t) = (t ++ evs)%list
    /\ countIf isReplyCall evs = 1%nat
    /\ List.last (calls evs) Called_getAccountInfo
       = Called_replyWhatsApp (Webhook.From msg) text.
Proof.
  unfold firstMessage, handleWhatsAppWebhook.
  destruct (Webhook.Entry req) as [|e0 es]; [discriminate|].
  cbn [head mbind option_bind].
  destruct (Webhook.Changes e0) as [|c0 cs]; [discriminate|].
  cbn [head mbind option_bind].
  destruct (Webhook.Messages (Webhook.Value c0)) as [|m ms]; [discriminate|].
  cbn [head]. intros [= <-].
  unfold replyWhatsApp, readReply, getAccountInfo, buyCrypto,
    c_JSON, bind, ask, now, clientDo, emit, ret, panic, fatal.
  cbn [isTradingPairValid negb].
  repeat run_step.
  all: run_trace; eexists _, _; (split; [reflexivity|]).
  all: split; reflexivity.
Qed.

Lemma webhook_replies_once_to_the_sender_witness :
  exists evs text,
    snd (handleWhatsAppWebhook
           (Some (batch (textMessage "5511" "saldo em reais")
                        (textMessage "5522" "comprar 100 em btc")
                        (textMessage "5533" "comprar 50 em eth")
                        (textMessage "5544" "saldo em reais")))
           Sample.up [])
    = ([] ++ evs)%list
    /\ countIf isReplyCall evs = 1%nat
    /\ List.last (calls evs) Called_getAccountInfo = Called_replyWhatsApp "5511" text.
Proof.
  apply (webhook_replies_once_to_the_sender _ (textMessage "5511" "saldo em reais")).
  reflexivity.
Defined.


(* ===================================================================== *)
(** * Case and margins of a command *)
(* ===================================================================== *)

Lemma isSpace_lowerByte (c : ascii) : isSpace (lowerByte c) = isSpace c.
Proof. each_byte c; reflexivity. Qed.

Lemma isSpace_isASCIIByte (c : ascii) : isSpace c = true -> isASCIIByte c = true.
Proof. bytes_where c. Qed.

Lemma isASCIIByte_lowerByte (c : ascii) : isASCIIByte (lowerByte c) = isASCIIByte c.
Proof. each_byte c; reflexivity. Qed.

Lemma mapBytes_append (f : ascii -> ascii) (a b : string) :
  mapBytes f (a ++ b) = mapBytes f a ++ mapBytes f b.
Proof.
  induction a as [|c a IH]; [reflexivity|].
  rewrite !append_cons. cbn [mapBytes]. now rewrite append_cons, IH.
Qed.

Lemma allBytes_mapBytes (p : ascii -> bool) (f : ascii -> ascii) (s : string) :
  (forall c, p (f c) = p c) -> allBytes p (mapBytes f s) = allBytes p s.
Proof.
  intros H. induction s as [|c s IH]; [reflexivity|].
  cbn [mapBytes allBytes]. now rewrite H, IH.
Qed.

Lemma trimLeft_mapBytes (s : string) :
  trimLeft (mapBytes lowerByte s) = mapBytes lowerByte (trimLeft s).
Proof.
  induction s as [|c s IH]; [reflexivity|].
  cbn [mapBytes trimLeft]. rewrite isSpace_lowerByte.
  destruct (isSpace c); [exact IH|reflexivity].
Qed.

Lemma trimRight_mapBytes (s : string) :
  trimRight (mapBytes lowerByte s) = mapBytes lowerByte (trimRight s).
Proof.
  induction s as [|c s IH]; [reflexivity|].
  cbn [mapBytes trimRight]. rewrite IH, isSpace_lowerByte.
  destruct (trimRight s) as [|c' t']; cbn [mapBytes]; [|reflexivity].
  destruct (isSpace c); reflexivity.
Qed.

Lemma isASCII_trimLeft (s : string) : isASCII s = true -> isASCII (trimLeft s) = true.
Proof.
  unfold isASCII. induction s as [|c s IH]; [reflexivity|].
  cbn [allBytes trimLeft]. rewrite andb_true_iff. intros [Hc Hs].
  destruct (isSpace c); [auto|]. cbn [allBytes]. now rewrite Hc, Hs.
Qed.

Lemma isASCII_trimRight (s : string) : isASCII s = true -> isASCII (trimRight s) = true.
Proof.
  unfold isASCII. induction s as [|c s IH]; [reflexivity|].
  cbn [allBytes trimRight]. rewrite andb_true_iff. intros [Hc Hs].
  specialize (IH Hs).
  destruct (trimRight s) as [|c' t'].
  - destruct (isSpace c); [reflexivity|]. cbn [allBytes]. now rewrite Hc.
  - cbn [allBytes] in *. now rewrite Hc, IH.
Qed.

Lemma startsNonASCII_ascii (s : string) : isASCII s = true -> startsNonASCII s = false.
Proof.
  destruct s as [|c s]; [reflexivity|]. unfold isASCII. cbn [allBytes startsNonASCII].
  rewrite andb_true_iff. intros [-> _]. reflexivity.
Qed.

Lemma endsNonASCII_ascii (s : string) : isASCII s = true -> endsNonASCII s = false.
Proof.
  unfold isASCII. induction s as [|c s IH]; [reflexivity|].
  cbn [allBytes endsNonASCII]. rewrite andb_true_iff. intros [Hc Hs].
  destruct s; [now rewrite Hc|auto].
Qed.

(** On ASCII text the handler sees the text lower-cased, without its
    margins of white space, whatever the Unicode tables. *)
Lemma body_ascii (u : Unicode) (s : string) :
  isASCII s = true ->
  ToLower u (TrimSpace u s) = trimRight (trimLeft (mapBytes lowerByte s)).
Proof.
  intros H. unfold TrimSpace.
  rewrite (startsNonASCII_ascii _ (isASCII_trimLeft s H)).
  rewrite (endsNonASCII_ascii _ (isASCII_trimRight _ (isASCII_trimLeft s H))).
  unfold ToLower. rewrite (isASCII_trimRight _ (isASCII_trimLeft s H)).
  now rewrite trimLeft_mapBytes, trimRight_mapBytes.
Qed.

Lemma trimLeft_spaces (l s : string) :
  allBytes isSpace l = true -> trimLeft (l ++ s) = trimLeft s.
Proof.
  induction l as [|c l IH]; [reflexivity|].
  cbn [allBytes]. rewrite andb_true_iff. intros [Hc Hl].
  rewrite append_cons. cbn [trimLeft]. now rewrite Hc, IH.
Qed.

Lemma trimRight_all_spaces (r : string) :
  allBytes isSpace r = true -> trimRight r = "".
Proof.
  induction r as [|c r IH]; [reflexivity|].
  cbn [allBytes]. rewrite andb_true_iff. intros [Hc Hr].
  cbn [trimRight]. now rewrite (IH Hr), Hc.
Qed.

Lemma trimRight_spaces (s r : string) :
  allBytes isSpace r = true -> trimRight (s ++ r) = trimRight s.
Proof.
  intros Hr. induction s as [|c s IH].
  - rewrite append_nil_l. now apply trimRight_all_spaces.
  - rewrite append_cons. cbn [trimRight]. now rewrite IH.
Qed.

Lemma trimLeft_trimRight (s : string) : trimLeft (trimRight s) = trimRight (trimLeft s).
Proof.
  induction s as [|c s IH]; [reflexivity|].
  cbn [trimRight trimLeft]. destruct (isSpace c) eqn:Hc.
  - rewrite <- IH. destruct (trimRight s) as [|c' t']; [reflexivity|].
    cbn [trimLeft]. now rewrite Hc.
  - cbn [trimRight]. destruct (trimRight s) as [|c' t'].
    + rewrite Hc. cbn [trimLeft]. now rewrite Hc.
    + cbn [trimLeft]. now rewrite Hc.
Qed.

(** X12: a command in ASCII is read without regard to case and to the
    white space around it. Two ASCII texts that differ only in the case of
    their letters, one of them between margins of ASCII white space, are
    handled by the same run, under any Unicode tables. *)
Theorem commands_ignore_case_and_margins (from a b l r : string) (w : World)
    (t : list event) :
  isASCII a = true -> isASCII b = true ->
  mapBytes lowerByte a = mapBytes lowerByte b ->
  allBytes isSpace l = true -> allBytes isSpace r = true ->
  handleWhatsAppWebhook (Some (delivery from (l ++ a ++ r))) w t
  = handleWhatsAppWebhook (Some (delivery from b)) w t.
Proof.
  intros Ha Hb Hab Hl Hr.
  rewrite !(handleWhatsAppWebhook_refines _ _ w t (firstMessage_delivery _ _)).
  cbn [Webhook.From Webhook.Text Webhook.Body].
  assert (Hascii : isASCII (l ++ a ++ r) = true).
  { unfold isASCII in *. rewrite !allBytes_append, Ha.
    rewrite (allBytes_impl _ _ _ isSpace_isASCIIByte Hl).
    now rewrite (allBytes_impl _ _ _ isSpace_isASCIIByte Hr). }
  assert (Hbody : ToLower (unicode w) (TrimSpace (unicode w) (l ++ a ++ r))
                  = ToLower (unicode w) (TrimSpace (unicode w) b)).
  { rewrite (body_ascii _ _ Hascii), (body_ascii _ _ Hb).
    rewrite !mapBytes_append, Hab.
    rewrite trimLeft_spaces
      by now rewrite (allBytes_mapBytes isSpace lowerByte l isSpace_lowerByte).
    rewrite <- trimLeft_trimRight.
    rewrite trimRight_spaces
      by now rewrite (allBytes_mapBytes isSpace lowerByte r isSpace_lowerByte).
    apply trimLeft_trimRight. }
  unfold parse. now rewrite Hbody.
Qed.

Lemma commands_ignore_case_and_margins_witness :
  handleWhatsAppWebhook
    (Some (delivery "5511" ("  " ++ "Comprar 100 EM Btc" ++ String "010" "")))
    Sample.up []
  = handleWhatsAppWebhook (Some (delivery "5511" "comprar 100 em btc")) Sample.up [].
Proof.
  apply (commands_ignore_case_and_margins "5511" "Comprar 100 EM Btc"
           "comprar 100 em btc" "  " (String "010" "") Sample.up []);
    vm_compute; reflexivity.
Defined.

(* ===================================================================== *)
(** * The balance endpoint across the revisions *)
(* ===================================================================== *)

Lemma saldo_loop (balances : list Balance) (acc : list FiatBalance) :
  fold_left
    (fun fiatBalances balance =>
       if isFiat_v1 (Asset balance) then
         match ParseFloat (Free balance) with
         | None => fiatBalances
         | Some freeAmount =>
             if (0 <? freeAmount)%float
             then (fiatBalances
                   ++ [{| asset := Asset balance; amount := freeAmount |}])%list
             else fiatBalances
         end
       else fiatBalances)
    balances acc
  = (acc ++ omap fiatEntry balances)%list.
Proof.
  revert acc. induction balances as [|b balances IH]; intros acc.
  - cbn. now rewrite app_nil_r.
  - cbn [fold_left omap list_omap]. rewrite IH. unfold fiatEntry at 2.
    rewrite isFiat_v1_eq.
    destruct (isFiat (Asset b)); [|reflexivity].
    destruct (ParseFloat (Free b)) as [f|]; [|reflexivity].
    destruct (0 <? f)%float; [|reflexivity].
    now rewrite <- app_assoc.
Qed.

(** X13: the balance endpoint did not change between the first and the
    third revision. The handler of [GET /saldo], with its loop inline and
    its chain of comparisons for the fiat assets, and [handleGetBalance],
    with [getFiatBalances] and the map of fiat assets, make the same
    request and write the same answer in every world. *)
Theorem saldo_is_handleGetBalance (w : World) (t : list event) :
  FirstRevision.saldo w t = handleGetBalance w t.
Proof.
  unfold FirstRevision.saldo, handleGetBalance, bind.
  destruct (getAccountInfo w t) as [[[S|]| |] t']; try reflexivity.
  now rewrite saldo_loop, getFiatBalances_omap.
Qed.

(* ===================================================================== *)
(** * The two ways to buy *)
(* ===================================================================== *)

(** A buy intent carries an amount that passed the test [amount <= 0]. *)
Lemma parse_Buy_amount (u : Unicode) (text asset : string) (x : float64) :
  parse u text = Buy asset x -> (x <=? 0)%float = false.
Proof.
  unfold parse, parseAmount.
  repeat run_step; intros H; try discriminate H.
  injection H as _ <-. assumption.
Qed.

(** X14: a purchase by chat drives the exchange as the purchase endpoint
    does. When the text of a message parses to a buy of [asset] for
    [amount], the handler of the chat and [handleBuyCrypto] on the body
    [{crypto: asset, amount: amount}] start with the same events: the same
    calls of the exchange client, with the same requests and the same
    results. They differ in what follows: the chat sends one reply to the
    sender, the endpoint writes one answer. *)
Theorem chat_buy_is_the_endpoint_buy (from text asset : string) (x : float64)
    (w : World) (t : list event) :
  parse (unicode w) text = Buy asset x ->
  exists exchange reply rest answer,
    snd (handleWhatsAppWebhook (Some (delivery from text)) w t)
    = (t ++ exchange ++ Called_replyWhatsApp from reply :: rest)%list
    /\ snd (handleBuyCrypto (Some {| Crypto := asset; Amount := x |}) w t)
       = (t ++ exchange ++ [answer])%list
    /\ isAnswer answer = true
    /\ countIf isReplyCall exchange = 0%nat
    /\ countIf isAnswer exchange = 0%nat
    /\ countIf isFetchCall rest = 0%nat
    /\ countIf isOrderCall rest = 0%nat.
Proof.
  intros H.
  rewrite (handleWhatsAppWebhook_refines _ _ w t (firstMessage_delivery _ _)).
  cbn [Webhook.From Webhook.Text Webhook.Body]. rewrite H.
  pose proof (parse_Buy_amount _ _ _ _ H) as Hx. clear H.
  unfold orchestrate, buyFlow, handleBuyCrypto. cbn [Crypto Amount]. rewrite Hx.
  unfold replyWhatsApp, readReply, getAccountInfo, buyCrypto,
    c_JSON, bind, ask, now, clientDo, emit, ret, panic, fatal.
  cbn [isTradingPairValid negb].
  repeat run_step.
  all: run_trace.
  all: match goal with
       | |- exists _ _ _ _, _ /\ (?t ++ ?l)%list = _ /\ _ => exists (removelast l)
       end.
  all: cbn [removelast app].
  all: eexists _, _, _; (split; [reflexivity|]); (split; [reflexivity|]).
  all: repeat split; reflexivity.
Qed.

Lemma chat_buy_is_the_endpoint_buy_witness :
  exists exchange reply rest answer,
    snd (handleWhatsAppWebhook (Some (delivery "5511" "comprar 100 em btc")) Sample.up [])
    = ([] ++ exchange ++ Called_replyWhatsApp "5511" reply :: rest)%list
    /\ snd (handleBuyCrypto (Some {| Crypto := "BTC"; Amount := 100%float |})
              Sample.up [])
       = ([] ++ exchange ++ [answer])%list
    /\ isAnswer answer = true
    /\ countIf isReplyCall exchange = 0%nat
    /\ countIf isAnswer exchange = 0%nat
    /\ countIf isFetchCall rest = 0%nat
    /\ countIf isOrderCall rest = 0%nat.
Proof.
  apply (chat_buy_is_the_endpoint_buy "5511" "comprar 100 em btc" "BTC" 100%float
           Sample.up []).
  vm_compute. reflexivity.
Defined.

(* ===================================================================== *)
(** * The second revision *)
(* ===================================================================== *)

Lemma append_cancel_r (a b c : string) : a ++ c = b ++ c -> a = b.
Proof.
  revert b. induction a as [|x a IH]; intros [|y b] H.
  - reflexivity.
  - apply (f_equal String.length) in H. rewrite append_nil_l, length_append in H.
    cbn [String.length] in H. lia.
  - apply (f_equal String.length) in H. rewrite append_nil_l, length_append in H.
    cbn [String.length] in H. lia.
  - rewrite !append_cons in H. injection H as -> H. now rewrite (IH b H).
Qed.

(** X15: [buildSecretPath] gives every secret name a path of its own, the
    latest version of the secret of that name in the project: two senders
    never read the same secret. *)
Theorem buildSecretPath_inj (a b : string) :
  SecondRevision.buildSecretPath a = SecondRevision.buildSecretPath b <-> a = b.
Proof.
  split; [|now intros ->].
  unfold SecondRevision.buildSecretPath. intros H.
  apply (append_cancel_r a b "/versions/latest").
  cbn in H. rewrite !append_cons, !append_nil_l in H.
  repeat match type of H with String _ _ = String _ _ => injection H as H end.
  exact H.
Qed.

Ltac unfold_rev2 :=
  unfold SecondRevision.handleWhatsAppWebhook, SecondRevision.configure,
    SecondRevision.verifyWebhook,
    SecondRevision.accessSecretVersion, SecondRevision.assertString,
    SecondRevision.replyWhatsApp, SecondRevision.readReply,
    SecondRevision.getAccountInfo, SecondRevision.buyCrypto,
    SecondRevision.c_JSON, SecondRevision.c_String, SecondRevision.bind,
    SecondRevision.now, SecondRevision.clientDo, SecondRevision.globals,
    SecondRevision.assign, SecondRevision.emit, SecondRevision.ret,
    SecondRevision.panic, SecondRevision.fatal.

(** X16: in the second revision a message of a sender whose keys cannot be
    read crashes the handler before anything is done. When the Secret
    Manager gives no secret for the sender, or a payload that is not a JSON
    object, or an object without a string under [BINANCE_API_KEY] or
    [BINANCE_SECRET_KEY], the handler panics: no reply is sent to the
    sender, no answer is written and the exchange is not called. When the
    client of the Secret Manager cannot be created, the process exits. *)
Theorem sender_without_keys_gets_no_reply (w : World) (p : SecondRevision.Platform)
    (valid : string -> bool) (req : Webhook.payload) (msg : Webhook.message)
    (g : SecondRevision.Globals) (t : list event) :
  firstMessage req = Some msg ->
  credentialsOf p (Webhook.From msg) = None ->
  match SecondRevision.NewClientError p with
  | None =>
      exists text g',
        SecondRevision.handleWhatsAppWebhook w p valid (Some req) g t
        = (Panicked text, g', t)
  | Some e =>
      SecondRevision.handleWhatsAppWebhook w p valid (Some req) g t
      = (Exited ("failed to setup client: " ++ e), g,
         (t ++ [Logged ("failed to setup client: " ++ e)])%list)
  end.
Proof.
  intros Hm Hc. unfold credentialsOf in Hc. unfold_rev2. rewrite Hm.
  destruct (SecondRevision.NewClientError p) as [e|]; [reflexivity|].
  destruct (SecondRevision.AccessSecretVersion p _) as [data|err];
    [|eexists _, _; reflexivity].
  destruct (SecondRevision.Unmarshal_Secret p data) as [secretData|err];
    [|eexists _, _; reflexivity].
  cbn [SecondRevision.Value].
  destruct (secretData !! "BINANCE_API_KEY") as [[| | |k| |]|];
    try (eexists _, _; reflexivity).
  destruct (secretData !! "BINANCE_SECRET_KEY") as [[| | |s| |]|];
    try (eexists _, _; reflexivity).
  discriminate Hc.
Qed.

Lemma sender_without_keys_gets_no_reply_witness :
  exists text g',
    SecondRevision.handleWhatsAppWebhook Sample.up vault (fun _ => true)
      (Some (delivery "5599" "saldo em reais")) SecondRevision.unset []
    = (Panicked text, g', []).
Proof.
  apply (sender_without_keys_gets_no_reply Sample.up vault (fun _ => true)
           (delivery "5599" "saldo em reais") (textMessage "5599" "saldo em reais")
           SecondRevision.unset []); reflexivity.
Defined.

(** X17: [replyWhatsApp] of the second revision has no test for a missing
    response. It returns exactly when the request could be built and the
    round trip gave a response; a round trip that fails without a response
    makes it panic, after the request and one line of log, and it never
    changes the package variables. *)
Theorem second_replyWhatsApp_needs_a_response (w : World)
    (p : SecondRevision.Platform) (g : SecondRevision.Globals) (t : list event)
    (to message : string) :
  let seen := (t ++ [Called_replyWhatsApp to message])%list in
  let req := SecondRevision.replyRequest p g to message in
  ((exists t', SecondRevision.replyWhatsApp w p to message g t = (Returned tt, g, t'))
   <-> NewRequestError w (URL req) = None /\ forall e, Do w seen req <> Failed e)
  /\ (forall e,
        NewRequestError w (URL req) = None ->
        Do w seen req = Failed e ->
        SecondRevision.replyWhatsApp w p to message g t
        = (Panicked "invalid memory address or nil pointer dereference", g,
           (seen ++ [RoundTripped req (Failed e);
                     Logged ("Can't send WhatsApp message: " ++ e)])%list))
  /\ exists o t', SecondRevision.replyWhatsApp w p to message g t = (o, g, t').
Proof.
  unfold_rev2.
  repeat run_step.
  all: split; [split|split].
  all: try (intros [t' H]; first [ discriminate H | split; [reflexivity|discriminate] ]).
  all: try (intros [Hn Hd];
            first [ discriminate Hn | exfalso; exact (Hd _ eq_refl)
                  | eexists; reflexivity ]).
  all: try (intros e' Hn Hd;
            first [ discriminate Hn | discriminate Hd
                  | injection Hd as <-; now rewrite <- app_assoc ]).
  all: eexists _, _; reflexivity.
Qed.

(** X19: the second revision starts only with a whole configuration. The
    start of [main] returns exactly when the secret [whatsappConfigs] can
    be read and holds strings under [WHATSAPP_PHONE_ID], [WHATSAPP_TOKEN]
    and [WHATSAPP_API_URL]; it then has stored these three and left the
    keys of the exchange as they were, and [verifyWebhook] accepts a
    request exactly when its mode is [subscribe] and its token is the one of
    the secret. Otherwise the start ends in an exit or a panic, and the
    router is not reached. *)
Theorem configure_needs_the_whole_secret (w : World) (p : SecondRevision.Platform)
    (g : SecondRevision.Globals) (t : list event) :
  match SecondRevision.NewClientError p, configOf p with
  | None, Some (phone, token, url) =>
      let g' := {| SecondRevision.binanceApiKey := SecondRevision.binanceApiKey g;
                   SecondRevision.binanceSecretKey := SecondRevision.binanceSecretKey g;
                   SecondRevision.whatsappToken := token;
                   SecondRevision.whatsappApiUrl := url;
                   SecondRevision.whatsappPhoneId := phone |} in
      SecondRevision.configure p g t = (Returned tt, g', t)
      /\ forall query t',
           SecondRevision.verifyWebhook query g' t'
           = (Returned tt, g',
              (t' ++ [if String.eqb (query "hub.mode") "subscribe"
                         && String.eqb (query "hub.verify_token") token
                      then WroteString StatusOK (query "hub.challenge")
                      else WroteString StatusForbidden "Forbidden"])%list)
  | _, _ =>
      exists o g' t',
        SecondRevision.configure p g t = (o, g', t') /\ o <> Returned tt
  end.
Proof.
  destruct (SecondRevision.NewClientError p) as [e|] eqn:Hclient.
  { destruct (configOf p) as [[[? ?] ?]|]; unfold_rev2; rewrite Hclient;
      eexists _, _, _; (split; [reflexivity|discriminate]). }
  unfold configOf. unfold_rev2. rewrite Hclient.
  destruct (SecondRevision.AccessSecretVersion p _) as [data|err];
    [|eexists _, _, _; (split; [reflexivity|discriminate])].
  destruct (SecondRevision.Unmarshal_Secret p data) as [secretData|err];
    [|eexists _, _, _; (split; [reflexivity|discriminate])].
  cbn [SecondRevision.Value].
  destruct (secretData !! "WHATSAPP_PHONE_ID") as [[| | |phone| |]|];
    try (eexists _, _, _; (split; [reflexivity|discriminate])).
  destruct (secretData !! "WHATSAPP_TOKEN") as [[| | |token| |]|];
    try (eexists _, _, _; (split; [reflexivity|discriminate])).
  destruct (secretData !! "WHATSAPP_API_URL") as [[| | |url| |]|];
    try (eexists _, _, _; (split; [reflexivity|discriminate])).
  split; [reflexivity|].
  intros query t'.
  cbn [SecondRevision.whatsappToken].
  destruct (String.eqb (query "hub.mode") "subscribe"
            && String.eqb (query "hub.verify_token") token); reflexivity.
Qed.

(* ===================================================================== *)
(** * The start of the service *)
(* ===================================================================== *)

(** X22: the third revision starts exactly when the API key, the secret
    key, the token and the phone identifier are all set in the environment;
    otherwise it logs and exits before the router. A service that started
    refuses every verification request without a token: the empty token is
    never the expected one. *)
Theorem started_service_refuses_the_empty_token (w : World) (t : list event) :
  ((exists t', startup w t = (Returned tt, t'))
   <-> Getenv w "BINANCE_API_KEY" <> "" /\ Getenv w "BINANCE_SECRET_KEY" <> ""
       /\ Getenv w "WHATSAPP_TOKEN" <> "" /\ Getenv w "WHATSAPP_PHONE_ID" <> "")
  /\ ((exists t', startup w t = (Returned tt, t')) ->
      forall query t0,
        query "hub.verify_token" = "" ->
        verifyWebhook query w t0
        = (Returned tt, (t0 ++ [WroteString StatusForbidden "Forbidden"])%list)).
Proof.
  unfold startup, verifyWebhook, apiKey, secretKey, bind, ask, fatal, ret, c_String, emit.
  destruct (String.eqb_spec (Getenv w "BINANCE_API_KEY") "") as [Ek|Nk];
    destruct (String.eqb_spec (Getenv w "BINANCE_SECRET_KEY") "") as [Es|Ns];
    destruct (String.eqb_spec (Getenv w "WHATSAPP_TOKEN") "") as [Et|Nt];
    destruct (String.eqb_spec (Getenv w "WHATSAPP_PHONE_ID") "") as [Ep|Np];
    cbn [orb]; (split; [split|]).
  all: try (intros [t' H]; discriminate H).
  all: try (intros (Hk & Hs & Ht & Hp); congruence).
  - intros _. repeat split; assumption.
  - intros _. eexists; reflexivity.
  - intros _ query t0 Hq. rewrite Hq.
    destruct (String.eqb_spec "" (Getenv w "WHATSAPP_TOKEN")) as [E|_];
      [congruence|].
    now rewrite andb_false_r.
Qed.

(* ===================================================================== *)
(** * What the purchase endpoint asks of the exchange *)
(* ===================================================================== *)

Ltac asked_goals :=
  intros ? ? Hin; cbn [In] in Hin;
  repeat match type of Hin with
         | _ \/ _ => destruct Hin as [Hin|Hin]
         | False => destruct Hin
         | _ = _ => first [ discriminate Hin | injection Hin as <- <- ]
         end.

(** X23: [handleBuyCrypto] asks the exchange for what the body asks, as it
    is written. Every order it submits is for the symbol [crypto] followed
    by BRL, with the case of [crypto] unchanged, and for the amount of the
    body; every request of the run goes to the exchange, and is the account
    request or the order request for this symbol and amount. *)
Theorem handleBuyCrypto_orders_what_was_asked (bound : option BuyRequest) (w : World)
    (t : list event) :
  exists evs,
    snd (handleBuyCrypto bound w t) = (t ++ evs)%list
    /\ (forall symbol amount,
          In (Called_buyCrypto symbol amount) evs ->
          exists req, bound = Some req
                      /\ symbol = Crypto req ++ BRL /\ amount = Amount req)
    /\ (forall r res,
          In (RoundTripped r res) evs ->
          exists req ms,
            bound = Some req
            /\ (r = accountRequest w ms
                \/ r = orderRequest w (Crypto req ++ BRL) (Amount req) ms)).
Proof.
  unfold handleBuyCrypto, getAccountInfo, buyCrypto, c_JSON, bind, ask, now,
    clientDo, emit, ret.
  cbn [isTradingPairValid negb].
  repeat run_step.
  all: run_trace; eexists; (split; [reflexivity|]).
  all: split; asked_goals.
  all: first [ eexists; split; [reflexivity|split; reflexivity]
             | eexists _, _; split; [reflexivity|left; reflexivity]
             | eexists _, _; split; [reflexivity|right; reflexivity] ].
Qed.
